(** * Smart Attendance backend: register, bulk edit, cache, promotion

    A shallow embedding of the route handlers of
    [routes/viewAttendanceRoutes.js] (which also carries [attendanceRoutes.js]),
    [routes/promotion.js] and [routes/teacherRoutes.js], with the properties
    of the specification stated and proved against them.

    Conventions of the embedding:
    - a MongoDB collection addressed by [_id] is a [gmap] from ids to
      documents; a collection addressed by predicates is a [list];
    - [Date.now()] and [new Date()] are an explicit [now : Z] argument
      (milliseconds since the epoch);
    - a handler is a function from the request and the state to a
      [Response] and the next state;
    - request fields that may be missing ([undefined]) are [option]s. *)

From Stdlib Require Import ZArith Lia List Bool Ascii String DecimalString.
From Stdlib Require Import QArith Qround Qpower Lqa SpecFloat.
From stdpp Require Import base option list gmap strings sorting.

Open Scope string_scope.
Open Scope list_scope.
Open Scope Z_scope.

(** ** JavaScript helpers *)

Module Js.

(** [a || b] on numbers: [undefined] and [0] are falsy. *)
Definition or_num (a : option Z) (b : Z) : Z :=
  match a with
  | Some v => if v =? 0 then b else v
  | None => b
  end.

(** [!n] on a number that is present. *)
Definition falsy_num (n : Z) : bool := n =? 0.

(** A string field that is present and non-empty ([!s] is false). *)
Definition truthy_str (s : option string) : option string :=
  match s with
  | Some "" => None
  | other => other
  end.

Definition lower_ascii (c : ascii) : ascii :=
  let n := nat_of_ascii c in
  if ((65 <=? n)%nat && (n <=? 90)%nat)%bool then ascii_of_nat (n + 32) else c.

(** [s.toLowerCase()] on ASCII letters. *)
Fixpoint toLowerCase (s : string) : string :=
  match s with
  | EmptyString => EmptyString
  | String c r => String (lower_ascii c) (toLowerCase r)
  end.

(** [key.startsWith(pattern)]. *)
Definition startsWith (key pattern : string) : bool := String.prefix pattern key.

(** The characters with a meaning of their own in a pattern
    ([SyntaxCharacter] of the language's grammar): [^ $ \ . * + ? ( ) [ ] { } |]. *)
Definition regex_meta (c : ascii) : bool :=
  let n := nat_of_ascii c in
  existsb (Nat.eqb n) [94; 36; 92; 46; 42; 43; 63; 40; 41; 91; 93; 123; 125; 124]%nat.

(** A request parameter that [new RegExp(`^${pat}$`, 'i')] reads as the
    text itself: ASCII characters, none of them a metacharacter. (Case is
    folded on ASCII letters only; a character outside ASCII never folds
    onto an ASCII one.) *)
Fixpoint regex_literal (pat : string) : bool :=
  match pat with
  | EmptyString => true
  | String c r => (nat_of_ascii c <? 128)%nat && negb (regex_meta c) && regex_literal r
  end.

(** [*], [+] and [?]. *)
Definition regex_quantifier (c : ascii) : bool :=
  let n := nat_of_ascii c in ((n =? 42) || (n =? 43) || (n =? 63))%nat.

(** What follows the first quantifier of [pat], when only characters that
    are no metacharacters come before it; [first] says that nothing does. *)
Fixpoint regex_throws_from (first : bool) (pat : string) : bool :=
  match pat with
  | EmptyString => false
  | String c r =>
      if regex_quantifier c
      then first
           || match r with
              | String d _ => ((nat_of_ascii d =? 42) || (nat_of_ascii d =? 43))%nat
              | EmptyString => false
              end
      else if regex_meta c then false
      else regex_throws_from false r
  end.

(** [new RegExp(`^${pat}$`, 'i')] throws the SyntaxError "Nothing to
    repeat": after characters that are no metacharacters, [pat] holds a
    quantifier at its very start or a [*] or [+] right after a quantifier
    (["C++"]). Other malformed patterns throw too; they are outside
    [regex_literal] and outside this test. *)
Definition regex_throws (pat : string) : bool := regex_throws_from true pat.

(** [new RegExp(`^${pat}$`, 'i')] tested on [s], for a [pat] that is
    [regex_literal]: equality up to letter case. For a [pat] with
    metacharacters the expression means something else, or its
    construction throws; the properties that say what a register route
    answers for a stream and a subject carry [regex_literal] of both as a
    hypothesis. *)
Definition regex_i (pat s : string) : bool :=
  String.eqb (toLowerCase pat) (toLowerCase s).

(** The message of the SyntaxError of [regex_throws]. *)
Definition nothing_to_repeat (pat : string) : string :=
  ("Invalid regular expression: /^" ++ pat ++ "$/i: Nothing to repeat")%string.

(** The Number nearest to an integer, ties to the even significand: an
    integer of magnitude up to 2^53 is a Number; a larger one is rounded
    to 53 significant bits. (No integer the routes meet is large enough
    to overflow.) *)
Definition to_double (z : Z) : Z :=
  let a := Z.abs z in
  if a <=? 2 ^ 53 then z
  else
    let e := Z.log2 a - 52 in
    let q := a / 2 ^ e in
    let r := a mod 2 ^ e in
    let half := 2 ^ (e - 1) in
    let m := if r <? half then q
             else if half <? r then q + 1
             else if Z.even q then q else q + 1 in
    Z.sgn z * (m * 2 ^ e).

(** [a - b] on Numbers that hold integers. *)
Definition sub (a b : Z) : Z := to_double (a - b).

(** The double-quote character of JSON output. *)
Definition dq : string := String (ascii_of_nat 34) EmptyString.

Definition hex_digit (n : nat) : ascii :=
  if (n <? 10)%nat then ascii_of_nat (48 + n) else ascii_of_nat (87 + n).

(** The escape of one character inside a JSON string literal: the quote,
    the backslash and the control characters are escaped. *)
Definition json_escape_char (c : ascii) : string :=
  let n := nat_of_ascii c in
  if ((n =? 34)%nat || (n =? 92)%nat)%bool then String (ascii_of_nat 92) (String c EmptyString)
  else if (n =? 8)%nat then String (ascii_of_nat 92) "b"
  else if (n =? 9)%nat then String (ascii_of_nat 92) "t"
  else if (n =? 10)%nat then String (ascii_of_nat 92) "n"
  else if (n =? 12)%nat then String (ascii_of_nat 92) "f"
  else if (n =? 13)%nat then String (ascii_of_nat 92) "r"
  else if (n <? 32)%nat
  then String (ascii_of_nat 92)
         (String "u" (String "0" (String "0"
            (String (hex_digit (n / 16)) (String (hex_digit (n mod 16)) EmptyString)))))
  else String c EmptyString.

(** The escaping [JSON.stringify] applies inside a string literal. *)
Fixpoint json_escape (s : string) : string :=
  match s with
  | EmptyString => EmptyString
  | String c r => (json_escape_char c ++ json_escape r)%string
  end.

Definition json_string (s : string) : string := (dq ++ json_escape s ++ dq)%string.

(** [JSON.stringify(n)] for an integer [n]. *)
Definition json_int (n : Z) : string := NilZero.string_of_int (Z.to_int n).

End Js.

(** ** HTTP responses

    Every handler answers [res.json({success: true, ...})] or
    [res.status(code).json({success: false, error})]. *)

Inductive Response (A : Type) : Type :=
| Success (body : A)
| Failure (status : nat) (error : string).
Arguments Success {A} body.
Arguments Failure {A} status error.

Definition is_success {A} (r : Response A) : bool :=
  match r with Success _ => true | Failure _ _ => false end.

(** ** The roster document shared by the register and the promotion routes *)

(** A document of the [students] collection without its storage identity. *)
Record StudentFields : Type := mkStudentFields {
  studentID : string;
  name : string;
  stream : string;
  semester : Z;
  rollNumber : option string;
  isActive : bool;
  updatedAt : Z
}.

(** A stored document: the fields and the [_id] the store assigned. *)
Record Student : Type := mkStudent {
  _id : nat;
  fields : StudentFields
}.

#[global] Instance StudentFields_eq_dec : EqDecision StudentFields.
Proof. solve_decision. Defined.
#[global] Instance Student_eq_dec : EqDecision Student.
Proof. solve_decision. Defined.

(** The [stream] field of a stored student. *)
Definition stream_of (s : Student) : string := stream (fields s).

(** ** Session store, result cache and the edit routes
    ([viewAttendanceRoutes.js] and [attendanceRoutes.js]) *)

Module Attendance.

(** A document of the [attendance] collection ([attendanceSchema]); its
    [_id] is the key under which the collection holds it. The string
    fields are taken already trimmed. *)
Record Session : Type := mkSession {
  s_stream : string;
  s_semester : Z;
  s_subject : string;
  s_date : Z;
  s_time : string;
  studentsPresent : list string;
  totalStudents : Z;
  presentCount : Z;
  absentCount : Z
}.

#[global] Instance Session_eq_dec : EqDecision Session.
Proof. solve_decision. Defined.

(** One row of the [$group] stage of the stats pipeline. The
    [avgAttendance] column, a floating-point [$avg] of [$divide], is not
    carried; the failure of [$divide] on a zero divisor is (see
    [aggregate]). *)
Record SubjectStats : Type := mkSubjectStats {
  g_subject : string;
  totalClasses : Z;
  totalPresent : Z;
  totalAbsent : Z
}.

#[global] Instance SubjectStats_eq_dec : EqDecision SubjectStats.
Proof. solve_decision. Defined.

(** [cache.set(key, { data, timestamp })]. *)
Record CacheEntry : Type := mkCacheEntry {
  data : list SubjectStats;
  timestamp : Z
}.

(** The process state the routes share: the collection, the module-level
    [cache] of [viewAttendanceRoutes.js], the module-level [cache] of
    [attendanceRoutes.js], and a count of the aggregate queries sent to
    the store. *)
Record State : Type := mkState {
  attendance : gmap nat Session;
  viewCache : gmap string CacheEntry;
  attCache : gmap string CacheEntry;
  storeQueries : nat
}.

Definition with_attendance (m : gmap nat Session) (st : State) : State :=
  mkState m (viewCache st) (attCache st) (storeQueries st).
Definition with_viewCache (c : gmap string CacheEntry) (st : State) : State :=
  mkState (attendance st) c (attCache st) (storeQueries st).
Definition with_attCache (c : gmap string CacheEntry) (st : State) : State :=
  mkState (attendance st) (viewCache st) c (storeQueries st).
Definition count_query (st : State) : State :=
  mkState (attendance st) (viewCache st) (attCache st) (S (storeQueries st)).

(** *** Caching *)

Definition CACHE_TTL : Z := 5 * 60 * 1000.

(** [getCacheKey('stats', { stream, semester: semesterNumber })]:
    the prefix, a colon, and [JSON.stringify] of the object. *)
Definition getCacheKey_stats (stream : string) (semesterNumber : Z) : string :=
  ("stats" ++ ":" ++ "{" ++ Js.json_string "stream" ++ ":" ++ Js.json_string stream
   ++ "," ++ Js.json_string "semester" ++ ":" ++ Js.json_int semesterNumber ++ "}")%string.

Definition setCache (key : string) (d : list SubjectStats) (now : Z)
    (cache : gmap string CacheEntry) : gmap string CacheEntry :=
  <[key := mkCacheEntry d now]> cache.

(** [getCache]: a miss when the key is absent or the entry is older than
    the TTL, in which case the entry is deleted. *)
Definition getCache (key : string) (now : Z) (cache : gmap string CacheEntry)
    : option (list SubjectStats) * gmap string CacheEntry :=
  match cache !! key with
  | None => (None, cache)
  | Some cached =>
      if now - timestamp cached >? CACHE_TTL
      then (None, delete key cache)
      else (Some (data cached), cache)
  end.

(** [clearCachePattern]: delete every key that starts with [pattern]. *)
Definition clearCachePattern (pattern : string) (cache : gmap string CacheEntry)
    : gmap string CacheEntry :=
  filter (fun kv => Js.startsWith (fst kv) pattern = false) cache.

(** *** The stats pipeline *)

(** [$group: { _id: '$subject', totalClasses: {$sum: 1}, ... }]: add one
    session to the row of its subject. *)
Fixpoint group_add (s : Session) (rows : list SubjectStats) : list SubjectStats :=
  match rows with
  | [] => [mkSubjectStats (s_subject s) 1 (presentCount s) (absentCount s)]
  | r :: rest =>
      if String.eqb (g_subject r) (s_subject s)
      then mkSubjectStats (g_subject r) (totalClasses r + 1)
             (totalPresent r + presentCount s) (totalAbsent r + absentCount s) :: rest
      else r :: group_add s rest
  end.

Definition subject_le (a b : SubjectStats) : Prop :=
  String.leb (g_subject a) (g_subject b) = true.

#[global] Instance subject_le_dec : RelDecision subject_le.
Proof. intros a b. unfold subject_le. apply _. Defined.

(** [Attendance.aggregate([{$match}, {$group}, {$sort: {_id: 1}}])] over the
    sessions selected by [matches]. [$divide] by a [totalStudents] of zero
    makes the store reject the pipeline: [None]. *)
Definition aggregate (matches : Session -> bool) (coll : gmap nat Session)
    : option (list SubjectStats) :=
  let selected := List.filter matches (snd <$> map_to_list coll) in
  if forallb (fun s => negb (totalStudents s =? 0)) selected
  then Some (merge_sort subject_le (fold_right group_add [] selected))
  else None.

(** [$match] of [viewAttendanceRoutes.js]: the stream through a
    case-insensitive anchored regular expression. *)
Definition match_view (stream : string) (semesterNumber : Z) (s : Session) : bool :=
  Js.regex_i stream (s_stream s) && (s_semester s =? semesterNumber).

(** [$match] of [attendanceRoutes.js]: the stream as it is. *)
Definition match_att (stream : string) (semesterNumber : Z) (s : Session) : bool :=
  String.eqb stream (s_stream s) && (s_semester s =? semesterNumber).

(** The [$match] stage of [viewAttendanceRoutes.js] as the handler builds
    it, or the answer of the [catch] when the constructor of its regular
    expression throws. *)
Definition view_pipeline (stream : string) (semesterNumber : Z) : Response (Session -> bool) :=
  if Js.regex_throws stream then Failure 500 (Js.nothing_to_repeat stream)
  else Success (match_view stream semesterNumber).

(** The body both [GET /attendance/stats/:stream/:semester] handlers share,
    over the cache of their own module. The pipeline is built when the
    cache has no answer; the last component says whether the store was
    asked. *)
Definition stats_with (pipeline : Response (Session -> bool)) (key : string) (now : Z)
    (cache : gmap string CacheEntry) (coll : gmap nat Session)
    : Response (list SubjectStats) * gmap string CacheEntry * bool :=
  match getCache key now cache with
  | (Some stats, cache1) => (Success stats, cache1, false)
  | (None, cache1) =>
      match pipeline with
      | Failure status error => (Failure status error, cache1, false)
      | Success matches =>
          match aggregate matches coll with
          | Some stats => (Success stats, setCache key stats now cache1, true)
          | None => (Failure 500 "can't $divide by zero", cache1, true)
          end
      end
  end.

(** [GET /attendance/stats/:stream/:semester] of [viewAttendanceRoutes.js]. *)
Definition view_stats (now : Z) (stream : string) (semesterNumber : Z) (st : State)
    : Response (list SubjectStats) * State :=
  let '(r, c, queried) :=
    stats_with (view_pipeline stream semesterNumber)
      (getCacheKey_stats stream semesterNumber) now (viewCache st) (attendance st) in
  (r, with_viewCache c (if queried then count_query st else st)).

(** [GET /attendance/stats/:stream/:semester] of [attendanceRoutes.js]. *)
Definition att_stats (now : Z) (stream : string) (semesterNumber : Z) (st : State)
    : Response (list SubjectStats) * State :=
  let '(r, c, queried) :=
    stats_with (Success (match_att stream semesterNumber))
      (getCacheKey_stats stream semesterNumber) now (attCache st) (attendance st) in
  (r, with_attCache c (if queried then count_query st else st)).

(** *** Writing sessions *)

(** The validators of [attendanceSchema] that [save()] runs: [required] on
    the strings, [min]/[max] on the numbers. *)
Definition schema_valid (d : Session) : bool :=
  negb (String.eqb (s_stream d) "") && negb (String.eqb (s_subject d) "")
  && negb (String.eqb (s_time d) "")
  && (1 <=? s_semester d) && (s_semester d <=? 8)
  && (0 <=? totalStudents d) && (0 <=? presentCount d) && (0 <=? absentCount d).

(** [attendanceSchema.pre('save', ...)]: fill the counts that are falsy. *)
Definition pre_save (d : Session) : Session :=
  let pc := if Js.falsy_num (presentCount d)
            then Z.of_nat (length (studentsPresent d)) else presentCount d in
  let ac := if Js.falsy_num (absentCount d)
            then Js.sub (totalStudents d) pc else absentCount d in
  mkSession (s_stream d) (s_semester d) (s_subject d) (s_date d) (s_time d)
    (studentsPresent d) (totalStudents d) pc ac.

(** [new Attendance(doc).save()]: validation, then the pre-save hook, then
    the insert under a fresh [_id]. [None] is the rejected promise. *)
Definition save (d : Session) (coll : gmap nat Session) : option (nat * gmap nat Session) :=
  if schema_valid d
  then let id := fresh (dom coll) in Some (id, <[id := pre_save d]> coll)
  else None.

(** The body of [POST /attendance/:stream/:semester/:subject]. [b_date] is
    the instant [new Date(date)] denotes for a [date] that passes the
    [!date] test of the route, and [None] for a [date] that is missing or
    falsy (the empty string, the number 0). *)
Record SubmitBody : Type := mkSubmitBody {
  b_date : option Z;
  b_time : option string;
  b_studentsPresent : option (list string);
  b_totalStudents : option Z;
  b_presentCount : option Z;
  b_absentCount : option Z
}.

(** [POST /attendance/:stream/:semester/:subject] ([attendanceRoutes.js]).
    [stream] and [subject] are taken as the schema's [trim] leaves them.
    The text of the 500 answer is the message of the validation error; the
    model carries its first words. *)
Definition submit (stream : string) (semesterNumber : Z) (subject : string)
    (body : SubmitBody) (st : State) : Response nat * State :=
  match b_date body, Js.truthy_str (b_time body), b_studentsPresent body,
        b_totalStudents body with
  | Some date, Some time, Some present, Some total =>
      let doc :=
        mkSession stream semesterNumber subject date time present total
          (Js.or_num (b_presentCount body) (Z.of_nat (length present)))
          (Js.or_num (b_absentCount body) (Js.sub total (Z.of_nat (length present)))) in
      match save doc (attendance st) with
      | Some (id, coll) =>
          let c := clearCachePattern ("stats:" ++ stream)%string
                     (clearCachePattern ("attendance:" ++ stream)%string (attCache st)) in
          (Success id, with_attCache c (with_attendance coll st))
      | None => (Failure 500 "Attendance validation failed", st)
      end
  | _, _, _, _ =>
      (Failure 400 "Missing required fields: date, time, studentsPresent, totalStudents", st)
  end.

(** The body of [PUT /attendance/session/:id]. *)
Record UpdateBody : Type := mkUpdateBody {
  u_studentsPresent : option (list string);
  u_totalStudents : option Z
}.

(** The [$set] of the two update routes, applied to a stored document.
    [findByIdAndUpdate] and [bulkWrite] run no schema validator. *)
Definition set_counts (present : list string) (total : Z) (old : Session) : Session :=
  let presentCount := Z.of_nat (length present) in
  let absentCount := Js.sub total presentCount in
  mkSession (s_stream old) (s_semester old) (s_subject old) (s_date old) (s_time old)
    present total presentCount absentCount.

(** [PUT /attendance/session/:id] ([viewAttendanceRoutes.js]). The log line
    that reads [studentsPresent.length] comes before the checks, so a
    missing array ends in the [catch]. *)
Definition updateSession (id : nat) (body : UpdateBody) (st : State)
    : Response Session * State :=
  match u_studentsPresent body with
  | None => (Failure 500 "Cannot read properties of undefined (reading 'length')", st)
  | Some present =>
      match u_totalStudents body with
      | None => (Failure 400 "totalStudents required", st)
      | Some total =>
          if Js.falsy_num total || (total <? 1)
          then (Failure 400 "totalStudents required", st)
          else
            match attendance st !! id with
            | None => (Failure 404 "Session not found", st)
            | Some old =>
                let result := set_counts present total old in
                let c := clearCachePattern ("stats:" ++ s_stream result)%string
                           (clearCachePattern ("attendance:" ++ s_stream result)%string
                              (viewCache st)) in
                (Success result,
                 with_viewCache c (with_attendance (<[id := result]> (attendance st)) st))
            end
      end
  end.

(** One element of [updates] in [PUT /attendance/bulk/...]. *)
Record BulkItem : Type := mkBulkItem {
  sessionId : nat;
  bi_studentsPresent : list string;
  bi_totalStudents : Z
}.

(** One [updateOne] of the [bulkWrite]: the collection after it and whether
    a document was modified. The schema has [timestamps: true], so the
    update also sets [updatedAt] and a document that is matched counts as
    modified, whether or not the counts change. *)
Definition bulk_op (coll : gmap nat Session) (u : BulkItem) : gmap nat Session * bool :=
  match coll !! sessionId u with
  | None => (coll, false)
  | Some old =>
      let new := set_counts (bi_studentsPresent u) (bi_totalStudents u) old in
      (<[sessionId u := new]> coll, true)
  end.

(** [Attendance.bulkWrite(bulkOps)]: the operations in order, and
    [modifiedCount]. *)
Fixpoint bulkWrite (updates : list BulkItem) (coll : gmap nat Session)
    : gmap nat Session * nat :=
  match updates with
  | [] => (coll, 0%nat)
  | u :: rest =>
      let '(coll1, changed) := bulk_op coll u in
      let '(coll2, n) := bulkWrite rest coll1 in
      (coll2, if changed then S n else n)
  end.

(** [PUT /attendance/bulk/:stream/:semester/:subject/:date]
    ([viewAttendanceRoutes.js]); the answer carries [modifiedCount]. *)
Definition bulkUpdate (stream : string) (updates : option (list BulkItem)) (st : State)
    : Response nat * State :=
  match updates with
  | None => (Failure 400 "Updates array required", st)
  | Some ups =>
      let '(coll, modified) := bulkWrite ups (attendance st) in
      let c := clearCachePattern ("stats:" ++ stream)%string
                 (clearCachePattern ("attendance:" ++ stream)%string (viewCache st)) in
      (Success modified, with_viewCache c (with_attendance coll st))
  end.

(** The body of [PUT /attendance/:id], as far as it sets the present list
    and the counts. *)
Record RecordBody : Type := mkRecordBody {
  rb_studentsPresent : option (list string);
  rb_totalStudents : option Z;
  rb_presentCount : option Z;
  rb_absentCount : option Z
}.

Definition min_zero (v : option Z) : bool :=
  match v with
  | Some n => 0 <=? n
  | None => true
  end.

(** The update validators [runValidators: true] turns on: the [min] of
    every number the update sets. *)
Definition update_valid (body : RecordBody) : bool :=
  min_zero (rb_totalStudents body) && min_zero (rb_presentCount body)
  && min_zero (rb_absentCount body).

Definition merge_body (body : RecordBody) (old : Session) : Session :=
  mkSession (s_stream old) (s_semester old) (s_subject old) (s_date old) (s_time old)
    (default (studentsPresent old) (rb_studentsPresent body))
    (default (totalStudents old) (rb_totalStudents body))
    (default (presentCount old) (rb_presentCount body))
    (default (absentCount old) (rb_absentCount body)).

(** [PUT /attendance/:id] ([attendanceRoutes.js]):
    [findByIdAndUpdate(id, req.body, { new: true, runValidators: true })].
    The text of the 500 answer is the message of the validation error; the
    model carries its first words. *)
Definition updateRecord (id : nat) (body : RecordBody) (st : State)
    : Response Session * State :=
  if update_valid body
  then
    match attendance st !! id with
    | None => (Failure 404 "Record not found", st)
    | Some old =>
        let record := merge_body body old in
        let c := clearCachePattern ("attendance:" ++ s_stream record)%string
                   (delete ("attendance:single:" ++ Js.json_int (Z.of_nat id))%string
                      (attCache st)) in
        (Success record,
         with_attCache c (with_attendance (<[id := record]> (attendance st)) st))
    end
  else (Failure 500 "Validation failed", st).

(** [DELETE /attendance/:id] ([viewAttendanceRoutes.js]). *)
Definition deleteAttendance (id : nat) (st : State) : Response string * State :=
  match attendance st !! id with
  | None => (Failure 404 "Record not found", st)
  | Some record =>
      let c := clearCachePattern ("stats:" ++ s_stream record)%string
                 (clearCachePattern ("attendance:" ++ s_stream record)%string
                    (delete ("attendance:single:" ++ Js.json_int (Z.of_nat id))%string
                       (viewCache st))) in
      (Success "Deleted successfully",
       with_viewCache c (with_attendance (delete id (attendance st)) st))
  end.


(** A count the caller left out, or gave as zero. *)
Definition left_to_server (c : option Z) : Prop := c = None \/ c = Some 0.




End Attendance.

(** ** Semester promotion with backup and undo ([promotion.js]) *)

Module Promotion.

(** A document of the [streams] collection. *)
Record StreamDoc : Type := mkStreamDoc {
  sd_name : string;
  streamCode : string
}.

(** A document of the [promotion_history] collection. *)
Record Backup : Type := mkBackup {
  bk_id : nat;
  bk_stream : string;
  bk_timestamp : Z;
  bk_students : list Student;
  bk_totalStudents : nat;
  restored : bool;
  restoredAt : option Z
}.

(** The database the promotion routes work on; [nextId] is the source of
    the [_id]s the store assigns on insert. *)
Record Db : Type := mkDb {
  streams : list StreamDoc;
  students : list Student;
  promotion_history : list Backup;
  nextId : nat
}.

(** [findOne({ $or: [{ name: streamName }, { streamCode: streamName.toLowerCase() }] })]. *)
Definition findStream (streamName : string) (l : list StreamDoc) : option StreamDoc :=
  List.find (fun d => String.eqb (sd_name d) streamName
                      || String.eqb (streamCode d) (Js.toLowerCase streamName)) l.

(** [findOne({ $or: [{ name: new RegExp(`^${streamName}$`, 'i') }, { streamCode: ... }] })]. *)
Definition findStream_i (streamName : string) (l : list StreamDoc) : option StreamDoc :=
  List.find (fun d => Js.regex_i streamName (sd_name d)
                      || String.eqb (streamCode d) (Js.toLowerCase streamName)) l.

Definition in_stream (nm : string) (s : Student) : bool :=
  String.eqb (stream (fields s)) nm.

Definition at_semester (nm : string) (sem : Z) (s : Student) : bool :=
  in_stream nm s && (semester (fields s) =? sem).

(** [countDocuments({ stream, semester: sem })]. *)
Definition countDocuments (nm : string) (sem : Z) (l : list Student) : nat :=
  length (List.filter (at_semester nm sem) l).

(** [deleteMany(filter)]: what is left, and [deletedCount]. *)
Definition deleteMany (f : Student -> bool) (l : list Student) : list Student * nat :=
  (List.filter (fun s => negb (f s)) l, length (List.filter f l)).

(** [$set: { semester: nextSem, updatedAt: new Date() }] on one document. *)
Definition set_semester (nextSem now : Z) (s : Student) : Student :=
  let f := fields s in
  mkStudent (_id s)
    (mkStudentFields (studentID f) (name f) (stream f) nextSem (rollNumber f) (isActive f) now).

(** [updateMany({ stream, semester: currentSem }, { $set: ... })]: the
    collection after it, and [modifiedCount]. *)
Definition update_if_at (nm : string) (currentSem nextSem now : Z) (s : Student) : Student :=
  if at_semester nm currentSem s then set_semester nextSem now s else s.

Definition updateMany (nm : string) (currentSem nextSem now : Z) (l : list Student)
    : list Student * nat :=
  (List.map (update_if_at nm currentSem nextSem now) l,
   length (List.filter (at_semester nm currentSem) l)).

(** One line of [promotionFlow]. *)
Inductive FlowLine : Type :=
| Graduated (n : nat)
| Promoted (n : nat) (currentSem nextSem : Z).

Record ExecuteResult : Type := mkExecuteResult {
  totalPromoted : nat;
  totalGraduated : nat;
  promotionFlow : list FlowLine
}.

(** The body of [for (let currentSem = 5; currentSem >= 1; currentSem--)]. *)
Definition promote_step (nm : string) (now : Z)
    (acc : list Student * nat * list FlowLine) (currentSem : Z)
    : list Student * nat * list FlowLine :=
  let '(l, promoted, flow) := acc in
  let nextSem := currentSem + 1 in
  let '(l', modifiedCount) := updateMany nm currentSem nextSem now l in
  if (0 <? modifiedCount)%nat
  then (l', (promoted + modifiedCount)%nat, flow ++ [Promoted modifiedCount currentSem nextSem])
  else (l', promoted, flow).

(** The values [currentSem] takes, in the order of the loop. *)
Definition promotion_order : list Z := [5; 4; 3; 2; 1].

(** [GET /api/simple-promotion-preview/:stream]: the counts at semesters
    1 to 6, and their sum. *)
Definition preview (streamName : string) (db : Db) : Response (list nat * nat) :=
  match findStream streamName (streams db) with
  | None => Failure 404 ("Stream " ++ streamName ++ " not found")%string
  | Some streamData =>
      let semesterBreakdown :=
        List.map (fun sem => countDocuments (sd_name streamData) sem (students db))
          [1; 2; 3; 4; 5; 6] in
      Success (semesterBreakdown, fold_left Nat.add semesterBreakdown 0%nat)
  end.

(** [POST /api/simple-promotion/:stream]. *)
Definition execute (now : Z) (streamName : string) (db : Db) : Response ExecuteResult * Db :=
  match findStream streamName (streams db) with
  | None => (Failure 404 ("Stream " ++ streamName ++ " not found")%string, db)
  | Some streamData =>
      let nm := sd_name streamData in
      let allStudents := List.filter (in_stream nm) (students db) in
      let backup :=
        mkBackup (nextId db) nm now allStudents (length allStudents) false None in
      let history := promotion_history db ++ [backup] in
      let '(afterDelete, deletedCount) := deleteMany (at_semester nm 6) (students db) in
      let flow0 := if (0 <? deletedCount)%nat then [Graduated deletedCount] else [] in
      let '(afterPromote, promoted, flow) :=
        fold_left (promote_step nm now) promotion_order (afterDelete, 0%nat, flow0) in
      let totalGraduated := if (0 <? deletedCount)%nat then deletedCount else 0%nat in
      (Success (mkExecuteResult promoted totalGraduated flow),
       mkDb (streams db) afterPromote history (S (nextId db)))
  end.

Definition newer_first (a b : Backup) : Prop := bk_timestamp b <= bk_timestamp a.

#[global] Instance newer_first_dec : RelDecision newer_first.
Proof. intros a b. unfold newer_first. apply _. Defined.

(** [find(filter).sort({ timestamp: -1 }).limit(1).toArray()]: the array of
    at most one document. *)
Definition latest (f : Backup -> bool) (history : list Backup) : option Backup :=
  head (merge_sort newer_first (List.filter f history)).

(** [Math.floor(backupAge / (1000 * 60 * 60))]. *)
Definition hours_old (now : Z) (b : Backup) : Z :=
  (now - bk_timestamp b) / (1000 * 60 * 60).

Record CanUndoInfo : Type := mkCanUndoInfo {
  canUndo : bool;
  hoursOld : option Z;
  studentsInBackup : nat
}.

(** [GET /api/can-undo-promotion/:stream]: the latest backup whose
    [restored] is not [true]. The regular expression is built from the
    name as it stands; the [catch] answers 500 with the message of the
    error when its constructor throws. *)
Definition canUndoPromotion (now : Z) (streamName : string) (db : Db) : Response CanUndoInfo :=
  if Js.regex_throws streamName then Failure 500 (Js.nothing_to_repeat streamName) else
  match findStream_i streamName (streams db) with
  | None => Failure 404 ("Stream " ++ streamName ++ " not found")%string
  | Some streamData =>
      match latest (fun b => String.eqb (bk_stream b) (sd_name streamData)
                             && negb (restored b)) (promotion_history db) with
      | None => Success (mkCanUndoInfo false None 0)
      | Some latestBackup =>
          let h := hours_old now latestBackup in
          Success (mkCanUndoInfo (h <=? 24) (Some h) (length (bk_students latestBackup)))
      end
  end.

(** [insertMany] of documents without [_id]: the store numbers them. *)
Fixpoint insertMany (docs : list StudentFields) (next : nat) (l : list Student)
    : list Student * nat :=
  match docs with
  | [] => (l, next)
  | d :: rest => insertMany rest (S next) (l ++ [mkStudent next d])
  end.

(** [updateOne({ _id }, { $set: { restored: true, restoredAt: new Date() } })]. *)
Fixpoint mark_restored (id : nat) (now : Z) (history : list Backup) : list Backup :=
  match history with
  | [] => []
  | b :: rest =>
      if Nat.eqb (bk_id b) id
      then mkBackup (bk_id b) (bk_stream b) (bk_timestamp b) (bk_students b)
             (bk_totalStudents b) true (Some now) :: rest
      else b :: mark_restored id now rest
  end.

Record UndoResult : Type := mkUndoResult {
  studentsRestored : nat;
  backupTimestamp : Z
}.

(** [POST /api/undo-promotion/:stream]: the latest backup of the stream,
    whatever its [restored] flag. *)
Definition undo (now : Z) (streamName : string) (db : Db) : Response UndoResult * Db :=
  if Js.regex_throws streamName then (Failure 500 (Js.nothing_to_repeat streamName), db) else
  match findStream_i streamName (streams db) with
  | None => (Failure 404 ("Stream " ++ streamName ++ " not found")%string, db)
  | Some streamData =>
      let nm := sd_name streamData in
      match latest (fun b => String.eqb (bk_stream b) nm) (promotion_history db) with
      | None => (Failure 404 "No backup found. Cannot undo promotion.", db)
      | Some latestBackup =>
          if hours_old now latestBackup >? 24
          then (Failure 400
                  ("Backup is " ++ Js.json_int (hours_old now latestBackup)
                   ++ " hours old. Undo only available within 24 hours.")%string, db)
          else
            let kept := List.filter (fun s => negb (in_stream nm s)) (students db) in
            let studentsToInsert := List.map fields (bk_students latestBackup) in
            let '(restoredStudents, next) := insertMany studentsToInsert (nextId db) kept in
            (Success (mkUndoResult (length (bk_students latestBackup))
                        (bk_timestamp latestBackup)),
             mkDb (streams db) restoredStudents
               (mark_restored (bk_id latestBackup) now (promotion_history db)) next)
      end
  end.

(** The specification of a promotion run on one student that is not
    graduating: a student of the stream at semester 1 to 5 moves up by
    exactly one; any other student is left as it is. *)
Definition promoted_once (nm : string) (now : Z) (s : Student) : Student :=
  if in_stream nm s && (1 <=? semester (fields s)) && (semester (fields s) <=? 5)
  then set_semester (semester (fields s) + 1) now s else s.

End Promotion.

(** ** Teacher work-queue documents ([teacherRoutes.js]) *)

Module Teacher.

(** An element of one of the three arrays ([SubjectSchema],
    [QueueItemSchema], [CompletedClassSchema]); [i_stamp] is the
    [createdAt], [addedAt] or [completedAt] of the element. *)
Record Item : Type := mkItem {
  i_id : string;
  i_stream : string;
  i_semester : Z;
  i_subject : string;
  i_stamp : string;
  i_teacherEmail : string
}.

(** A document of the [teachers] collection. A field that the document
    does not have ([$exists: false]) is [None]. *)
Record TeacherDoc : Type := mkTeacherDoc {
  t_email : string;
  t_firebaseUid : string;
  t_name : string;
  createdSubjects : option (list Item);
  attendanceQueue : option (list Item);
  completedClasses : option (list Item)
}.

#[global] Instance Item_eq_dec : EqDecision Item.
Proof. solve_decision. Defined.
#[global] Instance TeacherDoc_eq_dec : EqDecision TeacherDoc.
Proof. solve_decision. Defined.

(** [updateOne(filter, update)] without upsert: the first document that
    matches is updated, if there is one. *)
Fixpoint updateOne (filter : TeacherDoc -> bool) (update : TeacherDoc -> TeacherDoc)
    (coll : list TeacherDoc) : list TeacherDoc :=
  match coll with
  | [] => []
  | t :: rest =>
      if filter t then update t :: rest else t :: updateOne filter update rest
  end.

(** [$setOnInsert: {...}] applied to a document that was matched, not
    inserted: no field is written. *)
Definition setOnInsert_matched (t : TeacherDoc) : TeacherDoc := t.

(** [{ email, $or: [{ createdSubjects: { $exists: false } }, ...] }]. *)
Definition missing_some_array (email : string) (t : TeacherDoc) : bool :=
  String.eqb (t_email t) email
  && (negb (bool_decide (is_Some (createdSubjects t)))
      || negb (bool_decide (is_Some (attendanceQueue t)))
      || negb (bool_decide (is_Some (completedClasses t)))).

(** [$set: { createdSubjects: [], attendanceQueue: [], completedClasses: [] }]. *)
Definition set_empty_arrays (t : TeacherDoc) : TeacherDoc :=
  mkTeacherDoc (t_email t) (t_firebaseUid t) (t_name t) (Some []) (Some []) (Some []).

(** [ensureTeacherFields(db, email)]: the two [updateOne] calls in order;
    the answer is [true] (the [catch] is for driver failures). *)
Definition ensureTeacherFields (email : string) (teachers : list TeacherDoc)
    : bool * list TeacherDoc :=
  let teachers1 :=
    updateOne (fun t => String.eqb (t_email t) email) setOnInsert_matched teachers in
  let teachers2 := updateOne (missing_some_array email) set_empty_arrays teachers1 in
  (true, teachers2).

(** The three arrays of a document all exist. *)
Definition has_all_arrays (t : TeacherDoc) : Prop :=
  is_Some (createdSubjects t) /\ is_Some (attendanceQueue t) /\ is_Some (completedClasses t).

(** The net effect of the second [updateOne] on one document: it is reset
    when the filter selects it and left as it is otherwise. *)
Definition repaired (email : string) (t : TeacherDoc) : TeacherDoc :=
  if missing_some_array email t then set_empty_arrays t else t.

End Teacher.

(** ** JavaScript numbers

    The register computes with non-negative finite Numbers far inside the
    normal range of IEEE 754 binary64. Such a Number is modelled as the
    rational it denotes, and an arithmetic operation as the exact
    operation followed by rounding to the nearest double, ties to even
    ([rn]). [agrees_with_binary64] compares the model with the binary64
    operations of the standard library's [SpecFloat]. *)

Module JsNumber.

Local Open Scope Q_scope.

Definition pow2 (e : Z) : Q := Qpower 2 e.

(** The exponent of the leading bit of a positive rational. *)
Definition floor_log2 (q : Q) : Z :=
  let k := (Z.log2 (Qnum q) - Z.log2 (Zpos (Qden q)))%Z in
  if Qle_bool (pow2 k) q then k else (k - 1)%Z.

(** The nearest integer, ties to the even one. *)
Definition round_half_even (q : Q) : Z :=
  let f := Qfloor q in
  match Qcompare (q - inject_Z f) (1 # 2) with
  | Lt => f
  | Gt => (f + 1)%Z
  | Eq => if Z.even f then f else (f + 1)%Z
  end.

(** Rounding to 53 significant bits, nearest, ties to even. *)
Definition rn (q : Q) : Q :=
  if Qle_bool q 0 then 0
  else let e := (floor_log2 q - 52)%Z in
       inject_Z (round_half_even (q / pow2 e)) * pow2 e.

(** [x / y], [x * y] and [x + y] on Numbers. *)
Definition div (x y : Q) : Q := rn (x / y).
Definition mul (x y : Q) : Q := rn (x * y).
Definition add (x y : Q) : Q := rn (x + y).

(** A JavaScript value that is a Number or the string [toFixed(2)] made:
    the string is carried as its count of hundredths. *)
Inductive Percentage : Type :=
| NumberZero
| Fixed2 (hundredths : Z).

(** [x.toFixed(2)] for [x >= 0]: the integer [n] for which [n / 100 - x]
    is closest to zero, the larger one when there are two. *)
Definition toFixed2 (x : Q) : Percentage := Fixed2 (Qfloor (x * 100 + (1 # 2))).

(** [parseFloat(v)]: the Number nearest to the decimal the string shows;
    the Number [0] is turned into the string "0" first. *)
Definition parseFloat (v : Percentage) : Q :=
  match v with
  | NumberZero => 0
  | Fixed2 n => rn (inject_Z n / 100)
  end.

Definition hundredths_of (v : Percentage) : Z :=
  match v with
  | NumberZero => 0%Z
  | Fixed2 n => n
  end.

Definition two_digits (n : Z) : string :=
  (if (n <? 10)%Z then "0" ++ Js.json_int n else Js.json_int n)%string.

(** The text of the value as it is sent: ["66.67"], or ["0"] for the Number. *)
Definition show (v : Percentage) : string :=
  match v with
  | NumberZero => "0"
  | Fixed2 n => (Js.json_int (n / 100) ++ "." ++ two_digits (n mod 100))%string
  end.

(** *** The same operations on binary64 as the standard library specifies it *)

Definition b64_of_Z (n : Z) : spec_float := binary_normalize 53 1024 n 0 false.

Definition Q_of_b64 (x : spec_float) : option Q :=
  match x with
  | S754_zero _ => Some 0
  | S754_finite false m e => Some (inject_Z (Zpos m) * pow2 e)
  | _ => None
  end.

(** [(p / t) * 100] computed on binary64 and in the model give the same
    Number. *)
Definition agrees_with_binary64 (p t : Z) : bool :=
  match Q_of_b64 (SFmul 53 1024 (SFdiv 53 1024 (b64_of_Z p) (b64_of_Z t)) (b64_of_Z 100)) with
  | Some q => Qeq_bool q (mul (div (inject_Z p) (inject_Z t)) 100)
  | None => false
  end.

(** [(a + b) / n] computed on binary64 and in the model give the same
    Number. *)
Definition mean_agrees_with_binary64 (a b n : Z) : bool :=
  match Q_of_b64 (SFdiv 53 1024 (SFadd 53 1024 (b64_of_Z a) (b64_of_Z b)) (b64_of_Z n)) with
  | Some q => Qeq_bool q (div (add (inject_Z a) (inject_Z b)) (inject_Z n))
  | None => false
  end.

Definition range (n : nat) : list Z := List.map Z.of_nat (seq 0 n).

End JsNumber.

(** ** Integers as Numbers

    The counts of a session are integers held by Numbers; [Js.sub] is the
    subtraction on them. [sub_agrees_with_binary64] compares it with the
    binary64 subtraction of the standard library's [SpecFloat]. *)

Module JsInteger.

Import JsNumber.

(** The integer a binary64 value denotes, when it denotes one. *)
Definition Z_of_b64 (x : spec_float) : option Z :=
  match x with
  | S754_zero _ => Some 0
  | S754_finite s m e =>
      let v := if s then Z.neg m else Z.pos m in
      if 0 <=? e then Some (v * 2 ^ e)
      else if Z.pos m mod 2 ^ (- e) =? 0 then Some (v / 2 ^ (- e)) else None
  | _ => None
  end.

(** [a - b] computed on binary64 and by [Js.sub] give the same integer,
    for operands that are Numbers. *)
Definition sub_agrees_with_binary64 (a b : Z) : bool :=
  match Z_of_b64 (SFsub 53 1024 (b64_of_Z a) (b64_of_Z b)) with
  | Some z => z =? Js.sub a b
  | None => false
  end.

(** Totals around a power of two, each a Number: the multiples of
    [2 ^ (k - 52)] next to [2 ^ k] (every integer when [k <= 52]). *)
Definition totals_near (k : Z) : list Z :=
  List.map (fun i => 2 ^ k + (i - 8) * 2 ^ Z.max 0 (k - 52)) (range 17).

End JsInteger.

(** ** Register builder ([viewAttendanceRoutes.js]) *)

Module Register.

Import Attendance JsNumber.

(** [.project({ _id: 1, name: 1, studentID: 1, rollNumber: 1 })]. *)
Record RosterEntry : Type := mkRosterEntry {
  r_id : nat;
  r_name : string;
  r_studentID : string;
  r_rollNumber : option string
}.

Definition project (s : Student) : RosterEntry :=
  mkRosterEntry (_id s) (name (fields s)) (studentID (fields s)) (rollNumber (fields s)).

Definition by_studentID (a b : RosterEntry) : Prop :=
  String.leb (r_studentID a) (r_studentID b) = true.

#[global] Instance by_studentID_dec : RelDecision by_studentID.
Proof. intros a b. unfold by_studentID. apply _. Defined.

(** The roster query of both register routes: the active students of the
    stream (matched through the case-insensitive regular expression) and
    semester, sorted by [studentID]. *)
Definition roster (stream : string) (semesterNumber : Z) (students : list Student)
    : list RosterEntry :=
  merge_sort by_studentID
    (List.map project
       (List.filter (fun s => Js.regex_i stream (stream_of s)
                              && (semester (fields s) =? semesterNumber)%Z
                              && isActive (fields s))
          students)).

Definition of_class (stream : string) (semesterNumber : Z) (subject : string)
    (s : Session) : bool :=
  Js.regex_i stream (s_stream s) && (s_semester s =? semesterNumber)%Z
  && Js.regex_i subject (s_subject s).

(** [.sort({ date: 1, time: 1 })]. *)
Definition by_date_time (a b : nat * Session) : Prop :=
  (s_date (snd a) < s_date (snd b))%Z
  \/ (s_date (snd a) = s_date (snd b) /\ String.leb (s_time (snd a)) (s_time (snd b)) = true).

#[global] Instance by_date_time_dec : RelDecision by_date_time.
Proof. intros a b. unfold by_date_time. apply _. Defined.

(** [.sort({ time: 1 })]. *)
Definition by_time (a b : nat * Session) : Prop :=
  String.leb (s_time (snd a)) (s_time (snd b)) = true.

#[global] Instance by_time_dec : RelDecision by_time.
Proof. intros a b. unfold by_time. apply _. Defined.

(** The sessions of the class, each with its [_id]. *)
Definition class_sessions (stream : string) (semesterNumber : Z) (subject : string)
    (coll : gmap nat Session) : list (nat * Session) :=
  List.filter (fun r => of_class stream semesterNumber subject (snd r)) (map_to_list coll).

Inductive Status : Type := P | A.

Definition is_present (st : Status) : bool :=
  match st with P => true | A => false end.

(** [session.studentsPresent.includes(student.studentID) ? 'P' : 'A']. *)
Definition status_of (studentID : string) (s : Session) : Status :=
  if existsb (String.eqb studentID) (studentsPresent s) then P else A.

(** One cell of a student's row. *)
Record Cell : Type := mkCell {
  c_date : Z;
  c_time : string;
  c_status : Status;
  c_sessionId : nat
}.

(** One element of [registerData]. *)
Record StudentRow : Type := mkStudentRow {
  row_studentID : string;
  row_name : string;
  row_rollNumber : option string;
  row_attendance : list Cell;
  row_presentCount : nat;
  row_absentCount : nat;
  row_totalSessions : nat;
  attendancePercentage : Percentage
}.

(** [((presentCount / totalSessions) * 100).toFixed(2)], or the Number 0
    when there is no session. *)
Definition percentage (presentCount totalSessions : nat) : Percentage :=
  if (0 <? totalSessions)%nat
  then toFixed2 (mul (div (inject_Z (Z.of_nat presentCount))
                          (inject_Z (Z.of_nat totalSessions))) 100)
  else NumberZero.

Definition student_row (sessions : list (nat * Session)) (student : RosterEntry) : StudentRow :=
  let studentAttendance :=
    List.map (fun r => mkCell (s_date (snd r)) (s_time (snd r))
                         (status_of (r_studentID student) (snd r)) (fst r)) sessions in
  let totalSessions := length sessions in
  let presentCount := length (List.filter (fun a => is_present (c_status a)) studentAttendance) in
  let absentCount :=
    length (List.filter (fun a => negb (is_present (c_status a))) studentAttendance) in
  mkStudentRow (r_studentID student) (r_name student) (r_rollNumber student)
    studentAttendance presentCount absentCount totalSessions
    (percentage presentCount totalSessions).

(** [registerData.reduce((sum, s) => sum + parseFloat(s.attendancePercentage), 0)]. *)
Definition sum_percentages (registerData : list StudentRow) : Q :=
  fold_left (fun sum s => add sum (parseFloat (attendancePercentage s))) registerData 0%Q.

(** The exact sum of the percentages of the rows, in hundredths. *)
Definition total_hundredths (registerData : list StudentRow) : Z :=
  fold_right Z.add 0%Z (List.map (fun s => hundredths_of (attendancePercentage s)) registerData).

(** A row whose percentage lies between 0.00 and 100.00. *)
Definition in_range (s : StudentRow) : Prop :=
  (0 <= hundredths_of (attendancePercentage s) <= 10000)%Z.

(** [statistics.averageAttendance]. *)
Definition average (registerData : list StudentRow) : Percentage :=
  if (0 <? length registerData)%nat
  then toFixed2 (div (sum_percentages registerData)
                     (inject_Z (Z.of_nat (length registerData))))
  else NumberZero.

(** The answer of the full-register route. *)
Record RegisterView : Type := mkRegisterView {
  rv_students : list StudentRow;
  rv_sessions : list (nat * Session);
  rv_totalSessions : nat;
  rv_totalStudents : nat;
  totalPossibleAttendances : nat;
  averageAttendance : Percentage
}.

(** [GET /attendance/register/:stream/:semester/:subject]. The two
    queries build their regular expressions from the parameters as they
    come; a parameter for which the constructor throws ends the request
    in the [catch], with status 500. *)
Definition register (stream : string) (semesterNumber : Z) (subject : string)
    (students : list Student) (coll : gmap nat Session) : Response RegisterView :=
  if Js.regex_throws stream then Failure 500 (Js.nothing_to_repeat stream)
  else if Js.regex_throws subject then Failure 500 (Js.nothing_to_repeat subject)
  else
    let students := roster stream semesterNumber students in
    let sessions :=
      merge_sort by_date_time (class_sessions stream semesterNumber subject coll) in
    let totalSessions := length sessions in
    let registerData := List.map (student_row sessions) students in
    Success (mkRegisterView registerData sessions totalSessions (length students)
               (totalSessions * length students) (average registerData)).

(** One element of [attendanceData] in the single-date answer. *)
Record DayRow : Type := mkDayRow {
  day_studentID : string;
  day_name : string;
  day_rollNumber : option string;
  day_sessions : list (string * Status * nat)
}.

(** The two shapes of the single-date answer: no attendance, with the
    roster as the query returned it; or the sessions of the day with a
    row per student. Both carry [success: true]. *)
Inductive DateView : Type :=
| NoAttendance (students : list RosterEntry)
| DayAttendance (students : list DayRow) (sessions : list (nat * Session)).

Definition hasAttendance (v : DateView) : bool :=
  match v with NoAttendance _ => false | DayAttendance _ _ => true end.

Definition sessions_of (v : DateView) : list (nat * Session) :=
  match v with NoAttendance _ => [] | DayAttendance _ sessions => sessions end.

Definition day_ms : Z := 24 * 60 * 60 * 1000.

(** The local time of the server: the instants [setHours(0, 0, 0, 0)] and
    [setHours(23, 59, 59, 999)] turn an instant into. They are the zone's
    to say (where the clocks change, a local day has 23 or 25 hours); the
    route only compares dates with them. *)
Record Zone : Type := mkZone {
  startOfDay : Z -> Z;
  endOfDay : Z -> Z
}.

(** A zone that is always [tz] milliseconds ahead of UTC. *)
Definition fixed_zone (tz : Z) : Zone :=
  mkZone (fun queryDate => queryDate - (queryDate + tz) mod day_ms)%Z
         (fun queryDate => queryDate - (queryDate + tz) mod day_ms + day_ms - 1)%Z.

(** [date: { $gte: startOfDay, $lt: endOfDay }]. *)
Definition on_day (zone : Zone) (queryDate : Z) (s : Session) : bool :=
  (startOfDay zone queryDate <=? s_date s)%Z && (s_date s <? endOfDay zone queryDate)%Z.

(** [GET /attendance/date/:stream/:semester/:subject/:date]. As in the
    full register, a parameter for which the constructor of the regular
    expression throws is answered with status 500. *)
Definition dateAttendance (zone : Zone) (stream : string) (semesterNumber : Z)
    (subject : string) (queryDate : Z) (students : list Student) (coll : gmap nat Session)
    : Response DateView :=
  if Js.regex_throws stream then Failure 500 (Js.nothing_to_repeat stream)
  else if Js.regex_throws subject then Failure 500 (Js.nothing_to_repeat subject)
  else
    let students := roster stream semesterNumber students in
    let attendanceRecords :=
      merge_sort by_time
        (List.filter (fun r => on_day zone queryDate (snd r))
           (class_sessions stream semesterNumber subject coll)) in
    if (length attendanceRecords =? 0)%nat
    then Success (NoAttendance students)
    else
      let attendanceData :=
        List.map (fun student =>
                    mkDayRow (r_studentID student) (r_name student) (r_rollNumber student)
                      (List.map (fun r => (s_time (snd r),
                                           status_of (r_studentID student) (snd r), fst r))
                         attendanceRecords))
          students in
      Success (DayAttendance attendanceData attendanceRecords).

End Register.

(** ** Sample data used by the concrete evaluations below *)

Module Sample.

Import Attendance.

(** One DBMS class of BCA semester 2 with two of three students present. *)
Definition dbms_session : Session :=
  mkSession "BCA" 2 "DBMS" 1736503200000 "10:00 AM - 11:00 AM" ["S1"; "S2"] 3 2 1.

(** A store holding that session under id 0, with both caches empty. *)
Definition one_session : State := mkState {[ 0%nat := dbms_session ]} ∅ ∅ 0.

(** A store holding nothing. *)
Definition empty_store : State := mkState ∅ ∅ ∅ 0.


(** A submission that leaves the counts to the server. *)
Definition plain_submit : SubmitBody :=
  mkSubmitBody (Some 1736589600000) (Some "10:00 AM - 11:00 AM")
    (Some ["S1"; "S3"]) (Some 3) None None.




(** An edit that lists three students present out of a total of two. *)
Definition overfull_update : UpdateBody := mkUpdateBody (Some ["S1"; "S2"; "S3"]) (Some 2).

(** An edit that marks S2 absent. *)
Definition mark_s2_absent : UpdateBody := mkUpdateBody (Some ["S1"]) (Some 3).

End Sample.

Module SampleRoster.

Import Promotion.

Definition student (id : nat) (sid : string) (sem : Z) : Student :=
  mkStudent id (mkStudentFields sid sid "BCA" sem None true 0).

(** BCA with one student at each of the semesters 1, 5 and 6, and one
    student of another stream. *)
Definition college : Db :=
  mkDb [mkStreamDoc "BCA" "bca"; mkStreamDoc "BCOM" "bcom"]
       [student 0 "S1" 1; student 1 "S5" 5; student 2 "S6" 6;
        mkStudent 3 (mkStudentFields "C1" "C1" "BCOM" 6 None true 0)]
       [] 4.

(** One hour in milliseconds. *)
Definition hour : Z := 1000 * 60 * 60.

(** Two streams whose names differ in letter case only, BCOM stored
    first, and two students of BCom. *)
Definition twin_streams : Db :=
  mkDb [mkStreamDoc "BCOM" "bcom-day"; mkStreamDoc "BCom" "bcom-evening"]
       [mkStudent 0 (mkStudentFields "E1" "E1" "BCom" 1 None true 0);
        mkStudent 1 (mkStudentFields "E2" "E2" "BCom" 6 None true 0)]
       [] 2.

End SampleRoster.

Module SampleTeachers.

Import Teacher.

Definition dbms_item : Item :=
  mkItem "1736503200000" "BCA" 2 "DBMS" "2025-01-10T10:00:00.000Z" "asha@college.edu".

(** A profile created by the profile route and since filled. *)
Definition populated : TeacherDoc :=
  mkTeacherDoc "asha@college.edu" "uid-1" "asha" (Some [dbms_item]) (Some [dbms_item]) (Some []).

(** A document that has none of the three arrays. *)
Definition bare : TeacherDoc :=
  mkTeacherDoc "ravi@college.edu" "uid-2" "ravi" None None None.

(** A document with a queue but without the other two arrays. *)
Definition queue_only : TeacherDoc :=
  mkTeacherDoc "mina@college.edu" "uid-3" "mina" None (Some [dbms_item]) None.

Definition staff : list TeacherDoc := [populated; bare; queue_only].

End SampleTeachers.

Module SampleRegister.

Import Attendance.

Definition bca2 (id : nat) (sid : string) : Student :=
  mkStudent id (mkStudentFields sid sid "BCA" 2 None true 0).

(** The roster [S1, S2, S3] of BCA semester 2, stored out of order, with a
    student who has left and a student of another semester. *)
Definition students : list Student :=
  [bca2 0 "S3"; bca2 1 "S1"; bca2 2 "S2";
   mkStudent 3 (mkStudentFields "S4" "S4" "BCA" 2 None false 0);
   mkStudent 4 (mkStudentFields "S9" "S9" "BCA" 4 None true 0)].

(** 2025-01-10 and 2025-01-11, 10:00 UTC, and 2025-01-12, 00:00 UTC. *)
Definition jan10 : Z := 1736503200000.
Definition jan11 : Z := 1736589600000.
Definition jan12 : Z := 1736640000000.

(** The two DBMS sessions of the example scenario. *)
Definition sessions : gmap nat Session :=
  {[ 0%nat := mkSession "BCA" 2 "DBMS" jan10 "10:00 AM - 11:00 AM" ["S1"; "S2"] 3 2 1;
     1%nat := mkSession "BCA" 2 "DBMS" jan11 "10:00 AM - 11:00 AM" ["S1"; "S3"] 3 2 1 ]}.

End SampleRegister.

(** ** The short submit route ([POST /attendance]) *)

Module SimpleSubmit.

Import Attendance.

(** The body of [POST /attendance]: the class as well as the fields of
    the detailed route. *)
Record SimpleBody : Type := mkSimpleBody {
  sb_stream : option string;
  sb_semester : option Z;
  sb_subject : option string;
  sb_fields : SubmitBody
}.

(** [POST /attendance] ([attendanceRoutes.js]). *)
Definition submit_simple (body : SimpleBody) (st : State) : Response nat * State :=
  let fields := sb_fields body in
  match b_date fields, Js.truthy_str (b_time fields), Js.truthy_str (sb_subject body),
        b_studentsPresent fields, b_totalStudents fields with
  | Some date, Some time, Some subject, Some present, Some total =>
      let stream := default "General"%string (Js.truthy_str (sb_stream body)) in
      let doc :=
        mkSession stream (Js.or_num (sb_semester body) 1) subject date time present total
          (Js.or_num (b_presentCount fields) (Z.of_nat (length present)))
          (Js.or_num (b_absentCount fields) (Js.sub total (Z.of_nat (length present)))) in
      match save doc (attendance st) with
      | Some (id, coll) =>
          let c := clearCachePattern ("attendance:" ++ stream)%string (attCache st) in
          (Success id, with_attCache c (with_attendance coll st))
      | None => (Failure 500 "Attendance validation failed", st)
      end
  | _, _, _, _, _ =>
      (Failure 400
         "Missing required fields: date, time, subject, studentsPresent, totalStudents", st)
  end.

End SimpleSubmit.

(** ** The totals the stats pipeline is to report *)

Module Totals.

Import Attendance.

(** The sessions the [$match] stage of a stats pipeline selects. *)
Definition selected (matches : Session -> bool) (coll : gmap nat Session) : list Session :=
  List.filter matches (snd <$> map_to_list coll).

(** The sessions of one subject among a list of sessions. *)
Definition of_subject (subject : string) (l : list Session) : list Session :=
  List.filter (fun s => String.eqb (s_subject s) subject) l.

(** The row a subject is due: the number of its sessions and the sums of
    their present and absent counts. *)
Definition subject_totals (subject : string) (l : list Session) : SubjectStats :=
  mkSubjectStats subject
    (Z.of_nat (length (of_subject subject l)))
    (fold_right Z.add 0 (List.map presentCount (of_subject subject l)))
    (fold_right Z.add 0 (List.map absentCount (of_subject subject l))).

End Totals.

(** ** The request limiter of [viewAttendanceRoutes.js] *)

Module RateLimit.

Definition RATE_LIMIT : Z := 100.
Definition RATE_WINDOW : Z := 60000.

(** A value of the [requestCounts] map. *)
Record UserRequests : Type := mkUserRequests {
  count : Z;
  resetTime : Z
}.

(** The limiter middleware on a request of address [ip] at time [now]:
    whether [next()] is called (otherwise the answer is 429), and the map
    after the request. The request is counted before it is judged. *)
Definition limiter (ip : string) (now : Z) (requestCounts : gmap string UserRequests)
    : bool * gmap string UserRequests :=
  let userRequests := default (mkUserRequests 0 (now + RATE_WINDOW)) (requestCounts !! ip) in
  let userRequests :=
    if now >? resetTime userRequests
    then mkUserRequests 0 (now + RATE_WINDOW)
    else userRequests in
  let userRequests := mkUserRequests (count userRequests + 1) (resetTime userRequests) in
  (negb (count userRequests >? RATE_LIMIT), <[ip := userRequests]> requestCounts).

(** The limiter over a sequence of requests, each an address and a time:
    every request with its verdict. *)
Fixpoint serve (requests : list (string * Z)) (requestCounts : gmap string UserRequests)
    : list (string * Z * bool) * gmap string UserRequests :=
  match requests with
  | [] => ([], requestCounts)
  | (ip, now) :: rest =>
      let '(passed, requestCounts1) := limiter ip now requestCounts in
      let '(log, requestCounts2) := serve rest requestCounts1 in
      ((ip, now, passed) :: log, requestCounts2)
  end.

(** The verdicts the requests of one address got, in order. *)
Definition verdicts (ip : string) (log : list (string * Z * bool)) : list bool :=
  List.map snd (List.filter (fun e => String.eqb (fst (fst e)) ip) log).

(** The number of requests of one address in a sequence. *)
Definition requests_of (ip : string) (requests : list (string * Z)) : nat :=
  length (List.filter (fun r => String.eqb (fst r) ip) requests).

End RateLimit.

(** ** Enrolment into the first semester ([promotion.js]) *)

Module Enrolment.

Import Promotion.

(** [POST /api/add-student/:stream/sem1]. The inserted document is stored
    with the fields the roster model carries ([parentPhone], the two subject
    fields, [academicYear] and [createdAt] are outside it); [rollNumber] is
    not written. *)
Definition add_student (now : Z) (streamName : string)
    (sid nm parentPhone : option string) (db : Db) : Response Student * Db :=
  match Js.truthy_str sid, Js.truthy_str nm, Js.truthy_str parentPhone with
  | Some sid, Some nm, Some _ =>
      match findStream streamName (streams db) with
      | None => (Failure 404 ("Stream " ++ streamName ++ " not found")%string, db)
      | Some streamData =>
          match List.find (fun s => String.eqb (studentID (fields s)) sid) (students db) with
          | Some _ => (Failure 400 ("Student " ++ sid ++ " already exists")%string, db)
          | None =>
              let newStudent :=
                mkStudent (nextId db)
                  (mkStudentFields sid nm (sd_name streamData) 1 None true now) in
              (Success newStudent,
               mkDb (streams db) (students db ++ [newStudent]) (promotion_history db)
                 (S (nextId db)))
          end
      end
  | _, _, _ => (Failure 400 "Missing required fields: studentID, name, parentPhone", db)
  end.

(** The [studentID]s of a collection, in storage order. *)
Definition studentIDs (l : list Student) : list string :=
  List.map (fun s => studentID (fields s)) l.

End Enrolment.

(** ** Reading a teacher's arrays ([teacherRoutes.js]) *)

Module TeacherReads.

Import Teacher.

(** [collection('teachers').findOne({ email })]. *)
Definition findOne (email : string) (teachers : list TeacherDoc) : option TeacherDoc :=
  List.find (fun t => String.eqb (t_email t) email) teachers.

(** [GET /subjects]: the answer and the collection after the request. *)
Definition getSubjects (email : option string) (teachers : list TeacherDoc)
    : Response (list Item) * list TeacherDoc :=
  match Js.truthy_str email with
  | None => (Failure 400 "Email parameter is required", teachers)
  | Some email =>
      let '(_, teachers1) := ensureTeacherFields email teachers in
      match findOne email teachers1 with
      | None => (Success [], teachers1)
      | Some teacher => (Success (default [] (createdSubjects teacher)), teachers1)
      end
  end.

(** [GET /queue]: the answer and the collection after the request. *)
Definition getQueue (email : option string) (teachers : list TeacherDoc)
    : Response (list Item) * list TeacherDoc :=
  match Js.truthy_str email with
  | None => (Failure 400 "Email parameter is required", teachers)
  | Some email =>
      let '(_, teachers1) := ensureTeacherFields email teachers in
      match findOne email teachers1 with
      | None => (Success [], teachers1)
      | Some teacher => (Success (default [] (attendanceQueue teacher)), teachers1)
      end
  end.

End TeacherReads.

(** ** Creating and updating a teacher profile ([teacherRoutes.js]) *)

Module TeacherProfile.

Import Teacher TeacherReads.

(** [email.split('@')[0]]: the characters before the first [@]. *)
Fixpoint before_at (s : string) : string :=
  match s with
  | EmptyString => EmptyString
  | String c rest => if Ascii.eqb c "@" then EmptyString else String c (before_at rest)
  end.

(** [$set: { firebaseUid, name, email }] on a document that was matched. *)
Definition set_profile (firebaseUid nm email : string) (t : TeacherDoc) : TeacherDoc :=
  mkTeacherDoc email firebaseUid nm (createdSubjects t) (attendanceQueue t) (completedClasses t).

(** [findOneAndUpdate({ email }, { $set, $setOnInsert }, { upsert: true })]:
    the first document of the email is updated; when there is none, one is
    inserted with the three arrays empty. *)
Definition upsert_profile (firebaseUid nm email : string) (teachers : list TeacherDoc)
    : list TeacherDoc :=
  if existsb (fun t => String.eqb (t_email t) email) teachers
  then updateOne (fun t => String.eqb (t_email t) email) (set_profile firebaseUid nm email)
         teachers
  else teachers ++ [mkTeacherDoc email firebaseUid nm (Some []) (Some []) (Some [])].

(** The unique index of the collection on [firebaseUid]: the store refuses
    a write that would give the uid to the document of [email] while the
    document of another email carries it. (The collection has a unique
    index on [email] as well, so the documents of other emails are the
    other documents.) *)
Definition uid_taken (firebaseUid email : string) (teachers : list TeacherDoc) : bool :=
  existsb (fun t => String.eqb (t_firebaseUid t) firebaseUid
                    && negb (String.eqb (t_email t) email)) teachers.

(** [POST /profile]: the document that is answered ([null] is [None]) and
    the collection after the request. A write the store refuses for a
    duplicate key ends the request in the [catch], with status 500 and the
    message of the store, of which the model carries the first words. The
    timestamps [updatedAt] and [createdAt] are outside the document
    model. *)
Definition postProfile (firebaseUid name email : option string) (teachers : list TeacherDoc)
    : Response (option TeacherDoc) * list TeacherDoc :=
  match Js.truthy_str firebaseUid with
  | None => (Failure 400 "Firebase UID is required", teachers)
  | Some firebaseUid =>
      match Js.truthy_str email with
      | None => (Failure 400 "Email is required", teachers)
      | Some email =>
          let nm := default (before_at email) (Js.truthy_str name) in
          if uid_taken firebaseUid email teachers
          then (Failure 500 "E11000 duplicate key error", teachers)
          else
            let teachers1 := upsert_profile firebaseUid nm email teachers in
            let '(_, teachers2) := ensureTeacherFields email teachers1 in
            (Success (findOne email teachers2), teachers2)
      end
  end.

End TeacherProfile.

(** * Properties *)

(** ** Session writes *)

Section SessionWrites.

Import Attendance.





Lemma bulk_op_domain coll u coll1 changed id :
  bulk_op coll u = (coll1, changed) ->
  is_Some (coll !! id) -> is_Some (coll1 !! id).
Proof.
  intros Hop Hin. unfold bulk_op in Hop.
  destruct (coll !! sessionId u) as [old|] eqn:Hold; inversion Hop; subst; auto.
  destruct (decide (sessionId u = id)) as [<-|Hne].
  - rewrite lookup_insert_eq. eauto.
  - rewrite lookup_insert_ne by done. auto.
Qed.


Lemma bulkWrite_domain ups : forall coll coll' n id,
  bulkWrite ups coll = (coll', n) ->
  is_Some (coll !! id) -> is_Some (coll' !! id).
Proof.
  induction ups as [|u rest IH]; intros coll coll' n id Hw Hin; simpl in Hw.
  - inversion Hw; subst. auto.
  - destruct (bulk_op coll u) as [coll1 changed] eqn:Hop.
    destruct (bulkWrite rest coll1) as [coll2 k] eqn:Hrest.
    inversion Hw; subst.
    eapply IH; eauto. eapply bulk_op_domain; eauto.
Qed.


Lemma or_num_left_to_server c d : left_to_server c -> Js.or_num c d = d.
Proof. intros [->| ->]; reflexivity. Qed.






(** C5: an edit that lists more students present than [totalStudents] is
    answered with success, and the session is stored with a negative
    [absentCount]; no validation error is raised. *)
Theorem updateSession_stores_negative_absentCount :
  exists sess st',
    updateSession 0 Sample.overfull_update Sample.one_session = (Success sess, st')
    /\ attendance st' !! 0%nat = Some sess
    /\ presentCount sess = 3 /\ totalStudents sess = 2 /\ absentCount sess = -1.
Proof.
  eexists; eexists. split; [vm_compute; reflexivity|].
  vm_compute. repeat split; reflexivity.
Qed.

(** The record update route, which runs the validators, rejects such an
    edit: a negative [absentCount] never reaches the store through it. *)
Lemma updateRecord_rejects_negative_absentCount id body st n :
  rb_absentCount body = Some n -> n < 0 ->
  exists error, updateRecord id body st = (Failure 500 error, st).
Proof.
  intros Hn Hneg. unfold updateRecord, update_valid. rewrite Hn. simpl.
  destruct (Z.leb_spec 0 n); [lia|]. rewrite !andb_false_r. eexists. reflexivity.
Qed.

(** C8 (amended): deleting a stored session answers success and removes
    the document; deleting an id that is not stored answers the 404 error
    [Record not found] and leaves the state as it was. *)
Theorem deleteAttendance_found_or_404 (id : nat) (st : State) :
  (forall record, attendance st !! id = Some record ->
     fst (deleteAttendance id st) = Success "Deleted successfully"
     /\ attendance (snd (deleteAttendance id st)) = delete id (attendance st)
     /\ attendance (snd (deleteAttendance id st)) !! id = None)
  /\ (attendance st !! id = None ->
     deleteAttendance id st = (Failure 404 "Record not found", st)).
Proof.
  unfold deleteAttendance. split.
  - intros record ->. simpl. repeat split. apply lookup_delete_eq.
  - intros ->. reflexivity.
Qed.

Lemma deleteAttendance_found_or_404_witness :
  fst (deleteAttendance 0 Sample.one_session) = Success "Deleted successfully"
  /\ deleteAttendance 7 Sample.one_session
     = (Failure 404 "Record not found", Sample.one_session).
Proof.
  destruct (deleteAttendance_found_or_404 0 Sample.one_session) as [Hfound _].
  destruct (deleteAttendance_found_or_404 7 Sample.one_session) as [_ Habsent].
  split.
  - apply (Hfound Sample.dbms_session). vm_compute. reflexivity.
  - apply Habsent. vm_compute. reflexivity.
Defined.

(** C8 as stated fails: an absent id is answered with an error. *)
Lemma delete_absent_is_an_error :
  ~ (forall id st, attendance st !! id = None ->
       is_success (fst (deleteAttendance id st)) = true).
Proof.
  intros H. specialize (H 7%nat Sample.empty_store).
  vm_compute in H. specialize (H eq_refl). discriminate.
Qed.

End SessionWrites.

(** ** Result cache *)

Section ResultCache.

Import Attendance.

Lemma getCache_fresh key now (cache : gmap string CacheEntry) e :
  cache !! key = Some e ->
  now - timestamp e <= CACHE_TTL ->
  getCache key now cache = (Some (data e), cache).
Proof.
  intros Hk Hage. unfold getCache. rewrite Hk.
  destruct (now - timestamp e >? CACHE_TTL) eqn:E; [lia|reflexivity].
Qed.


(** A stats query that had to ask the store is answered from the cache when
    it is repeated within the TTL: same answer, no further store query. *)
Lemma view_stats_repeated now1 now2 stream sem st r st1 :
  viewCache st !! getCacheKey_stats stream sem = None ->
  view_stats now1 stream sem st = (Success r, st1) ->
  now2 - now1 <= CACHE_TTL ->
  view_stats now2 stream sem st1 = (Success r, st1).
Proof.
  intros Hmiss H1 Hage. unfold view_stats, stats_with, getCache, view_pipeline in H1.
  rewrite Hmiss in H1.
  destruct (Js.regex_throws stream); [discriminate|].
  destruct (aggregate _ _) as [stats|] eqn:Hagg; [|discriminate].
  inversion H1; subst; clear H1.
  unfold view_stats, stats_with; simpl.
  erewrite getCache_fresh; [| apply lookup_insert_eq | simpl; lia].
  simpl. unfold with_viewCache; simpl. reflexivity.
Qed.

(** The keys [getCacheKey] builds start with the prefix, a colon and an
    opening brace, so a pattern made of the prefix, a colon and a stream
    name matches none of them unless the name starts with a brace. *)
Lemma clearCachePattern_keeps_stats_keys c rest stream sem
    (cache : gmap string CacheEntry) :
  c <> "{"%char ->
  clearCachePattern ("stats:" ++ String c rest)%string cache !! getCacheKey_stats stream sem
  = cache !! getCacheKey_stats stream sem.
Proof.
  intros Hc. unfold clearCachePattern.
  destruct (cache !! getCacheKey_stats stream sem) as [e|] eqn:Hk.
  - apply map_lookup_filter_Some. split; [exact Hk|].
    unfold Js.startsWith, getCacheKey_stats; simpl.
    destruct (ascii_dec c "{") as [->|_]; [contradiction|reflexivity].
  - apply map_lookup_filter_None. left. exact Hk.
Qed.

Lemma clearCachePattern_attendance_keeps_stats_keys written stream sem
    (cache : gmap string CacheEntry) :
  clearCachePattern ("attendance:" ++ written)%string cache !! getCacheKey_stats stream sem
  = cache !! getCacheKey_stats stream sem.
Proof.
  unfold clearCachePattern.
  destruct (cache !! getCacheKey_stats stream sem) as [e|] eqn:Hk.
  - apply map_lookup_filter_Some. split; [exact Hk|]. reflexivity.
  - apply map_lookup_filter_None. left. exact Hk.
Qed.

(** A successful edit of a session whose stream name does not start with a
    brace leaves every cached stats answer in place. *)
Lemma updateSession_keeps_stats_cache id body st sess st' c rest stream sem :
  updateSession id body st = (Success sess, st') ->
  s_stream sess = String c rest -> c <> "{"%char ->
  viewCache st' !! getCacheKey_stats stream sem = viewCache st !! getCacheKey_stats stream sem.
Proof.
  intros H Hs Hc. unfold updateSession in H.
  destruct (u_studentsPresent body) as [present|]; [|discriminate].
  destruct (u_totalStudents body) as [total|]; [|discriminate].
  destruct (Js.falsy_num total || (total <? 1)); [discriminate|].
  destruct (attendance st !! id) as [old|] eqn:Hold; [|discriminate].
  inversion H; subst; clear H. simpl in *. rewrite Hs.
  rewrite clearCachePattern_keeps_stats_keys by exact Hc.
  apply clearCachePattern_attendance_keeps_stats_keys.
Qed.

(** C9: a stats answer cached for a stream is still served after a session
    of that stream has been edited: the second query, inside the TTL,
    returns the first answer without asking the store, although the store
    now aggregates to different totals. *)
Theorem stats_cache_survives_session_write :
  let st1 := snd (view_stats 1000 "BCA" 2 Sample.one_session) in
  let st2 := snd (updateSession 0 Sample.mark_s2_absent st1) in
  let st3 := snd (view_stats 2000 "BCA" 2 st2) in
  fst (view_stats 1000 "BCA" 2 Sample.one_session) = Success [mkSubjectStats "DBMS" 1 2 1]
  /\ is_success (fst (updateSession 0 Sample.mark_s2_absent st1)) = true
  /\ viewCache st2 !! getCacheKey_stats "BCA" 2
     = Some (mkCacheEntry [mkSubjectStats "DBMS" 1 2 1] 1000)
  /\ fst (view_stats 2000 "BCA" 2 st2) = Success [mkSubjectStats "DBMS" 1 2 1]
  /\ storeQueries st3 = 1%nat
  /\ aggregate (match_view "BCA" 2) (attendance st2)
     = Some [mkSubjectStats "DBMS" 1 1 2].
Proof. repeat split; vm_compute; reflexivity. Qed.

End ResultCache.

(** ** Promotion, backup and undo *)

Section PromotionRun.

Import Promotion.

Variable nm : string.
Variable now : Z.

Lemma promote_step_eq l p flow k :
  promote_step nm now (l, p, flow) k
  = (List.map (update_if_at nm k (k + 1) now) l,
     (p + countDocuments nm k l)%nat,
     if (0 <? countDocuments nm k l)%nat
     then flow ++ [Promoted (countDocuments nm k l) k (k + 1)] else flow).
Proof.
  unfold promote_step, updateMany, countDocuments.
  destruct (0 <? length (List.filter (at_semester nm k) l))%nat eqn:E; [reflexivity|].
  apply Nat.ltb_ge in E. f_equal. f_equal. lia.
Qed.

Lemma update_outside k next s :
  in_stream nm s = false -> update_if_at nm k next now s = s.
Proof. intros H. unfold update_if_at, at_semester. rewrite H. reflexivity. Qed.

Lemma update_miss k next s :
  semester (fields s) <> k -> update_if_at nm k next now s = s.
Proof.
  intros H. unfold update_if_at, at_semester.
  destruct (Z.eqb_spec (semester (fields s)) k); [contradiction|].
  rewrite andb_false_r. reflexivity.
Qed.

Lemma update_hit k next s :
  in_stream nm s = true -> semester (fields s) = k ->
  update_if_at nm k next now s = set_semester next now s.
Proof.
  intros H1 H2. unfold update_if_at, at_semester.
  rewrite H1, H2, Z.eqb_refl. reflexivity.
Qed.

Lemma semester_set k s : semester (fields (set_semester k now s)) = k.
Proof. reflexivity. Qed.

(** The five iterations, in the order 5, 4, 3, 2, 1, move a student once. *)
Lemma steps_compose s :
  update_if_at nm 1 2 now
    (update_if_at nm 2 3 now
       (update_if_at nm 3 4 now
          (update_if_at nm 4 5 now
             (update_if_at nm 5 6 now s))))
  = promoted_once nm now s.
Proof.
  unfold promoted_once.
  destruct (in_stream nm s) eqn:Hs; simpl.
  2:{ rewrite (update_outside 5 6), (update_outside 4 5), (update_outside 3 4),
        (update_outside 2 3), (update_outside 1 2); auto. }
  destruct (Z.eq_dec (semester (fields s)) 5) as [E5|N5].
  { rewrite (update_hit 5 6 s Hs E5), (update_miss 4 5), (update_miss 3 4),
      (update_miss 2 3), (update_miss 1 2), E5 by (rewrite semester_set; lia).
    reflexivity. }
  rewrite (update_miss 5 6) by assumption.
  destruct (Z.eq_dec (semester (fields s)) 4) as [E4|N4].
  { rewrite (update_hit 4 5 s Hs E4), (update_miss 3 4),
      (update_miss 2 3), (update_miss 1 2), E4 by (rewrite semester_set; lia).
    reflexivity. }
  rewrite (update_miss 4 5) by assumption.
  destruct (Z.eq_dec (semester (fields s)) 3) as [E3|N3].
  { rewrite (update_hit 3 4 s Hs E3),
      (update_miss 2 3), (update_miss 1 2), E3 by (rewrite semester_set; lia).
    reflexivity. }
  rewrite (update_miss 3 4) by assumption.
  destruct (Z.eq_dec (semester (fields s)) 2) as [E2|N2].
  { rewrite (update_hit 2 3 s Hs E2), (update_miss 1 2), E2 by (rewrite semester_set; lia).
    reflexivity. }
  rewrite (update_miss 2 3) by assumption.
  destruct (Z.eq_dec (semester (fields s)) 1) as [E1|N1].
  { rewrite (update_hit 1 2 s Hs E1), E1. reflexivity. }
  rewrite (update_miss 1 2) by assumption.
  destruct (Z.leb_spec 1 (semester (fields s)));
    destruct (Z.leb_spec (semester (fields s)) 5); simpl; try reflexivity.
  lia.
Qed.

Lemma at_semester_update k j next s :
  k <> j -> k <> next ->
  at_semester nm k (update_if_at nm j next now s) = at_semester nm k s.
Proof.
  intros Hj Hn. unfold update_if_at.
  destruct (at_semester nm j s) eqn:Hat; [|reflexivity].
  unfold at_semester in *. apply andb_true_iff in Hat as [Hin Hsem].
  apply Z.eqb_eq in Hsem.
  change (in_stream nm (set_semester next now s)) with (in_stream nm s).
  rewrite semester_set, Hsem.
  destruct (Z.eqb_spec next k); [congruence|].
  destruct (Z.eqb_spec j k); [congruence|]. reflexivity.
Qed.

Lemma countDocuments_update k j next l :
  k <> j -> k <> next ->
  countDocuments nm k (List.map (update_if_at nm j next now) l) = countDocuments nm k l.
Proof.
  intros Hj Hn. unfold countDocuments.
  induction l as [|s l IH]; [reflexivity|]. simpl.
  rewrite at_semester_update by assumption.
  destruct (at_semester nm k s); simpl; rewrite IH; reflexivity.
Qed.

(** The loop as a whole: every student is moved by [promoted_once], and
    the count of promotions is the number of students that were at the
    semesters 5 down to 1 when the loop began. *)
Lemma promotion_loop l flow0 :
  exists flow,
    fold_left (promote_step nm now) promotion_order (l, 0%nat, flow0)
    = (List.map (promoted_once nm now) l,
       (countDocuments nm 5 l + countDocuments nm 4 l + countDocuments nm 3 l
        + countDocuments nm 2 l + countDocuments nm 1 l)%nat,
       flow).
Proof.
  unfold promotion_order. cbn [fold_left].
  rewrite !promote_step_eq.
  change (5 + 1) with 6. change (4 + 1) with 5. change (3 + 1) with 4.
  change (2 + 1) with 3. change (1 + 1) with 2.
  rewrite !countDocuments_update by lia.
  rewrite !List.map_map.
  rewrite (List.map_ext _ _ steps_compose).
  eexists. reflexivity.
Qed.

Ltac student_cases s :=
  unfold promoted_once, at_semester, in_stream, set_semester in *;
  destruct s as [id [sid n str sem roll act upd]]; simpl in *;
  destruct (String.eqb str _) eqn:Hs; simpl in *;
  repeat match goal with
         | |- context [?a <=? ?b] => destruct (Z.leb_spec a b); simpl in *
         end;
  rewrite ?Hs; simpl;
  repeat match goal with
         | H : (_ =? _) = false |- _ => apply Z.eqb_neq in H
         | H : (_ =? _) = true |- _ => apply Z.eqb_eq in H
         | |- context [?a =? ?b] => destruct (Z.eqb_spec a b); simpl in *
         end;
  try reflexivity; try lia; try congruence.

Lemma at_next_promoted k s :
  1 <= k <= 5 -> at_semester nm 6 s = false ->
  at_semester nm (k + 1) (promoted_once nm now s) = at_semester nm k s.
Proof. intros Hk H6. student_cases s. Qed.

Lemma not_at_first_promoted s :
  at_semester nm 1 (promoted_once nm now s) = false.
Proof. student_cases s. Qed.

Lemma graduate_not_below k s :
  1 <= k <= 5 -> at_semester nm 6 s = true -> at_semester nm k s = false.
Proof. intros Hk H6. student_cases s. Qed.

(** The counts after a run are the counts before it, shifted by one. *)
Lemma counts_shift l :
  let after := List.map (promoted_once nm now)
                 (List.filter (fun s => negb (at_semester nm 6 s)) l) in
  countDocuments nm 1 after = 0%nat
  /\ forall k, 1 <= k <= 5 -> countDocuments nm (k + 1) after = countDocuments nm k l.
Proof.
  unfold countDocuments. induction l as [|s l [IH1 IHk]]; simpl.
  - split; [reflexivity|]. intros; reflexivity.
  - destruct (at_semester nm 6 s) eqn:H6; simpl.
    + split; [exact IH1|]. intros k Hk.
      rewrite (graduate_not_below k s Hk H6). apply IHk, Hk.
    + rewrite not_at_first_promoted. split; [exact IH1|]. intros k Hk.
      rewrite (at_next_promoted k s Hk H6).
      destruct (at_semester nm k s); simpl; rewrite (IHk k Hk); reflexivity.
Qed.

Lemma countDocuments_after_graduation k l :
  1 <= k <= 5 ->
  countDocuments nm k (List.filter (fun s => negb (at_semester nm 6 s)) l)
  = countDocuments nm k l.
Proof.
  intros Hk. unfold countDocuments. induction l as [|s l IH]; [reflexivity|]. simpl.
  destruct (at_semester nm 6 s) eqn:H6; simpl.
  - rewrite (graduate_not_below k s Hk H6). exact IH.
  - destruct (at_semester nm k s); simpl; rewrite IH; reflexivity.
Qed.

End PromotionRun.

Section PromotionExecute.

Import Promotion.

(** The effect of a promotion run on a known stream. *)
Lemma execute_effect now streamName db streamData :
  findStream streamName (streams db) = Some streamData ->
  let nm := sd_name streamData in
  let roster := List.filter (in_stream nm) (students db) in
  exists r db',
    execute now streamName db = (Success r, db')
    /\ streams db' = streams db
    /\ nextId db' = S (nextId db)
    /\ promotion_history db'
       = promotion_history db ++ [mkBackup (nextId db) nm now roster (length roster) false None]
    /\ totalGraduated r = countDocuments nm 6 (students db)
    /\ totalPromoted r
       = (countDocuments nm 1 (students db) + countDocuments nm 2 (students db)
          + countDocuments nm 3 (students db) + countDocuments nm 4 (students db)
          + countDocuments nm 5 (students db))%nat
    /\ students db'
       = List.map (promoted_once nm now)
           (List.filter (fun s => negb (at_semester nm 6 s)) (students db)).
Proof.
  intros Hfind nm roster. unfold execute. rewrite Hfind. fold nm.
  unfold deleteMany.
  destruct (promotion_loop nm now
              (List.filter (fun s => negb (at_semester nm 6 s)) (students db))
              (if (0 <? length (List.filter (at_semester nm 6) (students db)))%nat
               then [Graduated (length (List.filter (at_semester nm 6) (students db)))]
               else [])) as [flow Hloop].
  rewrite Hloop. eexists; eexists. split; [reflexivity|]. simpl.
  split; [reflexivity|]. split; [reflexivity|]. split; [reflexivity|]. split.
  - unfold countDocuments.
    destruct (0 <? length (List.filter (at_semester nm 6) (students db)))%nat eqn:E;
      [reflexivity|]. apply Nat.ltb_ge in E. lia.
  - split; [|reflexivity].
    rewrite !countDocuments_after_graduation by lia. lia.
Qed.

(** C2: a promotion run on a known stream succeeds; it appends a backup
    with [restored = false] that holds the whole roster of the stream as it
    was before the run; it deletes the students at semester 6 and reports
    their number; every remaining student of the stream at semester 1 to 5
    is moved up by exactly one semester and no other student is touched, so
    that semester 1 is left empty and each semester k+1 holds as many
    students as semester k held before. *)
Theorem execute_backs_up_graduates_and_promotes now streamName db streamData :
  findStream streamName (streams db) = Some streamData ->
  let nm := sd_name streamData in
  let roster := List.filter (in_stream nm) (students db) in
  exists r db',
    execute now streamName db = (Success r, db')
    /\ promotion_history db'
       = promotion_history db ++ [mkBackup (nextId db) nm now roster (length roster) false None]
    /\ totalGraduated r = countDocuments nm 6 (students db)
    /\ totalPromoted r
       = (countDocuments nm 1 (students db) + countDocuments nm 2 (students db)
          + countDocuments nm 3 (students db) + countDocuments nm 4 (students db)
          + countDocuments nm 5 (students db))%nat
    /\ students db'
       = List.map (promoted_once nm now)
           (List.filter (fun s => negb (at_semester nm 6 s)) (students db))
    /\ countDocuments nm 1 (students db') = 0%nat
    /\ forall k, 1 <= k <= 5 ->
         countDocuments nm (k + 1) (students db') = countDocuments nm k (students db).
Proof.
  intros Hfind nm roster.
  destruct (execute_effect now streamName db streamData Hfind)
    as (r & db' & Hrun & _ & _ & Hhist & Hgrad & Hprom & Hstud).
  destruct (counts_shift nm now (students db)) as [Hfirst Hshift].
  exists r, db'. rewrite Hstud. repeat split; assumption.
Qed.

Lemma execute_backs_up_graduates_and_promotes_witness :
  exists r db',
    Promotion.execute 1000 "bca" SampleRoster.college = (Success r, db')
    /\ totalGraduated r = 1%nat /\ totalPromoted r = 2%nat
    /\ List.map (fun s => (studentID (fields s), semester (fields s))) (students db')
       = [("S1", 2); ("S5", 6); ("C1", 6)]
    /\ List.map restored (promotion_history db') = [false].
Proof.
  destruct (execute_backs_up_graduates_and_promotes 1000 "bca" SampleRoster.college
              (mkStreamDoc "BCA" "bca") eq_refl)
    as (r & db' & Hrun & Hhist & Hgrad & Hprom & Hstud & _).
  exists r, db'. split; [exact Hrun|].
  rewrite Hgrad, Hprom, Hstud, Hhist. vm_compute. repeat split; reflexivity.
Defined.

End PromotionExecute.

Section PromotionUndo.

Import Promotion.

#[local] Instance newer_first_total : Total newer_first.
Proof. intros a b. unfold newer_first. lia. Qed.

#[local] Instance newer_first_trans : Transitive newer_first.
Proof. intros a b c. unfold newer_first. lia. Qed.

(** A backup appended with a timestamp above those of the backups the
    filter selects is the one [sort({ timestamp: -1 }).limit(1)] returns. *)
Lemma latest_appended (f : Backup -> bool) history b :
  f b = true ->
  (forall x, In x history -> f x = true -> bk_timestamp x < bk_timestamp b) ->
  latest f (history ++ [b]) = Some b.
Proof.
  intros Hb Hold. unfold latest.
  pose proof (StronglySorted_merge_sort newer_first (List.filter f (history ++ [b]))) as Hsorted.
  pose proof (merge_sort_Permutation newer_first (List.filter f (history ++ [b]))) as Hperm.
  assert (Hin : b ∈ merge_sort newer_first (List.filter f (history ++ [b]))).
  { rewrite Hperm. apply list_elem_of_In, List.filter_In. split; [|exact Hb].
    apply List.in_or_app. right. left. reflexivity. }
  destruct (merge_sort newer_first (List.filter f (history ++ [b]))) as [|x tl] eqn:E.
  { inversion Hin. }
  simpl. f_equal.
  assert (Hx : x ∈ List.filter f (history ++ [b])).
  { rewrite <- Hperm. left. }
  apply list_elem_of_In, List.filter_In in Hx as [Hx Hfx].
  apply List.in_app_or in Hx as [Hx|[Hx|[]]]; [|congruence].
  apply elem_of_cons in Hin as [Hin|Hin]; [congruence|].
  apply StronglySorted_inv in Hsorted as [_ Hall].
  rewrite List.Forall_forall in Hall.
  apply list_elem_of_In in Hin. specialize (Hall b Hin). unfold newer_first in Hall.
  specialize (Hold x Hx Hfx). lia.
Qed.

Lemma insertMany_appends docs : forall next l,
  exists inserted,
    insertMany docs next l = (l ++ inserted, (next + length docs)%nat)
    /\ List.map fields inserted = docs.
Proof.
  induction docs as [|d rest IH]; intros next l; simpl.
  - exists []. rewrite List.app_nil_r, Nat.add_0_r. split; reflexivity.
  - destruct (IH (S next) (l ++ [mkStudent next d])) as (ins & Hins & Hf).
    exists (mkStudent next d :: ins). rewrite Hins, <- List.app_assoc. simpl.
    split; [f_equal; lia | f_equal; exact Hf].
Qed.

Lemma in_stream_by_fields nm (a b : Student) :
  fields a = fields b -> in_stream nm a = in_stream nm b.
Proof. unfold in_stream. intros ->. reflexivity. Qed.

Lemma filter_in_stream_by_fields nm (l1 l2 : list Student) :
  List.map fields l1 = List.map fields l2 ->
  Forall (fun s => in_stream nm s = true) l2 ->
  List.filter (in_stream nm) l1 = l1
  /\ List.filter (fun s => negb (in_stream nm s)) l1 = [].
Proof.
  revert l2. induction l1 as [|a l1 IH]; intros [|b l2] Hmap Hall; try discriminate.
  - split; reflexivity.
  - simpl in Hmap. inversion Hmap as [[Hab Hrest]]. inversion Hall; subst.
    destruct (IH l2 Hrest) as [IH1 IH2]; [assumption|].
    simpl. rewrite (in_stream_by_fields nm a b Hab).
    replace (in_stream nm b) with true by (symmetry; assumption). simpl.
    rewrite IH1, IH2. split; reflexivity.
Qed.

Lemma in_stream_promoted nm now s :
  in_stream nm (promoted_once nm now s) = in_stream nm s.
Proof.
  unfold promoted_once.
  destruct (in_stream nm s && (1 <=? semester (fields s)) && (semester (fields s) <=? 5));
    reflexivity.
Qed.

Lemma promoted_outside nm now s :
  in_stream nm s = false -> promoted_once nm now s = s.
Proof. intros H. unfold promoted_once. rewrite H. reflexivity. Qed.

Lemma others_untouched nm now l :
  List.filter (fun s => negb (in_stream nm s))
    (List.map (promoted_once nm now)
       (List.filter (fun s => negb (at_semester nm 6 s)) l))
  = List.filter (fun s => negb (in_stream nm s)) l.
Proof.
  induction l as [|s l IH]; [reflexivity|]. simpl.
  destruct (at_semester nm 6 s) eqn:H6; simpl.
  - unfold at_semester in H6. apply andb_true_iff in H6 as [-> _]. exact IH.
  - rewrite in_stream_promoted.
    destruct (in_stream nm s) eqn:Hs; simpl; [exact IH|].
    rewrite (promoted_outside nm now s Hs), IH. reflexivity.
Qed.

Lemma filter_idem {A} (p : A -> bool) l :
  List.filter p (List.filter p l) = List.filter p l.
Proof.
  induction l as [|a l IH]; [reflexivity|]. simpl.
  destruct (p a) eqn:E; simpl; rewrite ?E, IH; reflexivity.
Qed.

Lemma filter_complement {A} (p : A -> bool) l :
  List.filter p (List.filter (fun a => negb (p a)) l) = [].
Proof.
  induction l as [|a l IH]; [reflexivity|]. simpl.
  destruct (p a) eqn:E; simpl; rewrite ?E, IH; reflexivity.
Qed.

Lemma filter_all {A} (p : A -> bool) l :
  Forall (fun a => p a = true) (List.filter p l).
Proof.
  apply List.Forall_forall. intros a Ha. apply List.filter_In in Ha. tauto.
Qed.

(** When the undo route can build its regular expression and resolves the
    stream to the stream document the run resolved it to, a promotion run followed by an undo inside the
    window restores the roster of the stream: the students of the stream
    are, in the same order, the documents of before the run with every
    field but the storage identity as it was (so the same studentIDs at
    the same semesters), and the students of other streams are
    untouched. *)
Lemma undo_after_execute_restores_roster now1 now2 s1 s2 db sd1 sd2 :
  findStream s1 (streams db) = Some sd1 ->
  Js.regex_throws s2 = false ->
  findStream_i s2 (streams db) = Some sd2 ->
  sd_name sd2 = sd_name sd1 ->
  (forall b, In b (promotion_history db) ->
     bk_stream b = sd_name sd1 -> bk_timestamp b < now1) ->
  (now2 - now1) / (1000 * 60 * 60) <= 24 ->
  let nm := sd_name sd1 in
  exists r1 db1 r2 db2,
    execute now1 s1 db = (Success r1, db1)
    /\ undo now2 s2 db1 = (Success r2, db2)
    /\ studentsRestored r2 = length (List.filter (in_stream nm) (students db))
    /\ List.map fields (List.filter (in_stream nm) (students db2))
       = List.map fields (List.filter (in_stream nm) (students db))
    /\ List.filter (fun s => negb (in_stream nm s)) (students db2)
       = List.filter (fun s => negb (in_stream nm s)) (students db).
Proof.
  intros Hf1 Hre Hf2 Hname Hold Hage nm.
  destruct (execute_effect now1 s1 db sd1 Hf1)
    as (r1 & db1 & Hrun & Hstreams & Hnext & Hhist & _ & _ & Hstud).
  fold nm in Hhist, Hstud.
  exists r1, db1.
  unfold undo. rewrite Hre, Hstreams, Hf2, Hname. fold nm. rewrite Hhist.
  rewrite latest_appended.
  2:{ simpl. apply String.eqb_refl. }
  2:{ intros x Hx Hfx. simpl. apply String.eqb_eq in Hfx. apply Hold; assumption. }
  unfold hours_old. simpl bk_timestamp.
  destruct ((now2 - now1) / (1000 * 60 * 60) >? 24) eqn:E; [lia|].
  simpl bk_students.
  destruct (insertMany_appends
              (List.map fields (List.filter (in_stream nm) (students db)))
              (nextId db1)
              (List.filter (fun s => negb (in_stream nm s)) (students db1)))
    as (ins & Hins & Hfields).
  rewrite Hins. eexists; eexists. split; [exact Hrun|]. split; [reflexivity|].
  simpl.
  destruct (filter_in_stream_by_fields nm ins
              (List.filter (in_stream nm) (students db)) Hfields (filter_all _ _))
    as [Hin Hout].
  rewrite !List.filter_app, Hin, Hout, filter_complement, filter_idem, List.app_nil_r.
  simpl. rewrite Hstud, others_untouched.
  split; [reflexivity|]. split; [exact Hfields|reflexivity].
Qed.

Lemma undo_after_execute_restores_roster_witness :
  exists r1 db1 r2 db2,
    execute 1000 "bca" SampleRoster.college = (Success r1, db1)
    /\ undo 2000 "BCA" db1 = (Success r2, db2)
    /\ studentsRestored r2 = 3%nat
    /\ List.map (fun s => (studentID (fields s), semester (fields s))) (students db2)
       = [("C1", 6); ("S1", 1); ("S5", 5); ("S6", 6)].
Proof.
  assert (Hold : forall b, In b (promotion_history SampleRoster.college) ->
                   bk_stream b = "BCA" -> bk_timestamp b < 1000) by (intros b []).
  assert (Hage : (2000 - 1000) / (1000 * 60 * 60) <= 24) by (vm_compute; discriminate).
  destruct (undo_after_execute_restores_roster 1000 2000 "bca" "BCA" SampleRoster.college
              (mkStreamDoc "BCA" "bca") (mkStreamDoc "BCA" "bca")
              eq_refl eq_refl eq_refl eq_refl Hold Hage)
    as (r1 & db1 & r2 & db2 & Hrun & Hundo & Hn & _).
  exists r1, db1, r2, db2. split; [exact Hrun|]. split; [exact Hundo|].
  split; [rewrite Hn; reflexivity|].
  vm_compute in Hrun. inversion Hrun; subst.
  vm_compute in Hundo. inversion Hundo; subst. reflexivity.
Defined.

(** A backup whose age in whole hours is above 24 cannot be undone, and
    the availability check says so. *)
(** C3: a promotion run followed at once by an undo does not restore the
    roster when another stream's name differs from the stream's in letter
    case only: the run looks the stream up by its exact name and writes
    the backup under it, the undo looks it up through a case-insensitive
    regular expression and finds the other stream first, for which there
    is no backup; it answers 404 and the roster stays promoted. *)
Theorem undo_after_execute_finds_no_backup :
  exists r1 db1 r0,
    execute 1000 "BCom" SampleRoster.twin_streams = (Success r1, db1)
    /\ preview "BCom" SampleRoster.twin_streams = Success r0
    /\ List.map bk_stream (promotion_history db1) = ["BCom"]
    /\ List.map (fun s => (studentID (fields s), semester (fields s)))
         (students SampleRoster.twin_streams) = [("E1", 1); ("E2", 6)]
    /\ List.map (fun s => (studentID (fields s), semester (fields s))) (students db1)
       = [("E1", 2)]
    /\ undo 2000 "BCom" db1 = (Failure 404 "No backup found. Cannot undo promotion.", db1).
Proof.
  eexists; eexists; eexists. split; [vm_compute; reflexivity|].
  split; [vm_compute; reflexivity|]. split; [vm_compute; reflexivity|].
  split; [vm_compute; reflexivity|]. split; vm_compute; reflexivity.
Qed.

Lemma undo_expired now streamName db streamData b :
  Js.regex_throws streamName = false ->
  findStream_i streamName (streams db) = Some streamData ->
  latest (fun x => String.eqb (bk_stream x) (sd_name streamData)) (promotion_history db)
    = Some b ->
  24 < hours_old now b ->
  undo now streamName db
  = (Failure 400
       ("Backup is " ++ Js.json_int (hours_old now b)
        ++ " hours old. Undo only available within 24 hours.")%string, db).
Proof.
  intros Hre Hf Hl Hage. unfold undo. rewrite Hre, Hf, Hl.
  destruct (hours_old now b >? 24) eqn:E; [reflexivity|lia].
Qed.

Lemma canUndo_expired now streamName db streamData b :
  Js.regex_throws streamName = false ->
  findStream_i streamName (streams db) = Some streamData ->
  latest (fun x => String.eqb (bk_stream x) (sd_name streamData) && negb (restored x))
    (promotion_history db) = Some b ->
  24 < hours_old now b ->
  exists info, canUndoPromotion now streamName db = Success info /\ canUndo info = false.
Proof.
  intros Hre Hf Hl Hage. unfold canUndoPromotion. rewrite Hre, Hf, Hl.
  eexists. split; [reflexivity|]. simpl. apply Z.leb_gt. exact Hage.
Qed.

(** A stream without any backup cannot be undone. *)
Lemma undo_without_backup now streamName db streamData :
  Js.regex_throws streamName = false ->
  findStream_i streamName (streams db) = Some streamData ->
  latest (fun x => String.eqb (bk_stream x) (sd_name streamData)) (promotion_history db)
    = None ->
  undo now streamName db = (Failure 404 "No backup found. Cannot undo promotion.", db).
Proof. intros Hre Hf Hl. unfold undo. rewrite Hre, Hf, Hl. reflexivity. Qed.

(** C4: after a promotion run and one successful undo, which marks the
    backup as restored, the availability check finds no backup, yet a
    second undo inside the window succeeds and restores the backup again. *)
Theorem second_undo_restores_again :
  let '(_, db1) := execute 1000 "BCA" SampleRoster.college in
  let '(u1, db2) := undo 2000 "BCA" db1 in
  let '(u2, db3) := undo 3000 "BCA" db2 in
  u1 = Success (mkUndoResult 3 1000)
  /\ List.map restored (promotion_history db2) = [true]
  /\ canUndoPromotion 3000 "BCA" db2 = Success (mkCanUndoInfo false None 0)
  /\ u2 = Success (mkUndoResult 3 1000)
  /\ List.map (fun s => (_id s, studentID (fields s))) (students db3)
     = [(3%nat, "C1"); (8%nat, "S1"); (9%nat, "S5"); (10%nat, "S6")].
Proof. vm_compute. repeat split; reflexivity. Qed.

End PromotionUndo.

(** ** Teacher documents *)

Section TeacherFields.

Import Teacher.

Lemma updateOne_setOnInsert f l : updateOne f setOnInsert_matched l = l.
Proof.
  induction l as [|t rest IH]; [reflexivity|]. simpl.
  destruct (f t); [reflexivity|]. rewrite IH. reflexivity.
Qed.

Lemma updateOne_no_match f u l :
  Forall (fun t => f t = false) l -> updateOne f u l = l.
Proof.
  induction 1 as [|t rest Ht _ IH]; [reflexivity|]. simpl. rewrite Ht, IH. reflexivity.
Qed.

Lemma missing_needs_email email t :
  t_email t <> email -> missing_some_array email t = false.
Proof.
  intros H. unfold missing_some_array.
  destruct (String.eqb_spec (t_email t) email); [contradiction|reflexivity].
Qed.

Lemma missing_after_set email t : missing_some_array email (set_empty_arrays t) = false.
Proof. unfold missing_some_array, set_empty_arrays; simpl. apply andb_false_r. Qed.

(** With unique emails the second [updateOne] repairs the one document of
    the teacher and nothing else. *)
Lemma ensureTeacherFields_map email teachers :
  NoDup (List.map t_email teachers) ->
  snd (ensureTeacherFields email teachers) = List.map (repaired email) teachers.
Proof.
  unfold ensureTeacherFields. simpl. rewrite updateOne_setOnInsert.
  induction teachers as [|t rest IH]; intros Hnd; [reflexivity|].
  simpl in *. apply NoDup_cons in Hnd as [Hnotin Hnd].
  unfold repaired at 1.
  destruct (missing_some_array email t) eqn:Hm.
  - f_equal. symmetry. erewrite List.map_ext_in; [apply List.map_id|].
    intros t' Hin. unfold repaired. rewrite missing_needs_email; [reflexivity|].
    intros He. apply Hnotin. apply list_elem_of_In.
    unfold missing_some_array in Hm. apply andb_true_iff in Hm as [Hm _].
    apply String.eqb_eq in Hm. rewrite Hm, <- He. apply List.in_map. exact Hin.
  - f_equal. apply IH. exact Hnd.
Qed.

Lemma repaired_has_all email t :
  t_email t = email -> has_all_arrays (repaired email t).
Proof.
  intros He. unfold repaired, missing_some_array, has_all_arrays.
  rewrite He, String.eqb_refl. simpl.
  destruct (createdSubjects t) eqn:E1, (attendanceQueue t) eqn:E2,
    (completedClasses t) eqn:E3; simpl; rewrite ?E1, ?E2, ?E3; repeat split; eauto.
Qed.

Lemma repaired_fills_absent email t :
  t_email t = email ->
  (createdSubjects t = None -> createdSubjects (repaired email t) = Some [])
  /\ (attendanceQueue t = None -> attendanceQueue (repaired email t) = Some [])
  /\ (completedClasses t = None -> completedClasses (repaired email t) = Some []).
Proof.
  intros He. unfold repaired, missing_some_array.
  rewrite He, String.eqb_refl. simpl.
  repeat split; intros ->; simpl; rewrite ?orb_true_r; reflexivity.
Qed.

Lemma repaired_keeps_complete email t :
  has_all_arrays t -> repaired email t = t.
Proof.
  intros (H1 & H2 & H3). unfold repaired, missing_some_array.
  rewrite !bool_decide_eq_true_2 by assumption. simpl.
  rewrite andb_false_r. reflexivity.
Qed.

Lemma repaired_idem email t : repaired email (repaired email t) = repaired email t.
Proof.
  unfold repaired. destruct (missing_some_array email t) eqn:Hm.
  - rewrite missing_after_set. reflexivity.
  - rewrite Hm. reflexivity.
Qed.

Lemma repaired_email email t : t_email (repaired email t) = t_email t.
Proof. unfold repaired. destruct (missing_some_array email t); reflexivity. Qed.

(** What does hold of [ensureTeacherFields] on a collection with unique
    emails: it answers true; afterwards the document of the teacher has all
    three arrays, and each array it did not have is the empty array; a
    document that already had the three arrays is unchanged, and so are the
    documents of the other teachers; and calling it again changes
    nothing. *)
Lemma ensureTeacherFields_idempotent email teachers :
  NoDup (List.map t_email teachers) ->
  let after := snd (ensureTeacherFields email teachers) in
  fst (ensureTeacherFields email teachers) = true
  /\ (forall i t, teachers !! i = Some t -> t_email t = email ->
        exists t', after !! i = Some t'
          /\ has_all_arrays t'
          /\ (createdSubjects t = None -> createdSubjects t' = Some [])
          /\ (attendanceQueue t = None -> attendanceQueue t' = Some [])
          /\ (completedClasses t = None -> completedClasses t' = Some [])
          /\ (has_all_arrays t -> t' = t))
  /\ (forall i t, teachers !! i = Some t -> t_email t <> email -> after !! i = Some t)
  /\ ensureTeacherFields email after = (true, after).
Proof.
  intros Hnd after. subst after. rewrite (ensureTeacherFields_map email teachers Hnd).
  split; [reflexivity|]. split; [|split].
  - intros i t Hi He. exists (repaired email t).
    split; [rewrite list_lookup_fmap, Hi; reflexivity|].
    split; [apply repaired_has_all; exact He|].
    destruct (repaired_fills_absent email t He) as (H1 & H2 & H3).
    repeat split; try assumption. apply repaired_keeps_complete.
  - intros i t Hi Hne. rewrite list_lookup_fmap, Hi. simpl. f_equal.
    unfold repaired. rewrite missing_needs_email by exact Hne. reflexivity.
  - assert (Hnd' : NoDup (List.map t_email (List.map (repaired email) teachers))).
    { rewrite List.map_map. erewrite List.map_ext; [exact Hnd|]. apply repaired_email. }
    pose proof (ensureTeacherFields_map email _ Hnd') as Hagain.
    destruct (ensureTeacherFields email (List.map (repaired email) teachers)) as [ok l] eqn:E.
    simpl in Hagain. subst l.
    assert (ok = true) as -> by (unfold ensureTeacherFields in E; inversion E; reflexivity).
    f_equal. rewrite List.map_map. apply List.map_ext. apply repaired_idem.
Qed.

Lemma ensureTeacherFields_idempotent_witness :
  fst (ensureTeacherFields "ravi@college.edu" SampleTeachers.staff) = true
  /\ ensureTeacherFields "ravi@college.edu"
       (snd (ensureTeacherFields "ravi@college.edu" SampleTeachers.staff))
     = (true, snd (ensureTeacherFields "ravi@college.edu" SampleTeachers.staff)).
Proof.
  assert (Hnd : NoDup (List.map t_email SampleTeachers.staff)).
  { apply (bool_decide_unpack _). vm_compute. exact I. }
  destruct (ensureTeacherFields_idempotent "ravi@college.edu" SampleTeachers.staff Hnd)
    as (Hok & _ & _ & Hagain).
  split; [exact Hok|exact Hagain].
Defined.

(** A document that lacks one of the three arrays has the arrays it has
    emptied by the call. *)
Lemma ensureTeacherFields_resets_incomplete email teachers i t :
  NoDup (List.map t_email teachers) ->
  teachers !! i = Some t -> t_email t = email -> ~ has_all_arrays t ->
  snd (ensureTeacherFields email teachers) !! i = Some (set_empty_arrays t).
Proof.
  intros Hnd Hi He Hnot. rewrite (ensureTeacherFields_map email teachers Hnd).
  rewrite list_lookup_fmap, Hi. simpl. f_equal.
  unfold repaired, missing_some_array. rewrite He, String.eqb_refl.
  destruct (createdSubjects t) eqn:E1, (attendanceQueue t) eqn:E2,
    (completedClasses t) eqn:E3; simpl; try reflexivity.
  exfalso. apply Hnot. unfold has_all_arrays. rewrite E1, E2, E3. repeat split; eauto.
Qed.

(** C10: the first call of [ensureTeacherFields] for a teacher whose
    document has a populated [attendanceQueue] but no [createdSubjects]
    and no [completedClasses] empties the queue: the second [updateOne]
    sets all three arrays to the empty array as soon as one of them is
    missing, so existing data is clobbered. (A second call then changes
    nothing more.) *)
Theorem ensureTeacherFields_empties_populated_queue :
  SampleTeachers.staff !! 2%nat = Some SampleTeachers.queue_only
  /\ t_email SampleTeachers.queue_only = "mina@college.edu"%string
  /\ attendanceQueue SampleTeachers.queue_only = Some [SampleTeachers.dbms_item]
  /\ snd (ensureTeacherFields "mina@college.edu" SampleTeachers.staff) !! 2%nat
     = Some (mkTeacherDoc "mina@college.edu" "uid-3" "mina" (Some []) (Some []) (Some []))
  /\ ensureTeacherFields "mina@college.edu"
       (snd (ensureTeacherFields "mina@college.edu" SampleTeachers.staff))
     = (true, snd (ensureTeacherFields "mina@college.edu" SampleTeachers.staff)).
Proof. repeat split. Qed.

End TeacherFields.

(** ** Arithmetic of the register *)

Section NumberRounding.

Import JsNumber.

Local Open Scope Q_scope.

Lemma pow2_pos e : 0 < pow2 e.
Proof. apply Qpower_0_lt. reflexivity. Qed.

Lemma pow2_add a b : pow2 (a + b) == pow2 a * pow2 b.
Proof. apply Qpower_plus. discriminate. Qed.

Lemma pow2_Z n : (0 <= n)%Z -> inject_Z (2 ^ n) == pow2 n.
Proof. intros H. unfold pow2. rewrite Zpower_Qpower by assumption. reflexivity. Qed.

Lemma pow2_succ a : pow2 (a + 1) == 2 * pow2 a.
Proof. rewrite pow2_add. change (pow2 1) with 2. ring. Qed.

Lemma log2_bounds (n : Z) :
  (0 < n)%Z -> pow2 (Z.log2 n) <= inject_Z n /\ inject_Z n < 2 * pow2 (Z.log2 n).
Proof.
  intros Hn. destruct (Z.log2_spec n Hn) as [Hlo Hhi].
  pose proof (Z.log2_nonneg n) as Hnn.
  rewrite <- pow2_succ, <- !pow2_Z by lia.
  rewrite <- Zle_Qle, <- Zlt_Qlt. unfold Z.succ in Hhi. split; assumption.
Qed.

Lemma floor_log2_spec q :
  0 < q -> pow2 (floor_log2 q) <= q /\ q < 2 * pow2 (floor_log2 q).
Proof.
  intros Hq. unfold floor_log2.
  destruct q as [a b]. simpl Qnum. simpl Qden.
  assert (Ha : (0 < a)%Z).
  { unfold Qlt in Hq. simpl in Hq. lia. }
  destruct (log2_bounds a Ha) as [Ha1 Ha2].
  destruct (log2_bounds (Zpos b) eq_refl) as [Hb1 Hb2].
  set (la := Z.log2 a) in *. set (lb := Z.log2 (Zpos b)) in *.
  pose proof (pow2_pos la) as HA. pose proof (pow2_pos lb) as HB.
  pose proof (pow2_pos (la - lb)) as HK.
  assert (Hk : pow2 (la - lb) * pow2 lb == pow2 la).
  { rewrite <- pow2_add. replace (la - lb + lb)%Z with la by lia. reflexivity. }
  assert (Hqab : (a # b) * inject_Z (Zpos b) == inject_Z a).
  { rewrite (Qmake_Qdiv a b). field. discriminate. }
  set (x := a # b) in *. set (ia := inject_Z a) in *. set (ib := inject_Z (Zpos b)) in *.
  assert (Hx : 0 < x) by exact Hq.
  destruct (Qle_bool (pow2 (la - lb)) x) eqn:E.
  - apply Qle_bool_iff in E. split; [exact E|].
    apply Qnot_le_lt. intros Hc.
    assert (2 * pow2 (la - lb) * ib <= x * ib) by (apply Qmult_le_compat_r; lra).
    assert (2 * pow2 (la - lb) * pow2 lb <= 2 * pow2 (la - lb) * ib).
    { apply Qmult_le_l; lra. }
    lra.
  - assert (Hlt : x < pow2 (la - lb)).
    { apply Qnot_le_lt. intros Hc. apply Qle_bool_iff in Hc. congruence. }
    assert (Hhalf : pow2 (la - lb) == 2 * pow2 (la - lb - 1)).
    { rewrite <- pow2_succ. replace (la - lb - 1 + 1)%Z with (la - lb)%Z by lia. reflexivity. }
    split; [|lra].
    apply Qnot_lt_le. intros Hc.
    assert (x * ib <= pow2 (la - lb - 1) * ib) by (apply Qmult_le_compat_r; lra).
    assert (pow2 (la - lb - 1) * ib < pow2 (la - lb - 1) * (2 * pow2 lb)).
    { apply Qmult_lt_l; [apply pow2_pos|lra]. }
    assert (pow2 (la - lb - 1) * (2 * pow2 lb) == pow2 la).
    { rewrite <- Hk, Hhalf. ring. }
    lra.
Qed.

Lemma round_half_even_near q :
  - (1 # 2) <= inject_Z (round_half_even q) - q <= 1 # 2.
Proof.
  unfold round_half_even.
  pose proof (Qfloor_le q) as Hlo. pose proof (Qlt_floor q) as Hhi.
  rewrite inject_Z_plus in Hhi. change (inject_Z 1) with 1 in Hhi.
  destruct (Qcompare_spec (q - inject_Z (Qfloor q)) (1 # 2)) as [E|E|E].
  - destruct (Z.even (Qfloor q)); rewrite ?inject_Z_plus; change (inject_Z 1) with 1; lra.
  - lra.
  - rewrite inject_Z_plus. change (inject_Z 1) with 1. lra.
Qed.

Lemma rn_zero q : q <= 0 -> rn q = 0.
Proof. intros H. unfold rn. apply Qle_bool_iff in H. rewrite H. reflexivity. Qed.

(** The relative error of one rounding is at most 2^-53. *)
Lemma rn_error q :
  0 <= q ->
  - (q * (1 # 9007199254740992)) <= rn q - q <= q * (1 # 9007199254740992).
Proof.
  intros Hq. unfold rn.
  destruct (Qle_bool q 0) eqn:E.
  - apply Qle_bool_iff in E. assert (q == 0) by lra. split; lra.
  - assert (Hpos : 0 < q).
    { apply Qnot_le_lt. intros Hc. apply Qle_bool_iff in Hc. congruence. }
    destruct (floor_log2_spec q Hpos) as [Hlo _].
    set (e := (floor_log2 q - 52)%Z).
    pose proof (pow2_pos e) as Hs.
    pose proof (round_half_even_near (q / pow2 e)) as Hr.
    set (m := inject_Z (round_half_even (q / pow2 e))) in *.
    assert (Hfl : pow2 (floor_log2 q) == pow2 e * pow2 52).
    { rewrite <- pow2_add. unfold e.
      replace (floor_log2 q - 52 + 52)%Z with (floor_log2 q) by lia. reflexivity. }
    assert (Hdiv : q / pow2 e * pow2 e == q) by (field; lra).
    set (d := q / pow2 e) in *.
    change (pow2 52) with (4503599627370496 # 1) in *.
    split; nra.
Qed.

Lemma rn_bounds q :
  0 <= q ->
  q * (1 - (1 # 9007199254740992)) <= rn q <= q * (1 + (1 # 9007199254740992)).
Proof. intros Hq. pose proof (rn_error q Hq) as H. lra. Qed.

Lemma toFixed2_bounds x :
  inject_Z (hundredths_of (toFixed2 x)) <= x * 100 + (1 # 2)
  /\ x * 100 + (1 # 2) < inject_Z (hundredths_of (toFixed2 x)) + 1.
Proof.
  unfold toFixed2, hundredths_of. split; [apply Qfloor_le|].
  pose proof (Qlt_floor (x * 100 + (1 # 2))) as H.
  rewrite inject_Z_plus in H. exact H.
Qed.

(** [((p / t) * 100).toFixed(2)] is a hundredth nearest to the exact
    percentage [100 p / t]. *)
Lemma percent_nearest (p t : Z) :
  (0 <= p <= t)%Z -> (0 < t <= 4294967296)%Z ->
  (2 * Z.abs (hundredths_of (toFixed2 (mul (div (inject_Z p) (inject_Z t)) 100)) * t
              - 10000 * p) <= t)%Z.
Proof.
  intros Hp Ht. unfold mul, div.
  set (P := inject_Z p). set (T := inject_Z t).
  assert (HT : 0 < T) by (unfold T; change 0 with (inject_Z 0); rewrite <- Zlt_Qlt; lia).
  assert (HT2 : T <= 4294967296).
  { unfold T. change 4294967296 with (inject_Z 4294967296). rewrite <- Zle_Qle. lia. }
  assert (HP : 0 <= P) by (unfold P; change 0 with (inject_Z 0); rewrite <- Zle_Qle; lia).
  assert (HPT : P <= T) by (unfold P, T; rewrite <- Zle_Qle; lia).
  assert (Hr : P / T * T == P) by (field; lra).
  assert (Hr0 : 0 <= P / T).
  { apply Qle_shift_div_l; lra. }
  set (r := P / T) in *.
  pose proof (rn_bounds r Hr0) as [H1l H1u].
  set (x1 := rn r) in *.
  assert (Hx1 : 0 <= x1 * 100) by lra.
  pose proof (rn_bounds (x1 * 100) Hx1) as [H2l H2u].
  set (x2 := rn (x1 * 100)) in *.
  pose proof (toFixed2_bounds x2) as [Hnl Hnu].
  set (n := hundredths_of (toFixed2 x2)) in *. set (N := inject_Z n) in *.
  assert (Hup : N * T <= (10000 * (1 + (1 # 9007199254740992)) * (1 + (1 # 9007199254740992)) * r
                          + (1 # 2)) * T).
  { apply Qmult_le_compat_r; lra. }
  assert (Hlo : (10000 * (1 - (1 # 9007199254740992)) * (1 - (1 # 9007199254740992)) * r
                 - (1 # 2)) * T <= N * T).
  { apply Qmult_le_compat_r; lra. }
  apply Z.nlt_ge. intros Hc.
  assert (Hcases : (t + 1 + 20000 * p <= 2 * (n * t) \/ 2 * (n * t) + t + 1 <= 20000 * p)%Z) by lia.
  destruct Hcases as [Hc1|Hc1]; rewrite Zle_Qle in Hc1;
    repeat rewrite ?inject_Z_plus, ?inject_Z_mult in Hc1;
    fold N T P in Hc1; cbv [inject_Z] in Hc1; lra.
Qed.

(** On a range of small operands the model computes the Numbers that the
    binary64 operations of the standard library compute. *)
Lemma model_agrees_with_binary64 :
  forallb (fun t => forallb (fun p => agrees_with_binary64 p t) (range (Z.to_nat t + 1)))
    (tl (range 101)) = true
  /\ forallb (fun p => agrees_with_binary64 p 160) (range 161) = true
  /\ forallb (fun a => forallb (fun n => mean_agrees_with_binary64 a 50 n) (tl (range 8)))
       (range 101) = true.
Proof. split; [|split]; vm_compute; reflexivity. Qed.

End NumberRounding.

Section RegisterArithmetic.

Import Attendance JsNumber Register.

Local Open Scope Q_scope.

Lemma rn_nonneg q : 0 <= rn q.
Proof.
  destruct (Qlt_le_dec 0 q) as [H|H].
  - pose proof (rn_bounds q (Qlt_le_weak _ _ H)). lra.
  - rewrite (rn_zero q H). lra.
Qed.

Lemma parseFloat_bounds v :
  (0 <= hundredths_of v <= 10000)%Z ->
  inject_Z (hundredths_of v) / 100 * (1 - (1 # 9007199254740992)) <= parseFloat v
  /\ parseFloat v <= inject_Z (hundredths_of v) / 100 * (1 + (1 # 9007199254740992))
  /\ 0 <= inject_Z (hundredths_of v) <= 10000.
Proof.
  intros [Hlo Hhi].
  assert (H0 : 0 <= inject_Z (hundredths_of v) <= 10000).
  { split; [change 0 with (inject_Z 0)|change 10000 with (inject_Z 10000)];
      rewrite <- Zle_Qle; assumption. }
  destruct v as [|n]; simpl in *.
  - repeat split; try lra; apply Qle_bool_imp_le; reflexivity.
  - assert (Hq : 0 <= inject_Z n / 100) by (apply Qle_shift_div_l; lra).
    pose proof (rn_bounds _ Hq). repeat split; lra.
Qed.

Lemma sum_step_error rows : forall (S : Q) (sigma k : Z),
  Forall in_range rows ->
  (0 <= k)%Z -> (k + Z.of_nat (length rows) <= 100000)%Z ->
  0 <= S -> (0 <= sigma <= 10000 * k)%Z ->
  - (inject_Z k * (10000300 # 9007199254740992)) <= S - inject_Z sigma / 100
    <= inject_Z k * (10000300 # 9007199254740992) ->
  let S' := fold_left (fun sum s => add sum (parseFloat (attendancePercentage s))) rows S in
  let sigma' := (sigma + total_hundredths rows)%Z in
  let k' := (k + Z.of_nat (length rows))%Z in
  0 <= S' /\ (0 <= sigma' <= 10000 * k')%Z
  /\ - (inject_Z k' * (10000300 # 9007199254740992)) <= S' - inject_Z sigma' / 100
     <= inject_Z k' * (10000300 # 9007199254740992).
Proof.
  induction rows as [|r rows IH]; intros S sigma k Hall Hk Hlen HS Hsig Herr.
  - simpl. rewrite Z.add_0_r, Z.add_0_r. auto.
  - inversion Hall as [|? ? Hr Hrest]; subst.
    simpl fold_left. unfold total_hundredths. simpl List.map. simpl fold_right.
    fold (total_hundredths rows).
    simpl length in *. rewrite Nat2Z.inj_succ in *.
    destruct (parseFloat_bounds (attendancePercentage r) Hr) as (Hvl & Hvu & Hn0 & Hn1).
    set (n := hundredths_of (attendancePercentage r)) in *.
    set (v := parseFloat (attendancePercentage r)) in *.
    assert (HK0 : 0 <= inject_Z k).
    { change 0 with (inject_Z 0). rewrite <- Zle_Qle. lia. }
    assert (HK1 : inject_Z k <= 99999).
    { change 99999 with (inject_Z 99999). rewrite <- Zle_Qle. lia. }
    assert (HSig : inject_Z sigma <= 10000 * inject_Z k).
    { change 10000 with (inject_Z 10000). rewrite <- inject_Z_mult, <- Zle_Qle. lia. }
    assert (Hv0 : 0 <= v) by (unfold v; destruct (attendancePercentage r); simpl; [lra|apply rn_nonneg]).
    assert (Hsv : 0 <= S + v) by lra.
    pose proof (rn_bounds (S + v) Hsv) as [Hal Hau].
    specialize (IH (add S v) (sigma + n)%Z (k + 1)%Z Hrest).
    replace (sigma + (n + total_hundredths rows))%Z with (sigma + n + total_hundredths rows)%Z by lia.
    replace (k + Z.succ (Z.of_nat (length rows)))%Z with (k + 1 + Z.of_nat (length rows))%Z by lia.
    apply IH.
    + lia.
    + lia.
    + apply rn_nonneg.
    + unfold in_range in Hr. fold n in Hr. lia.
    + unfold add. rewrite !inject_Z_plus. change (inject_Z 1) with 1.
      set (K := inject_Z k) in *. set (Sg := inject_Z sigma) in *. set (Nn := inject_Z n) in *.
      assert (Hd : (Sg + Nn) / 100 == Sg / 100 + Nn / 100) by field.
      rewrite Hd. clearbody K Sg Nn v.
      assert (Hd1 : Sg / 100 * 100 == Sg) by field.
      assert (Hd2 : Nn / 100 * 100 == Nn) by field.
      set (a := Sg / 100) in *. set (b := Nn / 100) in *. clearbody a b.
      split; lra.
Qed.

Lemma average_nearest rows :
  (0 < Z.of_nat (length rows) <= 100000)%Z ->
  Forall in_range rows ->
  exists a,
    average rows = Fixed2 a
    /\ (2 * Z.abs (a * Z.of_nat (length rows) - total_hundredths rows)
        <= Z.of_nat (length rows))%Z.
Proof.
  intros [Hpos Hmax] Hall. unfold average.
  destruct (0 <? length rows)%nat eqn:E; [|apply Nat.ltb_ge in E; lia].
  eexists. split; [reflexivity|].
  assert (H0 : - (inject_Z 0 * (10000300 # 9007199254740992)) <= 0 - inject_Z 0 / 100
               <= inject_Z 0 * (10000300 # 9007199254740992)).
  { split; apply Qle_bool_imp_le; reflexivity. }
  destruct (sum_step_error rows 0 0%Z 0%Z Hall (Z.le_refl 0) ltac:(lia) (Qle_refl 0)
              ltac:(lia) H0) as (HS & Hsig & Herr).
  fold (sum_percentages rows) in HS, Herr. rewrite !Z.add_0_l in Hsig, Herr.
  set (S := sum_percentages rows) in *.
  set (m := Z.of_nat (length rows)) in *.
  set (sg := total_hundredths rows) in *.
  assert (Hm : (0 < m <= 100000)%Z) by (unfold m; lia).
  set (M := inject_Z m) in *. set (Sg := inject_Z sg) in *.
  assert (HM0 : 0 < M) by (unfold M; change 0 with (inject_Z 0); rewrite <- Zlt_Qlt; lia).
  assert (HM1 : M <= 100000).
  { unfold M. change 100000 with (inject_Z 100000). rewrite <- Zle_Qle. lia. }
  assert (HSg0 : 0 <= Sg) by (unfold Sg; change 0 with (inject_Z 0); rewrite <- Zle_Qle; lia).
  assert (HSg1 : Sg <= 10000 * M).
  { unfold Sg, M. change 10000 with (inject_Z 10000). rewrite <- inject_Z_mult, <- Zle_Qle. lia. }
  unfold div.
  assert (Hw : S / M * M == S) by (field; lra).
  assert (Hw0 : 0 <= S / M) by (apply Qle_shift_div_l; lra).
  set (w := S / M) in *.
  pose proof (rn_bounds w Hw0) as [Hxl Hxu].
  set (x := rn w) in *.
  pose proof (toFixed2_bounds x) as [Hal Hau].
  change (hundredths_of (toFixed2 x)) with (Qfloor (x * 100 + (1 # 2))) in Hal, Hau.
  set (a := Qfloor (x * 100 + (1 # 2))) in *. set (A := inject_Z a) in *.
  assert (Hd : Sg / 100 * 100 == Sg) by field.
  set (e := Sg / 100) in *.
  assert (Hup : A * M <= (100 * (1 + (1 # 9007199254740992)) * w + (1 # 2)) * M).
  { apply Qmult_le_compat_r; lra. }
  assert (Hlo : (100 * (1 - (1 # 9007199254740992)) * w - (1 # 2)) * M <= A * M).
  { apply Qmult_le_compat_r; lra. }
  apply Z.nlt_ge. intros Hc.
  assert (Hcases : (m + 1 + 2 * sg <= 2 * (a * m) \/ 2 * (a * m) + m + 1 <= 2 * sg)%Z) by lia.
  destruct Hcases as [Hc1|Hc1]; rewrite Zle_Qle in Hc1;
    repeat rewrite ?inject_Z_plus, ?inject_Z_mult in Hc1;
    fold A M Sg in Hc1; cbv [inject_Z] in Hc1; clearbody A M Sg S w x e; lra.
Qed.

End RegisterArithmetic.

Section IntegerSubtraction.

Import JsNumber JsInteger.

(** On totals next to 2^10, 2^52, 2^53, 2^54, 2^55, 2^60 and 2^100, of
    either sign, and up to thirty-nine students present, [Js.sub] computes
    the integer that the binary64 subtraction of the standard library
    computes. *)
Lemma sub_agrees_with_binary64_near_powers :
  forallb (fun k =>
     forallb (fun a =>
        forallb (fun b => sub_agrees_with_binary64 a b && sub_agrees_with_binary64 (- a) b)
          (range 40))
       (totals_near k))
    [10; 52; 53; 54; 55; 60; 100]%Z = true.
Proof. vm_compute. reflexivity. Qed.

End IntegerSubtraction.

(** ** Register views *)

Section RegisterViews.

Import Attendance JsNumber Register.

Lemma filter_none {A} (p : A -> bool) l :
  (forall x, In x l -> p x = false) -> List.filter p l = [].
Proof.
  induction l as [|a l IH]; intros H; [reflexivity|]. simpl.
  rewrite (H a) by (left; reflexivity). apply IH. intros x Hx. apply H. right. exact Hx.
Qed.

(** The roster is the projection of the active students of the class, in
    some order. *)
Lemma roster_complete stream sem students :
  roster stream sem students
  ≡ₚ List.map project
       (List.filter (fun s => Js.regex_i stream (stream_of s)
                              && (semester (fields s) =? sem)%Z && isActive (fields s))
          students).
Proof. unfold roster. apply merge_sort_Permutation. Qed.

Lemma quantifier_is_meta c : Js.regex_quantifier c = true -> Js.regex_meta c = true.
Proof.
  destruct c as [[] [] [] [] [] [] [] []]; intros H; try reflexivity; discriminate H.
Qed.

Lemma literal_never_throws_from pat : forall first,
  Js.regex_literal pat = true -> Js.regex_throws_from first pat = false.
Proof.
  induction pat as [|c r IH]; intros first Hlit; [reflexivity|].
  cbn [Js.regex_literal] in Hlit. apply andb_true_iff in Hlit as [Hc Hr].
  apply andb_true_iff in Hc as [_ Hc]. apply negb_true_iff in Hc.
  cbn [Js.regex_throws_from].
  destruct (Js.regex_quantifier c) eqn:Hq.
  - apply quantifier_is_meta in Hq. congruence.
  - rewrite Hc. apply IH. exact Hr.
Qed.

(** The constructor does not throw on a parameter without metacharacters. *)
Lemma literal_never_throws pat :
  Js.regex_literal pat = true -> Js.regex_throws pat = false.
Proof. apply literal_never_throws_from. Qed.

(** What the full register answers for a class named without
    metacharacters. *)
Lemma register_literal stream sem subject students coll :
  Js.regex_literal stream = true -> Js.regex_literal subject = true ->
  register stream sem subject students coll
  = let people := roster stream sem students in
    let sessions := merge_sort by_date_time (class_sessions stream sem subject coll) in
    let registerData := List.map (student_row sessions) people in
    Success (mkRegisterView registerData sessions (length sessions) (length people)
               (length sessions * length people) (average registerData)).
Proof.
  intros Hs Hj. unfold register.
  rewrite (literal_never_throws _ Hs), (literal_never_throws _ Hj). reflexivity.
Qed.

(** An answer of the full register is the view of its roster and its
    class sessions. *)
Lemma register_success stream sem subject students coll view :
  register stream sem subject students coll = Success view ->
  let people := roster stream sem students in
  let sessions := merge_sort by_date_time (class_sessions stream sem subject coll) in
  let registerData := List.map (student_row sessions) people in
  view = mkRegisterView registerData sessions (length sessions) (length people)
           (length sessions * length people) (average registerData).
Proof.
  unfold register.
  destruct (Js.regex_throws stream); [discriminate|].
  destruct (Js.regex_throws subject); [discriminate|].
  intros [= <-]. reflexivity.
Qed.

(** For a class named without metacharacters: when the store holds no
    session of the class on the day asked for, the single-date route
    answers with success, [hasAttendance] false, the whole active roster
    of the class and an empty list of sessions. *)
Lemma dateAttendance_without_sessions zone stream sem subject queryDate students coll :
  Js.regex_literal stream = true -> Js.regex_literal subject = true ->
  (forall id s, coll !! id = Some s ->
     of_class stream sem subject s = true -> on_day zone queryDate s = false) ->
  exists v,
    dateAttendance zone stream sem subject queryDate students coll = Success v
    /\ hasAttendance v = false
    /\ sessions_of v = []
    /\ v = NoAttendance (roster stream sem students)
    /\ roster stream sem students
       ≡ₚ List.map project
            (List.filter (fun s => Js.regex_i stream (stream_of s)
                                   && (semester (fields s) =? sem)%Z && isActive (fields s))
               students).
Proof.
  intros Hlit_stream Hlit_subject Hnone. unfold dateAttendance.
  rewrite (literal_never_throws _ Hlit_stream), (literal_never_throws _ Hlit_subject).
  rewrite (filter_none (fun r => on_day zone queryDate (snd r))).
  - eexists. split; [reflexivity|]. repeat split. apply roster_complete.
  - intros [id s] Hin. unfold class_sessions in Hin.
    apply List.filter_In in Hin as [Hin Hclass]. simpl in *.
    apply list_elem_of_In, elem_of_map_to_list in Hin. eauto.
Qed.

Lemma dateAttendance_without_sessions_witness :
  exists v,
    dateAttendance (fixed_zone 0) "BCA" 2 "DBMS" SampleRegister.jan12
      SampleRegister.students SampleRegister.sessions = Success v
    /\ hasAttendance v = false
    /\ sessions_of v = []
    /\ v = NoAttendance [mkRosterEntry 1 "S1" "S1" None; mkRosterEntry 2 "S2" "S2" None;
                         mkRosterEntry 0 "S3" "S3" None].
Proof.
  assert (Hnone : forall id s, SampleRegister.sessions !! id = Some s ->
            of_class "BCA" 2 "DBMS" s = true ->
            on_day (fixed_zone 0) SampleRegister.jan12 s = false).
  { intros id s Hs _. unfold SampleRegister.sessions in Hs.
    apply lookup_insert_Some in Hs as [[_ <-]|[_ Hs]]; [reflexivity|].
    apply lookup_singleton_Some in Hs as [_ <-]. reflexivity. }
  destruct (dateAttendance_without_sessions (fixed_zone 0) "BCA" 2 "DBMS" SampleRegister.jan12
              SampleRegister.students SampleRegister.sessions eq_refl eq_refl Hnone)
    as (v & Hrun & Hno & Hsessions & Hv & _).
  exists v. repeat split; assumption.
Defined.

(** C6: for the subject C++ the single-date route answers with an error:
    the store holds no session of that subject, on the day asked for or on
    any other, so the claim promises the roster with [hasAttendance]
    false; but the regular expression the route builds from the subject
    does not compile, and the request ends with status 500. *)
Theorem dateAttendance_fails_for_subject_with_quantifiers :
  (forall id s, SampleRegister.sessions !! id = Some s -> s_subject s <> "C++"%string)
  /\ Js.regex_literal "C++" = false
  /\ exists error,
       dateAttendance (fixed_zone 0) "BCA" 2 "C++" SampleRegister.jan12
         SampleRegister.students SampleRegister.sessions = Failure 500 error.
Proof.
  split; [|split].
  - intros id s Hs. unfold SampleRegister.sessions in Hs.
    apply lookup_insert_Some in Hs as [[_ <-]|[_ Hs]]; [discriminate|].
    apply lookup_singleton_Some in Hs as [_ <-]. discriminate.
  - reflexivity.
  - eexists. vm_compute. reflexivity.
Qed.

Lemma present_count sessions student :
  row_presentCount (student_row sessions student)
  = length (List.filter (fun r => existsb (String.eqb (r_studentID student))
                                    (studentsPresent (snd r))) sessions).
Proof.
  unfold student_row, status_of. simpl.
  induction sessions as [|r rest IH]; [reflexivity|]. simpl.
  destruct (existsb (String.eqb (r_studentID student)) (studentsPresent (snd r)));
    simpl; rewrite IH; reflexivity.
Qed.

Lemma filter_length_le {A} (p : A -> bool) l : (length (List.filter p l) <= length l)%nat.
Proof.
  induction l as [|a l IH]; [reflexivity|]. simpl. destruct (p a); simpl; lia.
Qed.

(** The percentage of a row: the Number 0 without sessions, and otherwise
    the two-decimal string nearest to the exact quotient. *)
Lemma percentage_spec (p t : nat) :
  (p <= t)%nat -> (Z.of_nat t <= 4294967296)%Z ->
  (t = 0%nat -> percentage p t = NumberZero)
  /\ ((0 < t)%nat ->
      exists n, percentage p t = Fixed2 n
        /\ (2 * Z.abs (n * Z.of_nat t - 10000 * Z.of_nat p) <= Z.of_nat t)%Z
        /\ (0 <= n <= 10000)%Z).
Proof.
  intros Hp Ht. unfold percentage. split.
  - intros ->. reflexivity.
  - intros Hpos. destruct (0 <? t)%nat eqn:E; [|apply Nat.ltb_ge in E; lia].
    eexists. split; [reflexivity|].
    pose proof (percent_nearest (Z.of_nat p) (Z.of_nat t) ltac:(lia) ltac:(lia)) as Hn.
    unfold toFixed2, hundredths_of in Hn. split; [exact Hn|]. nia.
Qed.

Lemma rows_in_range sessions roster :
  (Z.of_nat (length sessions) <= 4294967296)%Z ->
  Forall in_range (List.map (student_row sessions) roster).
Proof.
  intros Ht. apply List.Forall_forall. intros row Hin.
  apply List.in_map_iff in Hin as (student & <- & _).
  unfold in_range.
  change (attendancePercentage (student_row sessions student))
    with (percentage (row_presentCount (student_row sessions student)) (length sessions)).
  assert (Hle : (row_presentCount (student_row sessions student) <= length sessions)%nat).
  { rewrite present_count. apply filter_length_le. }
  destruct (percentage_spec _ _ Hle Ht) as [Hzero Hpos].
  destruct (length sessions) as [|k] eqn:E.
  - rewrite Hzero by reflexivity. simpl. lia.
  - destruct Hpos as (n & -> & _ & Hn); [lia|]. exact Hn.
Qed.

(** At an exact tie between two hundredths the rounding errors of the
    quotient and the product decide: 23 sessions of 160 are 14.375 percent
    and are shown as 14.37. *)
Lemma percentage_at_a_tie : show (percentage 23 160) = "14.37".
Proof. vm_compute. reflexivity. Qed.

(** C7: in the full register every row counts the sessions that list the
    student present; its percentage is [(presentCount / totalSessions) * 100]
    to two decimals, which is the Number 0 when there is no session and
    otherwise a two-decimal value nearest to the exact
    presentCount / totalSessions x 100; the average is the mean of the
    percentages of the rows to two decimals, which is the Number 0 when
    there is no student and otherwise a two-decimal value nearest to the
    exact mean. In the example scenario the percentages are 100.00, 50.00
    and 50.00 and the average is 66.67. *)
Theorem register_percentages_and_average :
  (forall stream sem subject students coll view,
     register stream sem subject students coll = Success view ->
     (Z.of_nat (rv_totalSessions view) <= 4294967296)%Z ->
     (Z.of_nat (rv_totalStudents view) <= 100000)%Z ->
     (forall row, In row (rv_students view) ->
        row_totalSessions row = rv_totalSessions view
        /\ attendancePercentage row
           = percentage (row_presentCount row) (rv_totalSessions view)
        /\ row_presentCount row
           = length (List.filter (fun r => existsb (String.eqb (row_studentID row))
                                             (studentsPresent (snd r))) (rv_sessions view))
        /\ (rv_totalSessions view = 0%nat -> attendancePercentage row = NumberZero)
        /\ ((0 < rv_totalSessions view)%nat ->
            exists n, attendancePercentage row = Fixed2 n
              /\ (2 * Z.abs (n * Z.of_nat (rv_totalSessions view)
                             - 10000 * Z.of_nat (row_presentCount row))
                  <= Z.of_nat (rv_totalSessions view))%Z))
     /\ averageAttendance view = average (rv_students view)
     /\ (rv_students view = [] -> averageAttendance view = NumberZero)
     /\ (rv_students view <> [] ->
         exists a, averageAttendance view = Fixed2 a
           /\ (2 * Z.abs (a * Z.of_nat (length (rv_students view))
                          - total_hundredths (rv_students view))
               <= Z.of_nat (length (rv_students view)))%Z))
  /\ (exists view,
        register "BCA" 2 "DBMS" SampleRegister.students SampleRegister.sessions = Success view
        /\ List.map (fun r => (row_studentID r, show (attendancePercentage r)))
             (rv_students view)
           = [("S1", "100.00"); ("S2", "50.00"); ("S3", "50.00")]
        /\ show (averageAttendance view) = "66.67").
Proof.
  split.
  - intros stream sem subject students coll view Hrun Ht Hm.
    apply register_success in Hrun. subst view. simpl in *.
    set (sessions := merge_sort by_date_time (class_sessions stream sem subject coll)) in *.
    set (people := roster stream sem students) in *.
    split; [|split; [reflexivity|split]].
    + intros row Hin. apply List.in_map_iff in Hin as (student & <- & _).
      split; [reflexivity|]. split; [reflexivity|]. split; [apply present_count|].
      assert (Hle : (row_presentCount (student_row sessions student) <= length sessions)%nat).
      { rewrite present_count. apply filter_length_le. }
      destruct (percentage_spec _ _ Hle Ht) as [Hzero Hpos].
      split; [exact Hzero|].
      intros Hlt. destruct (Hpos Hlt) as (n & Hn & Hnear & _). exists n. split; assumption.
    + intros Hnil. unfold average. rewrite Hnil. reflexivity.
    + intros Hne. apply average_nearest.
      * rewrite List.length_map.
        destruct people as [|x l]; [exfalso; apply Hne; reflexivity|].
        simpl length in *. lia.
      * apply rows_in_range. exact Ht.
  - eexists. split; [reflexivity|]. split; vm_compute; reflexivity.
Qed.

Lemma register_percentages_and_average_witness :
  exists n,
    attendancePercentage
      (student_row (merge_sort by_date_time
                      (class_sessions "BCA" 2 "DBMS" SampleRegister.sessions))
         (mkRosterEntry 2 "S2" "S2" None)) = Fixed2 n
    /\ (2 * Z.abs (n * 2 - 10000 * 1) <= 2)%Z.
Proof.
  destruct register_percentages_and_average as [Hgeneral _].
  assert (H32 : (Z.of_nat 2 <= 4294967296)%Z) by (vm_compute; discriminate).
  assert (Hsize : (Z.of_nat 3 <= 100000)%Z) by (vm_compute; discriminate).
  destruct (Hgeneral "BCA" 2%Z "DBMS" SampleRegister.students SampleRegister.sessions
              _ eq_refl H32 Hsize) as (Hrows & _ & _ & _).
  destruct (Hrows (student_row (merge_sort by_date_time
                                  (class_sessions "BCA" 2 "DBMS" SampleRegister.sessions))
                     (mkRosterEntry 2 "S2" "S2" None)))
    as (_ & _ & _ & _ & Hpct).
  - right. left. reflexivity.
  - destruct Hpct as (n & Hn & Hnear).
    + vm_compute. lia.
    + exists n. split; [exact Hn|exact Hnear].
Defined.

End RegisterViews.

(** ** Further properties of the session routes *)

Section SessionRoutes.

Import Attendance.

(** Two stored sessions that are the same class meeting: everything but
    the present list and the counts agrees. *)
Lemma set_counts_same_meeting present total old :
  s_stream (set_counts present total old) = s_stream old
  /\ s_semester (set_counts present total old) = s_semester old
  /\ s_subject (set_counts present total old) = s_subject old
  /\ s_date (set_counts present total old) = s_date old
  /\ s_time (set_counts present total old) = s_time old.
Proof. repeat split. Qed.

Lemma bulkWrite_unnamed ups : forall coll coll' n id,
  bulkWrite ups coll = (coll', n) ->
  ~ In id (List.map sessionId ups) ->
  coll' !! id = coll !! id.
Proof.
  induction ups as [|u rest IH]; intros coll coll' n id Hw Hnot; simpl in Hw.
  - inversion Hw; subst. reflexivity.
  - destruct (bulk_op coll u) as [coll1 changed] eqn:Hop.
    destruct (bulkWrite rest coll1) as [coll2 k] eqn:Hrest.
    inversion Hw; subst. simpl in Hnot.
    rewrite (IH _ _ _ id Hrest) by tauto.
    unfold bulk_op in Hop.
    destruct (coll !! sessionId u) as [old|]; inversion Hop; subst; [|reflexivity].
    apply lookup_insert_ne. tauto.
Qed.

Lemma bulkWrite_no_new ups : forall coll coll' n id,
  bulkWrite ups coll = (coll', n) ->
  is_Some (coll' !! id) -> is_Some (coll !! id).
Proof.
  induction ups as [|u rest IH]; intros coll coll' n id Hw Hin; simpl in Hw.
  - inversion Hw; subst. exact Hin.
  - destruct (bulk_op coll u) as [coll1 changed] eqn:Hop.
    destruct (bulkWrite rest coll1) as [coll2 k] eqn:Hrest.
    inversion Hw; subst.
    specialize (IH _ _ _ id Hrest Hin).
    unfold bulk_op in Hop.
    destruct (coll !! sessionId u) as [old|] eqn:Hold; inversion Hop; subst; [|exact IH].
    destruct (decide (sessionId u = id)) as [<-|Hne]; [eauto|].
    rewrite lookup_insert_ne in IH by done. exact IH.
Qed.

Lemma bulkWrite_same_meeting ups : forall coll coll' n id s s',
  bulkWrite ups coll = (coll', n) ->
  coll !! id = Some s -> coll' !! id = Some s' ->
  s_stream s' = s_stream s /\ s_semester s' = s_semester s
  /\ s_subject s' = s_subject s /\ s_date s' = s_date s /\ s_time s' = s_time s.
Proof.
  induction ups as [|u rest IH]; intros coll coll' n id s s' Hw Hs Hs'; simpl in Hw.
  - inversion Hw; subst. rewrite Hs in Hs'. inversion Hs'. repeat split.
  - destruct (bulk_op coll u) as [coll1 changed] eqn:Hop.
    destruct (bulkWrite rest coll1) as [coll2 k] eqn:Hrest.
    inversion Hw; subst.
    unfold bulk_op in Hop.
    destruct (coll !! sessionId u) as [old|] eqn:Hold; inversion Hop; subst;
      [|eapply IH; eauto].
    destruct (decide (sessionId u = id)) as [Heq|Hne].
    + subst id. rewrite Hs in Hold. inversion Hold; subst old.
      eapply (IH _ _ _ (sessionId u) (set_counts _ _ s) s' Hrest); [|exact Hs'].
      apply lookup_insert_eq.
    + eapply (IH _ _ _ id s s' Hrest); [|exact Hs'].
      rewrite lookup_insert_ne by done. exact Hs.
Qed.

Lemma bulkWrite_count ups : forall coll coll' n,
  bulkWrite ups coll = (coll', n) -> (n <= length ups)%nat.
Proof.
  induction ups as [|u rest IH]; intros coll coll' n Hw; simpl in Hw.
  - inversion Hw; subst. reflexivity.
  - destruct (bulk_op coll u) as [coll1 changed] eqn:Hop.
    destruct (bulkWrite rest coll1) as [coll2 k] eqn:Hrest.
    inversion Hw; subst. specialize (IH _ _ _ Hrest).
    destruct changed; simpl; lia.
Qed.

(** X1: a bulk update neither creates nor removes a session; a session
    that no element of [updates] names is left exactly as it was; a session
    that is named keeps its stream, semester, subject, date and time; and
    the reported [modifiedCount] is at most the number of updates. *)
Theorem bulkUpdate_edits_only_named_sessions stream ups st n st' :
  bulkUpdate stream (Some ups) st = (Success n, st') ->
  (n <= length ups)%nat
  /\ (forall id, is_Some (attendance st' !! id) <-> is_Some (attendance st !! id))
  /\ (forall id, ~ In id (List.map sessionId ups) ->
        attendance st' !! id = attendance st !! id)
  /\ (forall id s s', attendance st !! id = Some s -> attendance st' !! id = Some s' ->
        s_stream s' = s_stream s /\ s_semester s' = s_semester s
        /\ s_subject s' = s_subject s /\ s_date s' = s_date s /\ s_time s' = s_time s).
Proof.
  intros H. unfold bulkUpdate in H.
  destruct (bulkWrite ups (attendance st)) as [coll modified] eqn:Hw.
  inversion H; subst; clear H. simpl.
  split; [eapply bulkWrite_count; eauto|].
  split; [intros id; split; [eapply bulkWrite_no_new|eapply bulkWrite_domain]; eauto|].
  split; [intros id Hid; eapply bulkWrite_unnamed; eauto|].
  intros id s s'. eapply bulkWrite_same_meeting; eauto.
Qed.

Lemma bulkUpdate_edits_only_named_sessions_witness :
  attendance (snd (bulkUpdate "BCA" (Some [mkBulkItem 5 ["S1"] 3]) Sample.one_session)) !! 0%nat
  = Some Sample.dbms_session.
Proof.
  destruct (bulkUpdate_edits_only_named_sessions "BCA" [mkBulkItem 5 ["S1"] 3]
              Sample.one_session 0%nat
              (snd (bulkUpdate "BCA" (Some [mkBulkItem 5 ["S1"] 3]) Sample.one_session)))
    as (_ & _ & Hother & _).
  - vm_compute. reflexivity.
  - rewrite (Hother 0%nat).
    + reflexivity.
    + simpl. intros [H|[]]. discriminate.
Defined.

(** A single-session edit replaces the present list and the counts of
    that one session: the session keeps its stream, semester, subject, date
    and time, takes the present list and the total of the request, and every
    other session is as it was. *)
Lemma updateSession_inv id body st sess st' :
  updateSession id body st = (Success sess, st') ->
  exists old present total,
    attendance st !! id = Some old
    /\ u_studentsPresent body = Some present /\ u_totalStudents body = Some total
    /\ 1 <= total
    /\ sess = set_counts present total old
    /\ attendance st' = <[id := sess]> (attendance st)
    /\ (forall j, j <> id -> attendance st' !! j = attendance st !! j).
Proof.
  intros H. unfold updateSession in H.
  destruct (u_studentsPresent body) as [present|]; [|discriminate].
  destruct (u_totalStudents body) as [total|]; [|discriminate].
  destruct (Js.falsy_num total || (total <? 1)) eqn:E; [discriminate|].
  destruct (attendance st !! id) as [old|] eqn:Hold; [|discriminate].
  inversion H; subst; clear H. simpl.
  apply orb_false_iff in E as [_ E]. apply Z.ltb_ge in E.
  exists old, present, total. repeat split; try assumption.
  intros j Hj. apply lookup_insert_ne. congruence.
Qed.

Lemma submit_inv stream sem subject body st id st' :
  submit stream sem subject body st = (Success id, st') ->
  exists date time present total,
    b_date body = Some date /\ Js.truthy_str (b_time body) = Some time
    /\ b_studentsPresent body = Some present /\ b_totalStudents body = Some total
    /\ id = fresh (dom (attendance st))
    /\ attendance st'
       = <[id := pre_save (mkSession stream sem subject date time present total
                             (Js.or_num (b_presentCount body) (Z.of_nat (length present)))
                             (Js.or_num (b_absentCount body)
                                (Js.sub total (Z.of_nat (length present)))))]> (attendance st)
    /\ schema_valid (mkSession stream sem subject date time present total
                       (Js.or_num (b_presentCount body) (Z.of_nat (length present)))
                       (Js.or_num (b_absentCount body)
                          (Js.sub total (Z.of_nat (length present)))))
       = true.
Proof.
  intros H. unfold submit in H.
  destruct (b_date body) as [date|]; [|discriminate].
  destruct (Js.truthy_str (b_time body)) as [time|]; [|discriminate].
  destruct (b_studentsPresent body) as [present|]; [|discriminate].
  destruct (b_totalStudents body) as [total|]; [|discriminate].
  unfold save in H. destruct (schema_valid _) eqn:Hv; [|discriminate].
  inversion H; subst; clear H. simpl.
  exists date, time, present, total. repeat split; assumption.
Qed.

Lemma fresh_absent (coll : gmap nat Session) : coll !! fresh (dom coll) = None.
Proof. apply not_elem_of_dom. apply is_fresh. Qed.

(** X2: a submission always creates a session of its own, under an id no
    stored session has, and leaves every stored session as it was; nothing
    keeps the same class meeting from being submitted twice: the second
    submission of a body that was accepted is accepted too and is stored
    beside the first. *)
Theorem submit_twice_stores_two_sessions stream sem subject body st id st' :
  submit stream sem subject body st = (Success id, st') ->
  attendance st !! id = None
  /\ (forall j s, attendance st !! j = Some s -> attendance st' !! j = Some s)
  /\ exists id2 st2 doc,
       submit stream sem subject body st' = (Success id2, st2)
       /\ id2 <> id
       /\ attendance st2 !! id = Some doc /\ attendance st2 !! id2 = Some doc.
Proof.
  intros H.
  destruct (submit_inv _ _ _ _ _ _ _ H)
    as (date & time & present & total & Hd & Ht & Hp & Htot & Hid & Hcoll & Hvalid).
  assert (Hfresh : attendance st !! id = None) by (subst id; apply fresh_absent).
  split; [exact Hfresh|]. split.
  - intros j s Hj. rewrite Hcoll. rewrite lookup_insert_ne; [exact Hj|]. congruence.
  - unfold submit. rewrite Hd, Ht, Hp, Htot. unfold save. rewrite Hvalid.
    eexists; eexists; eexists. split; [reflexivity|]. simpl.
    assert (Hne : fresh (dom (attendance st')) <> id).
    { intros Heq. pose proof (fresh_absent (attendance st')) as Habs.
      rewrite Heq, Hcoll, lookup_insert_eq in Habs. discriminate. }
    split; [exact Hne|]. split.
    + rewrite lookup_insert_ne by exact Hne. rewrite Hcoll. apply lookup_insert_eq.
    + apply lookup_insert_eq.
Qed.

Lemma submit_twice_stores_two_sessions_witness :
  exists id2 st2 doc,
    submit "BCA" 2 "DBMS" Sample.plain_submit
      (snd (submit "BCA" 2 "DBMS" Sample.plain_submit Sample.one_session))
    = (Success id2, st2)
    /\ id2 <> 1%nat
    /\ attendance st2 !! 1%nat = Some doc /\ attendance st2 !! id2 = Some doc.
Proof.
  destruct (submit_twice_stores_two_sessions "BCA" 2 "DBMS" Sample.plain_submit
              Sample.one_session 1%nat
              (snd (submit "BCA" 2 "DBMS" Sample.plain_submit Sample.one_session)))
    as (_ & _ & Htwice).
  - vm_compute. reflexivity.
  - exact Htwice.
Defined.

(** X3: a write that is answered with a failure has changed nothing:
    neither the collection nor a cache nor the query count, for the submit,
    the session edit, the bulk edit, the record update and the delete. *)
Theorem failed_write_changes_nothing :
  (forall stream sem subject body st status error st',
      submit stream sem subject body st = (Failure status error, st') -> st' = st)
  /\ (forall id body st status error st',
      updateSession id body st = (Failure status error, st') -> st' = st)
  /\ (forall stream updates st status error st',
      bulkUpdate stream updates st = (Failure status error, st') -> st' = st)
  /\ (forall id body st status error st',
      updateRecord id body st = (Failure status error, st') -> st' = st)
  /\ (forall id st status error st',
      deleteAttendance id st = (Failure status error, st') -> st' = st).
Proof.
  repeat split.
  - intros stream sem subject body st status error st' H. unfold submit in H.
    destruct (b_date body); [|congruence].
    destruct (Js.truthy_str (b_time body)); [|congruence].
    destruct (b_studentsPresent body); [|congruence].
    destruct (b_totalStudents body); [|congruence].
    destruct (save _ _) as [[i c]|]; congruence.
  - intros id body st status error st' H. unfold updateSession in H.
    destruct (u_studentsPresent body); [|congruence].
    destruct (u_totalStudents body); [|congruence].
    destruct (Js.falsy_num _ || _); [congruence|].
    destruct (attendance st !! id); congruence.
  - intros stream updates st status error st' H. unfold bulkUpdate in H.
    destruct updates as [ups|]; [|congruence].
    destruct (bulkWrite ups (attendance st)). congruence.
  - intros id body st status error st' H. unfold updateRecord in H.
    destruct (update_valid body); [|congruence].
    destruct (attendance st !! id); congruence.
  - intros id st status error st' H. unfold deleteAttendance in H.
    destruct (attendance st !! id); congruence.
Qed.

Lemma failed_write_changes_nothing_witness :
  snd (updateSession 7 Sample.mark_s2_absent Sample.one_session) = Sample.one_session
  /\ snd (deleteAttendance 7 Sample.one_session) = Sample.one_session.
Proof.
  destruct failed_write_changes_nothing as (_ & Hupdate & _ & _ & Hdelete).
  split.
  - apply (Hupdate 7%nat Sample.mark_s2_absent Sample.one_session 404%nat "Session not found").
    vm_compute. reflexivity.
  - apply (Hdelete 7%nat Sample.one_session 404%nat "Record not found").
    vm_compute. reflexivity.
Defined.

End SessionRoutes.

Section ShortSubmit.

Import Attendance SimpleSubmit.

(** X19: for a body that names its subject, the short submit route does
    what the detailed route does for the same class, with the stream
    General and the semester 1 where the body leaves them out: both accept
    or both refuse with the same status, and on acceptance both store the
    same session under the same id; a body without a subject is refused
    with status 400 and nothing is stored. *)
Theorem submit_simple_agrees_with_submit body st :
  (forall subject, Js.truthy_str (sb_subject body) = Some subject ->
     match submit_simple body st,
           submit (default "General"%string (Js.truthy_str (sb_stream body)))
             (Js.or_num (sb_semester body) 1) subject (sb_fields body) st with
     | (Success id1, st1), (Success id2, st2) =>
         id1 = id2 /\ attendance st1 = attendance st2 /\ viewCache st1 = viewCache st2
     | (Failure code1 _, st1), (Failure code2 _, st2) =>
         code1 = code2 /\ st1 = st /\ st2 = st
     | _, _ => False
     end)
  /\ (Js.truthy_str (sb_subject body) = None ->
      exists msg, submit_simple body st = (Failure 400 msg, st)).
Proof.
  split.
  - intros subject Hsubject. unfold submit_simple, submit. rewrite Hsubject.
    destruct (b_date (sb_fields body)) as [date|]; [|repeat split; reflexivity].
    destruct (Js.truthy_str (b_time (sb_fields body))) as [time|];
      [|repeat split; reflexivity].
    destruct (b_studentsPresent (sb_fields body)) as [present|];
      [|repeat split; reflexivity].
    destruct (b_totalStudents (sb_fields body)) as [total|]; [|repeat split; reflexivity].
    destruct (save _ (attendance st)) as [[id coll]|]; repeat split; reflexivity.
  - intros Hnone. unfold submit_simple. rewrite Hnone.
    destruct (b_date (sb_fields body)); [|eexists; reflexivity].
    destruct (Js.truthy_str (b_time (sb_fields body))); eexists; reflexivity.
Qed.

End ShortSubmit.

(** ** Further properties of the register views *)

Section RegisterShape.

Import Attendance JsNumber Register.

Lemma class_sessions_spec stream sem subject (coll : gmap nat Session) id s :
  In (id, s) (class_sessions stream sem subject coll)
  <-> coll !! id = Some s /\ of_class stream sem subject s = true.
Proof.
  unfold class_sessions. rewrite List.filter_In. simpl.
  rewrite <- list_elem_of_In, elem_of_map_to_list. reflexivity.
Qed.

Lemma sorted_class_sessions_spec stream sem subject (coll : gmap nat Session) id s :
  In (id, s) (merge_sort by_date_time (class_sessions stream sem subject coll))
  <-> coll !! id = Some s /\ of_class stream sem subject s = true.
Proof.
  rewrite <- class_sessions_spec, <- !list_elem_of_In.
  rewrite (merge_sort_Permutation by_date_time). reflexivity.
Qed.

Lemma NoDup_fst_filter {A B} (p : A * B -> bool) (l : list (A * B)) :
  NoDup (List.map fst l) -> NoDup (List.map fst (List.filter p l)).
Proof.
  induction l as [|x l IH]; intros Hnd; [constructor|].
  simpl in *. apply NoDup_cons in Hnd as [Hx Hnd].
  destruct (p x); [|apply IH; exact Hnd]. simpl. apply NoDup_cons. split; [|apply IH; exact Hnd].
  intros Hin. apply Hx. apply list_elem_of_In in Hin. apply list_elem_of_In.
  apply List.in_map_iff in Hin as (y & Hy & Hin). apply List.filter_In in Hin as [Hin _].
  apply List.in_map_iff. exists y. split; assumption.
Qed.

Lemma class_session_ids_NoDup stream sem subject (coll : gmap nat Session) :
  NoDup (List.map fst (merge_sort by_date_time (class_sessions stream sem subject coll))).
Proof.
  assert (Hperm : List.map fst (merge_sort by_date_time
                                  (class_sessions stream sem subject coll))
                  ≡ₚ List.map fst (class_sessions stream sem subject coll)).
  { apply fmap_Permutation, merge_sort_Permutation. }
  rewrite Hperm. apply NoDup_fst_filter. apply NoDup_fst_map_to_list.
Qed.

Lemma status_present studentID s :
  status_of studentID s = P <-> In studentID (studentsPresent s).
Proof.
  unfold status_of.
  destruct (existsb (String.eqb studentID) (studentsPresent s)) eqn:E.
  - split; [|reflexivity]. intros _.
    apply List.existsb_exists in E as (x & Hx & Heq). apply String.eqb_eq in Heq.
    subst x. exact Hx.
  - split; [discriminate|]. intros Hin.
    assert (existsb (String.eqb studentID) (studentsPresent s) = true).
    { apply List.existsb_exists. exists studentID. split; [exact Hin|apply String.eqb_refl]. }
    congruence.
Qed.

Lemma present_absent_split {A} (p : A -> bool) (l : list A) :
  (length (List.filter p l) + length (List.filter (fun a => negb (p a)) l) = length l)%nat.
Proof.
  induction l as [|a l IH]; [reflexivity|]. simpl. destruct (p a); simpl; lia.
Qed.

(** X4: for a class named without regular-expression metacharacters, the
    full register is a grid of the roster by the class sessions: one row
    per student of the roster, in every row one cell per session of the
    class, and in every row the present and the absent counts add up to
    the number of sessions. *)
Theorem register_is_a_grid stream sem subject students coll :
  Js.regex_literal stream = true -> Js.regex_literal subject = true ->
  exists view,
    register stream sem subject students coll = Success view
    /\ length (rv_students view) = length (roster stream sem students)
    /\ rv_totalStudents view = length (rv_students view)
    /\ rv_totalSessions view = length (class_sessions stream sem subject coll)
    /\ totalPossibleAttendances view = (rv_totalSessions view * rv_totalStudents view)%nat
    /\ forall row, In row (rv_students view) ->
         length (row_attendance row) = rv_totalSessions view
         /\ row_totalSessions row = rv_totalSessions view
         /\ (row_presentCount row + row_absentCount row = rv_totalSessions view)%nat.
Proof.
  intros Hlit_stream Hlit_subject.
  rewrite (register_literal _ _ _ _ _ Hlit_stream Hlit_subject).
  eexists. split; [reflexivity|]. simpl.
  split; [apply List.length_map|]. split; [symmetry; apply List.length_map|].
  split; [apply Permutation_length, merge_sort_Permutation|]. split; [reflexivity|].
  intros row Hin. apply List.in_map_iff in Hin as (student & <- & _).
  unfold student_row. simpl. rewrite present_absent_split, List.length_map.
  repeat split.
Qed.

Lemma register_is_a_grid_witness :
  exists view,
    register "BCA" 2 "DBMS" SampleRegister.students SampleRegister.sessions = Success view
    /\ length (rv_students view) = 3%nat
    /\ rv_totalSessions view = 2%nat.
Proof.
  destruct (register_is_a_grid "BCA" 2 "DBMS" SampleRegister.students SampleRegister.sessions
              eq_refl eq_refl) as (view & Hrun & Hrows & _ & Hsessions & _).
  exists view. split; [exact Hrun|]. rewrite Hrows, Hsessions.
  split; vm_compute; reflexivity.
Defined.

(** X5: for a class named without regular-expression metacharacters, the
    columns of the full register are exactly the stored sessions of the
    class (stream and subject equal up to letter case, same semester), each
    once; and the cell of a student in the column of a session shows P
    exactly when the session lists the studentID as present, with the
    date, time and id of that session. *)
Theorem register_cells_follow_sessions stream sem subject students coll :
  Js.regex_literal stream = true -> Js.regex_literal subject = true ->
  exists view,
    register stream sem subject students coll = Success view
    /\ NoDup (List.map fst (rv_sessions view))
    /\ (forall id s, In (id, s) (rv_sessions view)
                     <-> coll !! id = Some s /\ of_class stream sem subject s = true)
    /\ forall row, In row (rv_students view) ->
         List.map c_sessionId (row_attendance row) = List.map fst (rv_sessions view)
         /\ forall cell, In cell (row_attendance row) ->
              exists s, In (c_sessionId cell, s) (rv_sessions view)
                /\ c_date cell = s_date s /\ c_time cell = s_time s
                /\ (c_status cell = P <-> In (row_studentID row) (studentsPresent s)).
Proof.
  intros Hlit_stream Hlit_subject.
  rewrite (register_literal _ _ _ _ _ Hlit_stream Hlit_subject).
  eexists. split; [reflexivity|]. simpl.
  split; [apply class_session_ids_NoDup|].
  split; [intros id s; apply sorted_class_sessions_spec|].
  intros row Hin. apply List.in_map_iff in Hin as (student & <- & _).
  unfold student_row. simpl. split.
  - rewrite List.map_map. reflexivity.
  - intros cell Hcell. apply List.in_map_iff in Hcell as ([id s] & <- & Hin). simpl.
    exists s. split; [exact Hin|]. repeat split; apply status_present.
Qed.

Lemma register_cells_follow_sessions_witness :
  exists view,
    register "BCA" 2 "DBMS" SampleRegister.students SampleRegister.sessions = Success view
    /\ List.map fst (rv_sessions view) = [0%nat; 1%nat].
Proof.
  destruct (register_cells_follow_sessions "BCA" 2 "DBMS" SampleRegister.students
              SampleRegister.sessions eq_refl eq_refl) as (view & Hrun & _).
  exists view. split; [exact Hrun|].
  vm_compute in Hrun. inversion Hrun; subst. reflexivity.
Defined.

#[local] Instance by_studentID_total : Total by_studentID.
Proof. intros a b. unfold by_studentID. apply String.leb_total. Qed.

#[local] Instance by_date_time_total : Total by_date_time.
Proof.
  intros a b. unfold by_date_time.
  destruct (Z.lt_trichotomy (s_date (snd a)) (s_date (snd b))) as [H|[H|H]]; [tauto| |tauto].
  destruct (String.leb_total (s_time (snd a)) (s_time (snd b))); [left|right]; right;
    split; auto.
Qed.

#[local] Instance by_time_total : Total by_time.
Proof. intros a b. unfold by_time. apply String.leb_total. Qed.

(** X6: for a class named without regular-expression metacharacters, the
    rows of the full register come in ascending order of studentID and the
    columns in ascending order of date and, on one date, of time label. *)
Theorem register_is_ordered stream sem subject students coll :
  Js.regex_literal stream = true -> Js.regex_literal subject = true ->
  exists view,
    register stream sem subject students coll = Success view
    /\ Sorted (fun a b => String.leb (row_studentID a) (row_studentID b) = true)
         (rv_students view)
    /\ Sorted by_date_time (rv_sessions view).
Proof.
  intros Hlit_stream Hlit_subject.
  rewrite (register_literal _ _ _ _ _ Hlit_stream Hlit_subject).
  eexists. split; [reflexivity|]. simpl. split.
  - apply (Sorted_fmap _ by_studentID); [intros x y Hxy; exact Hxy|].
    apply Sorted_merge_sort. apply _.
  - apply Sorted_merge_sort. apply _.
Qed.

Lemma register_is_ordered_witness :
  exists view,
    register "BCA" 2 "DBMS" SampleRegister.students SampleRegister.sessions = Success view
    /\ List.map row_studentID (rv_students view) = ["S1"; "S2"; "S3"].
Proof.
  destruct (register_is_ordered "BCA" 2 "DBMS" SampleRegister.students
              SampleRegister.sessions eq_refl eq_refl) as (view & Hrun & _).
  exists view. split; [exact Hrun|].
  vm_compute in Hrun. inversion Hrun; subst. reflexivity.
Defined.

Lemma row_cells_spec stream sem subject (coll : gmap nat Session) student cell :
  In cell (row_attendance
             (student_row (merge_sort by_date_time (class_sessions stream sem subject coll))
                student))
  <-> exists id s, coll !! id = Some s /\ of_class stream sem subject s = true
        /\ cell = mkCell (s_date s) (s_time s) (status_of (r_studentID student) s) id.
Proof.
  unfold student_row. simpl. rewrite List.in_map_iff. split.
  - intros ([id s] & <- & Hin). apply sorted_class_sessions_spec in Hin as [Hs Hc].
    exists id, s. auto.
  - intros (id & s & Hs & Hc & ->). exists (id, s). split; [reflexivity|].
    apply sorted_class_sessions_spec. auto.
Qed.

(** X7: for a class named without regular-expression metacharacters, an
    edit of one session shows in the rebuilt register and nowhere else: the
    rows are those of before; in every row the cells of the other sessions
    are as they were, and the cell of the edited session, when the session
    is one of the class, is P exactly for the students the request lists as
    present. *)
Theorem edit_shows_in_register id body st sess st' stream sem subject students :
  Js.regex_literal stream = true -> Js.regex_literal subject = true ->
  updateSession id body st = (Success sess, st') ->
  exists view view',
    register stream sem subject students (attendance st) = Success view
    /\ register stream sem subject students (attendance st') = Success view'
    /\ u_studentsPresent body = Some (studentsPresent sess)
    /\ List.map row_studentID (rv_students view') = List.map row_studentID (rv_students view)
    /\ forall i row row',
         rv_students view !! i = Some row -> rv_students view' !! i = Some row' ->
         forall cell,
           In cell (row_attendance row')
           <-> (c_sessionId cell <> id /\ In cell (row_attendance row))
               \/ (of_class stream sem subject sess = true
                   /\ cell = mkCell (s_date sess) (s_time sess)
                               (status_of (row_studentID row) sess) id).
Proof.
  intros Hlit_stream Hlit_subject H.
  destruct (updateSession_inv _ _ _ _ _ H)
    as (old & present & total & Hold & Hp & Ht & _ & Hsess & Hcoll & _).
  rewrite !(register_literal _ _ _ _ _ Hlit_stream Hlit_subject).
  eexists; eexists. split; [reflexivity|]. split; [reflexivity|]. simpl.
  split; [rewrite Hp, Hsess; reflexivity|].
  split; [rewrite !List.map_map; reflexivity|].
  intros i row row' Hrow Hrow' cell.
  rewrite list_lookup_fmap in Hrow, Hrow'.
  destruct (roster stream sem students !! i) as [student|]; [|discriminate].
  simpl in Hrow, Hrow'. inversion Hrow; inversion Hrow'; subst row row'; clear Hrow Hrow'.
  rewrite !row_cells_spec. rewrite Hcoll.
  change (row_studentID (student_row _ student)) with (r_studentID student).
  split.
  - intros (j & s & Hs & Hc & ->). simpl.
    destruct (decide (j = id)) as [->|Hne].
    + rewrite lookup_insert_eq in Hs. inversion Hs; subst s. right. auto.
    + rewrite lookup_insert_ne in Hs by congruence. left. split; [exact Hne|]. eauto.
  - intros [[Hne (j & s & Hs & Hc & ->)]|[Hc ->]].
    + simpl in Hne. exists j, s. rewrite lookup_insert_ne by congruence. auto.
    + exists id, sess. rewrite lookup_insert_eq. auto.
Qed.

Lemma edit_shows_in_register_witness :
  exists view view',
    register "BCA" 2 "DBMS" SampleRegister.students SampleRegister.sessions = Success view
    /\ register "BCA" 2 "DBMS" SampleRegister.students
         (attendance (snd (updateSession 0 Sample.mark_s2_absent
                             (mkState SampleRegister.sessions ∅ ∅ 0)))) = Success view'
    /\ List.map row_studentID (rv_students view') = List.map row_studentID (rv_students view).
Proof.
  destruct (edit_shows_in_register 0%nat Sample.mark_s2_absent
              (mkState SampleRegister.sessions ∅ ∅ 0)
              (set_counts ["S1"] 3
                 (mkSession "BCA" 2 "DBMS" SampleRegister.jan10 "10:00 AM - 11:00 AM"
                    ["S1"; "S2"] 3 2 1))
              (snd (updateSession 0 Sample.mark_s2_absent
                      (mkState SampleRegister.sessions ∅ ∅ 0)))
              "BCA" 2 "DBMS" SampleRegister.students eq_refl eq_refl)
    as (view & view' & Hv & Hv' & _ & Hrows & _).
  - vm_compute. reflexivity.
  - exists view, view'. repeat split; assumption.
Defined.

(** X8: for a class named without regular-expression metacharacters, and
    whatever the time zone of the server: when the store holds a session of
    the class on the day asked for, the single-date route answers with
    [hasAttendance] true; its sessions are exactly the stored sessions of
    the class that fall on that day, in ascending order of time label; and
    there is one row per student of the roster, with one entry per session
    that shows P exactly when the session lists the student as present. *)
Theorem dateAttendance_with_sessions zone stream sem subject queryDate students coll :
  Js.regex_literal stream = true -> Js.regex_literal subject = true ->
  (exists id s, coll !! id = Some s /\ of_class stream sem subject s = true
                /\ on_day zone queryDate s = true) ->
  exists rows sessions,
    dateAttendance zone stream sem subject queryDate students coll
    = Success (DayAttendance rows sessions)
    /\ hasAttendance (DayAttendance rows sessions) = true
    /\ (forall id s, In (id, s) sessions
                     <-> coll !! id = Some s /\ of_class stream sem subject s = true
                         /\ on_day zone queryDate s = true)
    /\ Sorted by_time sessions
    /\ List.map day_studentID rows = List.map r_studentID (roster stream sem students)
    /\ forall row, In row rows ->
         day_sessions row
         = List.map (fun r => (s_time (snd r), status_of (day_studentID row) (snd r), fst r))
             sessions.
Proof.
  intros Hlit_stream Hlit_subject (id & s & Hs & Hclass & Hday). unfold dateAttendance.
  rewrite (literal_never_throws _ Hlit_stream), (literal_never_throws _ Hlit_subject).
  assert (Hspec : forall i x,
            In (i, x) (merge_sort by_time
                         (List.filter (fun r => on_day zone queryDate (snd r))
                            (class_sessions stream sem subject coll)))
            <-> coll !! i = Some x /\ of_class stream sem subject x = true
                /\ on_day zone queryDate x = true).
  { intros i x. rewrite <- list_elem_of_In, (merge_sort_Permutation by_time), list_elem_of_In.
    rewrite List.filter_In, class_sessions_spec. simpl. tauto. }
  destruct (merge_sort by_time
              (List.filter (fun r => on_day zone queryDate (snd r))
                 (class_sessions stream sem subject coll))) as [|r rest] eqn:E.
  { exfalso. apply (proj2 (Hspec id s)). auto. }
  simpl Nat.eqb. cbv iota.
  eexists; eexists. split; [reflexivity|]. split; [reflexivity|].
  split; [exact Hspec|]. split.
  - rewrite <- E. apply Sorted_merge_sort. apply _.
  - split; [rewrite List.map_map; reflexivity|].
    intros row Hin. apply List.in_map_iff in Hin as (student & <- & _). reflexivity.
Qed.

Lemma dateAttendance_with_sessions_witness :
  exists rows sessions,
    dateAttendance (fixed_zone 0) "BCA" 2 "DBMS" SampleRegister.jan11
      SampleRegister.students SampleRegister.sessions
    = Success (DayAttendance rows sessions)
    /\ List.map fst sessions = [1%nat]
    /\ List.map day_studentID rows = ["S1"; "S2"; "S3"].
Proof.
  assert (Hex : exists id s, SampleRegister.sessions !! id = Some s
                  /\ of_class "BCA" 2 "DBMS" s = true
                  /\ on_day (fixed_zone 0) SampleRegister.jan11 s = true).
  { exists 1%nat. eexists. split; [reflexivity|]. split; reflexivity. }
  destruct (dateAttendance_with_sessions (fixed_zone 0) "BCA" 2 "DBMS" SampleRegister.jan11
              SampleRegister.students SampleRegister.sessions eq_refl eq_refl Hex)
    as (rows & sessions & Hrun & _ & _ & _ & Hrows & _).
  exists rows, sessions. split; [exact Hrun|].
  vm_compute in Hrun. inversion Hrun; subst. split; reflexivity.
Defined.

Lemma total_hundredths_bounds rows :
  Forall in_range rows ->
  (0 <= total_hundredths rows <= 10000 * Z.of_nat (length rows))%Z.
Proof.
  induction 1 as [|r rows Hr _ IH]; [unfold total_hundredths; simpl; lia|].
  unfold total_hundredths in *. simpl List.map. simpl fold_right. simpl length.
  unfold in_range in Hr. lia.
Qed.

(** X9: in a register of at most 2^32 sessions and at most 100000 students
    every percentage lies between 0.00 and 100.00, and so does the
    average. *)
Theorem register_percentages_bounded stream sem subject students coll view :
  register stream sem subject students coll = Success view ->
  (Z.of_nat (rv_totalSessions view) <= 4294967296)%Z ->
  (Z.of_nat (rv_totalStudents view) <= 100000)%Z ->
  (forall row, In row (rv_students view) ->
     (0 <= hundredths_of (attendancePercentage row) <= 10000)%Z)
  /\ (0 <= hundredths_of (averageAttendance view) <= 10000)%Z.
Proof.
  intros Hrun Ht Hm. apply register_success in Hrun. subst view.
  simpl in *.
  set (sessions := merge_sort by_date_time (class_sessions stream sem subject coll)) in *.
  set (people := roster stream sem students) in *.
  pose proof (rows_in_range sessions people Ht) as Hrange.
  split; [apply List.Forall_forall; exact Hrange|].
  destruct people as [|x l] eqn:E; [simpl; lia|].
  destruct (average_nearest (List.map (student_row sessions) (x :: l)))
    as (a & Ha & Hnear); [rewrite List.length_map; simpl length in *; lia|exact Hrange|].
  rewrite Ha. simpl hundredths_of.
  pose proof (total_hundredths_bounds _ Hrange) as Htot.
  set (M := Z.of_nat (length (List.map (student_row sessions) (x :: l)))) in *.
  assert (HM : (0 < M)%Z) by (unfold M; simpl length; lia).
  set (T := total_hundredths (List.map (student_row sessions) (x :: l))) in *.
  split; nia.
Qed.

Lemma register_percentages_bounded_witness :
  exists view,
    register "BCA" 2 "DBMS" SampleRegister.students SampleRegister.sessions = Success view
    /\ (0 <= hundredths_of (averageAttendance view) <= 10000)%Z.
Proof.
  eexists. split; [reflexivity|].
  eapply (register_percentages_bounded "BCA" 2 "DBMS" SampleRegister.students
            SampleRegister.sessions).
  - reflexivity.
  - vm_compute. discriminate.
  - vm_compute. discriminate.
Defined.

End RegisterShape.

(** ** The stats pipeline *)

Section StatsPipeline.

Import Attendance Totals.

Lemma subject_totals_cons_same s l :
  subject_totals (s_subject s) (s :: l)
  = mkSubjectStats (s_subject s)
      (totalClasses (subject_totals (s_subject s) l) + 1)
      (totalPresent (subject_totals (s_subject s) l) + presentCount s)
      (totalAbsent (subject_totals (s_subject s) l) + absentCount s).
Proof.
  unfold subject_totals, of_subject. simpl. rewrite String.eqb_refl. simpl.
  f_equal; lia.
Qed.

Lemma subject_totals_cons_other subject s l :
  s_subject s <> subject -> subject_totals subject (s :: l) = subject_totals subject l.
Proof.
  intros Hne. unfold subject_totals, of_subject. simpl.
  destruct (String.eqb_spec (s_subject s) subject); [contradiction|reflexivity].
Qed.

Lemma subject_totals_unseen subject l :
  ~ In subject (List.map s_subject l) -> subject_totals subject l = mkSubjectStats subject 0 0 0.
Proof.
  induction l as [|a l IH]; intros Hnot; [reflexivity|].
  rewrite subject_totals_cons_other.
  - apply IH. intros Hin. apply Hnot. right. exact Hin.
  - intros Heq. apply Hnot. left. exact Heq.
Qed.

Lemma group_add_subjects s rows subject :
  In subject (List.map g_subject (group_add s rows))
  <-> subject = s_subject s \/ In subject (List.map g_subject rows).
Proof.
  induction rows as [|r rest IH]; simpl.
  - intuition congruence.
  - destruct (String.eqb_spec (g_subject r) (s_subject s)) as [Heq|Hne]; simpl.
    + rewrite Heq. intuition congruence.
    + rewrite IH. intuition congruence.
Qed.

Lemma group_add_NoDup s rows :
  List.NoDup (List.map g_subject rows) -> List.NoDup (List.map g_subject (group_add s rows)).
Proof.
  induction rows as [|r rest IH]; simpl; intros Hnd.
  - constructor; [intros []|constructor].
  - inversion Hnd as [|? ? Hr Hrest]; subst.
    destruct (String.eqb_spec (g_subject r) (s_subject s)) as [Heq|Hne]; simpl.
    + constructor; assumption.
    + constructor; [|apply IH; exact Hrest].
      rewrite group_add_subjects. intros [Hs|Hin]; [congruence|contradiction].
Qed.

(** A row of the groups after one more session is an old row of another
    subject, the old row of the session's subject with the session added, or
    the first row of a subject not met before. *)
Lemma group_add_rows s rows row :
  List.NoDup (List.map g_subject rows) ->
  In row (group_add s rows) ->
  (g_subject row <> s_subject s /\ In row rows)
  \/ (exists r, In r rows /\ g_subject r = s_subject s
                /\ row = mkSubjectStats (s_subject s) (totalClasses r + 1)
                           (totalPresent r + presentCount s)
                           (totalAbsent r + absentCount s))
  \/ (~ In (s_subject s) (List.map g_subject rows)
      /\ row = mkSubjectStats (s_subject s) 1 (presentCount s) (absentCount s)).
Proof.
  induction rows as [|r rest IH]; simpl; intros Hnd Hin.
  - destruct Hin as [<-|[]]. right. right. split; [intros []|reflexivity].
  - inversion Hnd as [|? ? Hr Hrest]; subst.
    destruct (String.eqb_spec (g_subject r) (s_subject s)) as [Heq|Hne].
    + destruct Hin as [<-|Hin].
      * right. left. exists r. rewrite Heq. auto.
      * left. split; [|right; exact Hin]. intros Hs. apply Hr.
        rewrite Heq, <- Hs. apply List.in_map. exact Hin.
    + destruct Hin as [<-|Hin]; [left; auto|].
      destruct (IH Hrest Hin) as [[Hs Hold]|[(r0 & Hr0 & Hs & Hrow)|[Hnew Hrow]]].
      * left. auto.
      * right. left. exists r0. auto.
      * right. right. split; [|exact Hrow]. intros [Hs|Hs]; [congruence|contradiction].
Qed.

(** The groups built from a list of sessions hold one row per subject of
    the list, and each row holds the totals of its subject. *)
Lemma groups_spec l :
  let rows := fold_right group_add [] l in
  List.NoDup (List.map g_subject rows)
  /\ (forall subject, In subject (List.map g_subject rows)
                      <-> In subject (List.map s_subject l))
  /\ (forall row, In row rows -> row = subject_totals (g_subject row) l).
Proof.
  induction l as [|s l (Hnd & Hkeys & Hrows)]; simpl.
  - split; [constructor|]. split; [tauto|]. intros row [].
  - split; [apply group_add_NoDup; exact Hnd|]. split.
    + intros subject. rewrite group_add_subjects, Hkeys. intuition congruence.
    + intros row Hin.
      destruct (group_add_rows _ _ _ Hnd Hin)
        as [[Hs Hold]|[(r & Hr & Hs & ->)|[Hnew ->]]].
      * rewrite subject_totals_cons_other by congruence. apply Hrows. exact Hold.
      * simpl. rewrite subject_totals_cons_same.
        rewrite (Hrows r Hr), Hs. reflexivity.
      * simpl. rewrite subject_totals_cons_same, subject_totals_unseen.
        -- reflexivity.
        -- rewrite <- Hkeys. exact Hnew.
Qed.

#[local] Instance subject_le_total : Total subject_le.
Proof.
  intros a b. unfold subject_le.
  destruct (String.leb_total (g_subject a) (g_subject b)); auto.
Qed.

(** X10: when the stats pipeline answers, its rows are sorted by subject
    and hold one row for each subject that has a selected session, no
    subject twice; each row holds the number of the subject's selected
    sessions and the sums of their present and absent counts. *)
Theorem aggregate_totals_per_subject matches coll rows :
  aggregate matches coll = Some rows ->
  Sorted subject_le rows
  /\ List.NoDup (List.map g_subject rows)
  /\ (forall subject, In subject (List.map g_subject rows)
                      <-> exists s, In s (selected matches coll) /\ s_subject s = subject)
  /\ (forall row, In row rows ->
                  row = subject_totals (g_subject row) (selected matches coll)).
Proof.
  unfold aggregate. fold (selected matches coll).
  destruct (forallb _ _); [|discriminate]. intros [= <-].
  destruct (groups_spec (selected matches coll)) as (Hnd & Hkeys & Hrows).
  pose proof (merge_sort_Permutation subject_le
                (fold_right group_add [] (selected matches coll))) as Hperm.
  split; [apply Sorted_merge_sort; apply _|]. split; [|split].
  - eapply Permutation_NoDup; [|exact Hnd].
    apply Permutation_map. symmetry. exact Hperm.
  - intros subject.
    assert (Hsel : In subject (List.map s_subject (selected matches coll))
                   <-> exists s, In s (selected matches coll) /\ s_subject s = subject).
    { rewrite List.in_map_iff. split; intros (s & H1 & H2); exists s; auto. }
    rewrite <- Hsel, <- Hkeys.
    split; apply Permutation_in; apply Permutation_map; [|symmetry]; exact Hperm.
  - intros row Hin. apply Hrows. eapply Permutation_in; [exact Hperm|exact Hin].
Qed.

Lemma aggregate_totals_per_subject_witness :
  aggregate (match_view "BCA" 2) (attendance Sample.one_session)
  = Some [mkSubjectStats "DBMS" 1 2 1]
  /\ [mkSubjectStats "DBMS" 1 2 1]
     = [subject_totals "DBMS"
          (selected (match_view "BCA" 2) (attendance Sample.one_session))].
Proof.
  split; [vm_compute; reflexivity|].
  pose proof (aggregate_totals_per_subject (match_view "BCA" 2)
                (attendance Sample.one_session) [mkSubjectStats "DBMS" 1 2 1]) as H.
  destruct H as (_ & _ & _ & Hrows); [vm_compute; reflexivity|].
  rewrite (Hrows _ (or_introl eq_refl)) at 1. reflexivity.
Defined.





End StatsPipeline.

(** ** The request limiter *)

Section Limiter.

Import RateLimit.

(** A request inside the running window of its address. *)
Lemma limiter_inside ip now m u :
  m !! ip = Some u -> now <= resetTime u ->
  limiter ip now m
  = (count u + 1 <=? RATE_LIMIT, <[ip := mkUserRequests (count u + 1) (resetTime u)]> m).
Proof.
  intros Hm Hnow. unfold limiter. rewrite Hm. unfold default, from_option, id.
  destruct (now >? resetTime u) eqn:E; [lia|]. cbn [count resetTime]. f_equal.
  destruct (count u + 1 >? RATE_LIMIT) eqn:E1;
    destruct (count u + 1 <=? RATE_LIMIT) eqn:E2; simpl; try reflexivity; lia.
Qed.

(** A request that finds no running window of its address opens one. *)
Lemma limiter_start ip now m :
  (forall u, m !! ip = Some u -> resetTime u < now) ->
  limiter ip now m = (true, <[ip := mkUserRequests 1 (now + RATE_WINDOW)]> m).
Proof.
  intros Hold. unfold limiter.
  destruct (m !! ip) as [u|] eqn:Hm; unfold default, from_option, id.
  - specialize (Hold u eq_refl). destruct (now >? resetTime u) eqn:E; [reflexivity|lia].
  - cbn [resetTime]. unfold RATE_WINDOW.
    destruct (now >? now + 60000) eqn:E; [lia|reflexivity].
Qed.

(** A request leaves the entries of the other addresses as they are. *)
Lemma limiter_other ip ip' now m :
  ip' <> ip -> snd (limiter ip' now m) !! ip = m !! ip.
Proof. intros Hne. unfold limiter. cbn [snd]. apply lookup_insert_ne. exact Hne. Qed.

Lemma serve_cons ip now rest m :
  serve ((ip, now) :: rest) m
  = ((ip, now, fst (limiter ip now m)) :: fst (serve rest (snd (limiter ip now m))),
     snd (serve rest (snd (limiter ip now m)))).
Proof.
  cbn [serve]. destruct (limiter ip now m) as [passed m1]. cbn [fst snd].
  destruct (serve rest m1); reflexivity.
Qed.

(** Inside a window the verdicts of an address depend on its count alone:
    the request that raises the count to [c + j + 1] passes when that is
    at most the limit. *)
Lemma serve_inside_window ip : forall requests m u,
  m !! ip = Some u ->
  (forall now, In (ip, now) requests -> now <= resetTime u) ->
  verdicts ip (fst (serve requests m))
  = List.map (fun j => count u + Z.of_nat j + 1 <=? RATE_LIMIT)
      (seq 0 (requests_of ip requests)).
Proof.
  induction requests as [|[ip' now] rest IH]; intros m u Hm Hin; [reflexivity|].
  rewrite serve_cons. cbn [fst]. unfold verdicts, requests_of in *.
  cbn [List.filter fst snd].
  destruct (String.eqb_spec ip' ip) as [->|Hne].
  - rewrite (limiter_inside ip now m u Hm) by (apply Hin; left; reflexivity).
    cbn [fst snd List.map length seq]. f_equal.
    + f_equal. lia.
    + rewrite (IH _ (mkUserRequests (count u + 1) (resetTime u)))
        by (try apply lookup_insert_eq; intros t Ht; apply Hin; right; exact Ht).
      rewrite <- seq_shift, List.map_map. apply List.map_ext. intros j.
      cbn [count]. f_equal. lia.
  - apply IH.
    + rewrite limiter_other by exact Hne. exact Hm.
    + intros t Ht. apply Hin. right. exact Ht.
Qed.

(** X12: counted from a request of an address that finds no running
    window (no entry for the address, or one whose reset time has passed),
    the requests of that address up to the reset time of the new window,
    one minute later, pass while they number at most one hundred and are
    refused from the hundred and first on, however many requests of other
    addresses come in between. *)
Theorem limiter_passes_hundred_per_window ip now rest m :
  (forall u, m !! ip = Some u -> resetTime u < now) ->
  (forall t, In (ip, t) rest -> t <= now + RATE_WINDOW) ->
  verdicts ip (fst (serve ((ip, now) :: rest) m))
  = List.map (fun j => (j <? 100)%nat) (seq 0 (S (requests_of ip rest))).
Proof.
  intros Hold Hin. rewrite serve_cons, (limiter_start ip now m Hold). cbn [fst snd].
  unfold verdicts. cbn [List.filter fst snd]. rewrite String.eqb_refl.
  cbn [List.map seq]. f_equal.
  fold (verdicts ip (fst (serve rest (<[ip := mkUserRequests 1 (now + RATE_WINDOW)]> m)))).
  rewrite (serve_inside_window ip rest _ (mkUserRequests 1 (now + RATE_WINDOW)))
    by (try apply lookup_insert_eq; exact Hin).
  rewrite <- seq_shift, List.map_map. apply List.map_ext. intros j.
  cbn [count]. unfold RATE_LIMIT.
  destruct (1 + Z.of_nat j + 1 <=? 100) eqn:E1; destruct (S j <? 100)%nat eqn:E2;
    try reflexivity.
  - apply Nat.ltb_ge in E2. lia.
  - apply Nat.ltb_lt in E2. lia.
Qed.

Lemma limiter_passes_hundred_per_window_witness :
  verdicts "10.0.0.1"
    (fst (serve (("10.0.0.1", 5) :: List.map (fun t => ("10.0.0.1", t)) (List.repeat 7 101)) ∅))
  = List.map (fun j => (j <? 100)%nat)
      (seq 0 (S (requests_of "10.0.0.1"
                   (List.map (fun t => ("10.0.0.1", t)) (List.repeat 7 101))))).
Proof.
  apply (limiter_passes_hundred_per_window "10.0.0.1" 5
           (List.map (fun t => ("10.0.0.1", t)) (List.repeat 7 101)) ∅).
  - intros u Hu. rewrite lookup_empty in Hu. discriminate.
  - intros t Ht. apply List.in_map_iff in Ht as (x & [= <-] & Hx).
    apply List.repeat_spec in Hx. subst. vm_compute. discriminate.
Defined.

End Limiter.

(** ** Promotion, enrolment and undo together *)

Section PromotionRoutes.

Import Promotion Enrolment.

#[local] Existing Instance newer_first_total.
#[local] Existing Instance newer_first_trans.

(** X13: when the preview of a stream answers, a run on the same database
    succeeds, promotes and graduates together as many students as the
    preview counted, graduates the number the preview shows at semester 6,
    and a preview after the run shows the counts moved up by one semester:
    none at semester 1 and the former count of semester k at semester k+1. *)
Theorem preview_foretells_execute now streamName db breakdown total :
  preview streamName db = Success (breakdown, total) ->
  exists r db',
    execute now streamName db = (Success r, db')
    /\ (totalPromoted r + totalGraduated r)%nat = total
    /\ totalGraduated r = nth 5 breakdown 0%nat
    /\ preview streamName db' = Success (0%nat :: removelast breakdown, totalPromoted r).
Proof.
  unfold preview. destruct (findStream streamName (streams db)) as [sd|] eqn:Hfind;
    [|discriminate].
  intros [= <- <-].
  destruct (execute_effect now streamName db sd Hfind)
    as (r & db' & Hrun & Hstreams & _ & _ & Hgrad & Hprom & Hstud).
  destruct (counts_shift (sd_name sd) now (students db)) as [Hfirst Hshift].
  rewrite <- Hstud in Hfirst, Hshift.
  exists r, db'. split; [exact Hrun|]. split; [|split].
  - rewrite Hgrad, Hprom. simpl. lia.
  - rewrite Hgrad. reflexivity.
  - rewrite Hstreams, Hfind. cbn [List.map removelast].
    rewrite Hfirst.
    pose proof (Hshift 1 ltac:(lia)) as S1. pose proof (Hshift 2 ltac:(lia)) as S2.
    pose proof (Hshift 3 ltac:(lia)) as S3. pose proof (Hshift 4 ltac:(lia)) as S4.
    pose proof (Hshift 5 ltac:(lia)) as S5.
    change (1 + 1) with 2 in S1. change (2 + 1) with 3 in S2. change (3 + 1) with 4 in S3.
    change (4 + 1) with 5 in S4. change (5 + 1) with 6 in S5.
    rewrite S1, S2, S3, S4, S5.
    rewrite Hprom. simpl. do 2 f_equal.
Qed.

Lemma preview_foretells_execute_witness :
  exists r db',
    execute 1000 "bca" SampleRoster.college = (Success r, db')
    /\ (totalPromoted r + totalGraduated r)%nat = 3%nat
    /\ totalGraduated r = 1%nat
    /\ preview "bca" db' = Success ([0; 1; 0; 0; 0; 1]%nat, totalPromoted r).
Proof.
  apply (preview_foretells_execute 1000 "bca" SampleRoster.college [1; 0; 0; 0; 1; 1]%nat 3%nat).
  vm_compute. reflexivity.
Defined.

(** The backup [sort({ timestamp: -1 }).limit(1)] returns is one the filter
    selects, and none that the filter selects is newer. *)
Lemma latest_spec (f : Backup -> bool) history b :
  latest f history = Some b ->
  In b history /\ f b = true
  /\ forall x, In x history -> f x = true -> bk_timestamp x <= bk_timestamp b.
Proof.
  unfold latest. intros Hhead.
  pose proof (StronglySorted_merge_sort newer_first (List.filter f history)) as Hsorted.
  pose proof (merge_sort_Permutation newer_first (List.filter f history)) as Hperm.
  destruct (merge_sort newer_first (List.filter f history)) as [|x tl]; [discriminate|].
  simpl in Hhead. injection Hhead as ->.
  assert (Hb : In b (List.filter f history)).
  { eapply Permutation_in; [exact Hperm|]. left. reflexivity. }
  apply List.filter_In in Hb as [Hb Hfb]. split; [exact Hb|]. split; [exact Hfb|].
  intros x Hx Hfx.
  assert (Hin : In x (b :: tl)).
  { eapply Permutation_in; [symmetry; exact Hperm|]. apply List.filter_In. auto. }
  destruct Hin as [->|Hin]; [lia|].
  apply StronglySorted_inv in Hsorted as [_ Hall].
  rewrite List.Forall_forall in Hall. apply (Hall x Hin).
Qed.

Lemma latest_none (f : Backup -> bool) history :
  latest f history = None -> forall x, In x history -> f x = false.
Proof.
  unfold latest. intros Hhead x Hx.
  pose proof (merge_sort_Permutation newer_first (List.filter f history)) as Hperm.
  destruct (merge_sort newer_first (List.filter f history)) as [|y tl]; [|discriminate].
  destruct (f x) eqn:Hfx; [|reflexivity].
  assert (Hin : In x []).
  { eapply Permutation_in; [symmetry; exact Hperm|]. apply List.filter_In. auto. }
  destruct Hin.
Qed.

(** X14: when the availability check of a stream answers that an undo is
    possible, an undo requested at the same time on the same database
    succeeds. *)
Theorem canUndo_then_undo_succeeds now streamName db info :
  canUndoPromotion now streamName db = Success info ->
  canUndo info = true ->
  exists r db', undo now streamName db = (Success r, db').
Proof.
  unfold canUndoPromotion, undo.
  destruct (Js.regex_throws streamName); [discriminate|].
  destruct (findStream_i streamName (streams db)) as [sd|]; [|discriminate].
  destruct (latest (fun b => String.eqb (bk_stream b) (sd_name sd) && negb (restored b))
              (promotion_history db)) as [b1|] eqn:H1.
  2:{ intros [= <-]. discriminate. }
  intros [= <-]. cbn [canUndo]. intros Hage. apply Z.leb_le in Hage.
  apply latest_spec in H1 as (Hin1 & Hf1 & _).
  apply andb_true_iff in Hf1 as [Hs1 _].
  destruct (latest (fun b => String.eqb (bk_stream b) (sd_name sd)) (promotion_history db))
    as [b2|] eqn:H2.
  2:{ pose proof (latest_none _ _ H2 b1 Hin1) as Hcontra. cbv beta in Hcontra. congruence. }
  apply latest_spec in H2 as (_ & _ & Hnewest).
  specialize (Hnewest b1 Hin1 Hs1).
  assert (Hold : hours_old now b2 <= hours_old now b1).
  { unfold hours_old. apply Z.div_le_mono; lia. }
  destruct (hours_old now b2 >? 24) eqn:E; [lia|].
  destruct (insertMany _ _ _). eexists; eexists; reflexivity.
Qed.

Lemma canUndo_then_undo_succeeds_witness :
  exists r db',
    undo 2000 "BCA" (snd (execute 1000 "bca" SampleRoster.college)) = (Success r, db').
Proof.
  apply (canUndo_then_undo_succeeds 2000 "BCA" (snd (execute 1000 "bca" SampleRoster.college))
           (mkCanUndoInfo true (Some 0) 3)); vm_compute; reflexivity.
Defined.

Lemma find_none_not_in sid (l : list Student) :
  List.find (fun s => String.eqb (studentID (fields s)) sid) l = None ->
  ~ In sid (studentIDs l).
Proof.
  intros Hfind Hin. apply List.in_map_iff in Hin as (s & Hs & Hin).
  pose proof (List.find_none _ _ Hfind s Hin) as Hno. cbv beta in Hno.
  rewrite Hs, String.eqb_refl in Hno. discriminate.
Qed.

Lemma find_in_some sid (l : list Student) :
  In sid (studentIDs l) ->
  exists s, List.find (fun s => String.eqb (studentID (fields s)) sid) l = Some s.
Proof.
  intros Hin. apply List.in_map_iff in Hin as (s & Hs & Hin).
  destruct (List.find _ l) as [x|] eqn:Hfind; [exists x; reflexivity|].
  pose proof (List.find_none _ _ Hfind s Hin) as Hno. cbv beta in Hno.
  rewrite Hs, String.eqb_refl in Hno. discriminate.
Qed.

(** What an enrolment that succeeds has done. *)
Lemma add_student_inv now streamName sid nm phone db doc db' :
  add_student now streamName sid nm phone db = (Success doc, db') ->
  exists sid' nm' sd,
    sid = Some sid' /\ sid' <> ""%string /\ nm = Some nm'
    /\ findStream streamName (streams db) = Some sd
    /\ ~ In sid' (studentIDs (students db))
    /\ doc = mkStudent (nextId db) (mkStudentFields sid' nm' (sd_name sd) 1 None true now)
    /\ db' = mkDb (streams db) (students db ++ [doc]) (promotion_history db) (S (nextId db)).
Proof.
  unfold add_student.
  destruct sid as [sid'|]; [|discriminate].
  destruct (Js.truthy_str (Some sid')) as [x|] eqn:Hsid; [|discriminate].
  assert (x = sid' /\ sid' <> ""%string) as [-> Hne].
  { destruct sid' as [|c rest]; [discriminate|]. simpl in Hsid. injection Hsid as <-.
    split; [reflexivity|discriminate]. }
  destruct nm as [nm'|]; [|discriminate].
  destruct (Js.truthy_str (Some nm')) as [y|] eqn:Hnm; [|discriminate].
  assert (y = nm') as ->.
  { destruct nm' as [|c rest]; [discriminate|]. simpl in Hnm. congruence. }
  destruct (Js.truthy_str phone); [|discriminate].
  destruct (findStream streamName (streams db)) as [sd|]; [|discriminate].
  destruct (List.find _ (students db)) eqn:Hfind; [discriminate|].
  intros [= <- <-]. exists sid', nm', sd.
  repeat split; try reflexivity; try assumption.
  apply find_none_not_in. exact Hfind.
Qed.

(** An enrolment under a [studentID] that a stored student has, of
    whatever stream, is refused and changes nothing. *)
Lemma add_student_refuses_stored_id now streamName sid nm phone db :
  In sid (studentIDs (students db)) ->
  is_success (fst (add_student now streamName (Some sid) nm phone db)) = false
  /\ snd (add_student now streamName (Some sid) nm phone db) = db.
Proof.
  intros Hin. unfold add_student.
  destruct (Js.truthy_str (Some sid)) as [x|] eqn:Hsid; [|split; reflexivity].
  assert (x = sid) as ->.
  { destruct sid as [|c rest]; [discriminate|]. simpl in Hsid. congruence. }
  destruct (Js.truthy_str nm); [|split; reflexivity].
  destruct (Js.truthy_str phone); [|split; reflexivity].
  destruct (findStream streamName (streams db)); [|split; reflexivity].
  destruct (find_in_some sid (students db) Hin) as [found Hfound].
  rewrite Hfound. split; reflexivity.
Qed.

(** X15: an enrolment that succeeds appends one student, at semester 1 of
    the stream that was named, under a [studentID] that no stored student
    of any stream had; it keeps the [studentID]s of the collection free of
    duplicates when they were; and in every state of the database in which
    a student with that [studentID] is stored, the state right after the
    enrolment being one, an enrolment under the same [studentID] is
    refused, whatever stream it names, and changes nothing. *)
Theorem add_student_keeps_studentIDs_unique now streamName sid nm phone db doc db' :
  add_student now streamName (Some sid) nm phone db = (Success doc, db') ->
  students db' = students db ++ [doc]
  /\ studentID (fields doc) = sid /\ semester (fields doc) = 1
  /\ ~ In sid (studentIDs (students db))
  /\ In sid (studentIDs (students db'))
  /\ (List.NoDup (studentIDs (students db)) -> List.NoDup (studentIDs (students db')))
  /\ forall later, In sid (studentIDs (students later)) ->
       forall now2 streamName2 nm2 phone2,
         is_success (fst (add_student now2 streamName2 (Some sid) nm2 phone2 later)) = false
         /\ snd (add_student now2 streamName2 (Some sid) nm2 phone2 later) = later.
Proof.
  intros Hadd.
  destruct (add_student_inv _ _ _ _ _ _ _ _ Hadd)
    as (sid' & nm' & sd & [= <-] & Hne & -> & Hfind & Hnew & -> & ->).
  cbn [students fields studentID semester].
  split; [reflexivity|]. split; [reflexivity|]. split; [reflexivity|].
  split; [exact Hnew|]. split; [|split].
  - unfold studentIDs. rewrite List.map_app. apply List.in_or_app. right. left. reflexivity.
  - intros Hnd. unfold studentIDs. rewrite List.map_app. cbn [List.map fields studentID].
    eapply Permutation_NoDup; [apply Permutation_cons_append|].
    constructor; [exact Hnew|exact Hnd].
  - intros later Hin now2 streamName2 nm2 phone2.
    apply add_student_refuses_stored_id. exact Hin.
Qed.

Lemma add_student_keeps_studentIDs_unique_witness :
  studentIDs (students (snd (add_student 5 "bca" (Some "S9") (Some "Nine") (Some "98")
                               SampleRoster.college)))
  = ["S1"; "S5"; "S6"; "C1"; "S9"]
  /\ is_success (fst (add_student 6 "bcom" (Some "S9") (Some "Nine") (Some "98")
                        (snd (add_student 5 "bca" (Some "S9") (Some "Nine") (Some "98")
                                SampleRoster.college)))) = false.
Proof.
  destruct (add_student_keeps_studentIDs_unique 5 "bca" "S9" (Some "Nine") (Some "98")
              SampleRoster.college
              (mkStudent 4 (mkStudentFields "S9" "Nine" "BCA" 1 None true 5))
              (snd (add_student 5 "bca" (Some "S9") (Some "Nine") (Some "98")
                      SampleRoster.college)))
    as (Hst & _ & _ & _ & Hin & _ & Hagain); [vm_compute; reflexivity|].
  split; [rewrite Hst; vm_compute; reflexivity|].
  apply (Hagain _ Hin 6 "bcom" (Some "Nine") (Some "98")).
Defined.

(** The documents [insertMany] adds are numbered from [next] on. *)
Lemma insertMany_ids docs : forall next l x,
  In x (fst (insertMany docs next l)) -> In x l \/ (next <= _id x)%nat.
Proof.
  induction docs as [|d rest IH]; intros next l x Hin; simpl in Hin; [left; exact Hin|].
  apply IH in Hin as [Hin|Hid]; [|right; lia].
  apply List.in_app_or in Hin as [Hin|[<-|[]]]; [left; exact Hin|right; simpl; lia].
Qed.

(** X16: a student enrolled into a stream after a promotion run of that
    stream is lost when the run is undone: the undo puts back the roster
    of before the run, field by field, and the document of the enrolment
    is no longer stored. *)
Theorem undo_discards_later_enrolment
    now1 now2 now3 s1 s2 s3 sd1 sd2 sd3 db r1 db1 sid nm phone doc db2 r3 db3 :
  findStream s1 (streams db) = Some sd1 ->
  findStream s2 (streams db) = Some sd2 ->
  findStream_i s3 (streams db) = Some sd3 ->
  sd_name sd2 = sd_name sd1 -> sd_name sd3 = sd_name sd1 ->
  (forall b, In b (promotion_history db) ->
     bk_stream b = sd_name sd1 -> bk_timestamp b < now1) ->
  execute now1 s1 db = (Success r1, db1) ->
  add_student now2 s2 sid nm phone db1 = (Success doc, db2) ->
  undo now3 s3 db2 = (Success r3, db3) ->
  In doc (students db2)
  /\ ~ In doc (students db3)
  /\ List.map fields (List.filter (in_stream (sd_name sd1)) (students db3))
     = List.map fields (List.filter (in_stream (sd_name sd1)) (students db)).
Proof.
  intros Hf1 Hf2 Hf3 Hn2 Hn3 Hold Hrun Hadd Hundo.
  destruct (execute_effect now1 s1 db sd1 Hf1)
    as (r1' & db1' & Hrun' & Hstreams & Hnext & Hhist & _ & _ & Hstud).
  rewrite Hrun in Hrun'. injection Hrun' as <- <-.
  destruct (add_student_inv _ _ _ _ _ _ _ _ Hadd)
    as (sid' & nm' & sd & -> & _ & -> & Hfind & _ & Hdoc & ->).
  rewrite Hstreams, Hf2 in Hfind. injection Hfind as <-.
  set (nm1 := sd_name sd1) in *.
  assert (Hin_stream : in_stream nm1 doc = true).
  { rewrite Hdoc. unfold in_stream. simpl. rewrite Hn2. apply String.eqb_refl. }
  assert (Hid : _id doc = nextId db1) by (rewrite Hdoc; reflexivity).
  split; [cbn [students]; apply List.in_or_app; right; left; reflexivity|].
  clear Hdoc. unfold undo in Hundo.
  destruct (Js.regex_throws s3); [discriminate|].
  cbn [streams promotion_history students nextId] in Hundo.
  rewrite Hstreams, Hf3, Hn3 in Hundo. fold nm1 in Hundo. rewrite Hhist in Hundo.
  rewrite latest_appended in Hundo.
  2:{ simpl. apply String.eqb_refl. }
  2:{ intros x Hx Hfx. simpl. apply String.eqb_eq in Hfx. apply Hold; assumption. }
  destruct (hours_old now3 _ >? 24); [discriminate|].
  cbn [bk_students bk_timestamp bk_id] in Hundo.
  pose proof (insertMany_ids
                (List.map fields (List.filter (in_stream nm1) (students db)))
                (S (nextId db1))
                (List.filter (fun s => negb (in_stream nm1 s)) (students db1 ++ [doc]))
                doc) as Hids.
  destruct (insertMany_appends
              (List.map fields (List.filter (in_stream nm1) (students db)))
              (S (nextId db1))
              (List.filter (fun s => negb (in_stream nm1 s)) (students db1 ++ [doc])))
    as (ins & Hins & Hfields).
  rewrite Hins in Hundo, Hids. injection Hundo as <- <-. cbn [students fst] in *.
  split.
  - intros Hin. destruct (Hids Hin) as [Hkept|Hfresh]; [|lia].
    apply List.filter_In in Hkept as [_ Hkept]. rewrite Hin_stream in Hkept. discriminate.
  - destruct (filter_in_stream_by_fields nm1 ins
                (List.filter (in_stream nm1) (students db)) Hfields (filter_all _ _))
      as [Hin _].
    rewrite List.filter_app, filter_complement, Hin. exact Hfields.
Qed.

Lemma undo_discards_later_enrolment_witness :
  exists doc db2 db3,
    snd (add_student 1500 "bca" (Some "S9") (Some "Nine") (Some "98")
           (snd (execute 1000 "bca" SampleRoster.college))) = db2
    /\ snd (undo 2000 "BCA" db2) = db3
    /\ In doc (students db2) /\ ~ In doc (students db3)
    /\ studentIDs (List.filter (in_stream "BCA") (students db3)) = ["S1"; "S5"; "S6"].
Proof.
  exists (mkStudent 5 (mkStudentFields "S9" "Nine" "BCA" 1 None true 1500)).
  eexists. eexists. split; [reflexivity|]. split; [reflexivity|].
  assert (Hold : forall b, In b (promotion_history SampleRoster.college) ->
                   bk_stream b = "BCA"%string -> bk_timestamp b < 1000) by (intros b []).
  destruct (undo_discards_later_enrolment 1000 1500 2000 "bca" "bca" "BCA"
              (mkStreamDoc "BCA" "bca") (mkStreamDoc "BCA" "bca") (mkStreamDoc "BCA" "bca")
              SampleRoster.college
              (mkExecuteResult 2 1 [Graduated 1; Promoted 1 5 6; Promoted 1 1 2])
              (snd (execute 1000 "bca" SampleRoster.college))
              (Some "S9"%string) (Some "Nine"%string) (Some "98"%string)
              (mkStudent 5 (mkStudentFields "S9" "Nine" "BCA" 1 None true 1500))
              (snd (add_student 1500 "bca" (Some "S9") (Some "Nine") (Some "98")
                      (snd (execute 1000 "bca" SampleRoster.college))))
              (mkUndoResult 3 1000)
              (snd (undo 2000 "BCA"
                      (snd (add_student 1500 "bca" (Some "S9") (Some "Nine") (Some "98")
                              (snd (execute 1000 "bca" SampleRoster.college))))))
              eq_refl eq_refl eq_refl eq_refl eq_refl Hold)
    as (Hin & Hout & Hroster); try (vm_compute; reflexivity).
  split; [exact Hin|]. split; [exact Hout|].
  vm_compute. reflexivity.
Defined.

End PromotionRoutes.

(** ** Reading a teacher's arrays *)

Section TeacherReadRoutes.

Import Teacher TeacherReads.

Lemma truthy_nonempty email : email <> ""%string -> Js.truthy_str (Some email) = Some email.
Proof. destruct email; [contradiction|reflexivity]. Qed.

Lemma findOne_repaired email teachers t :
  NoDup (List.map t_email teachers) -> In t teachers -> t_email t = email ->
  findOne email (List.map (repaired email) teachers) = Some (repaired email t).
Proof.
  unfold findOne. induction teachers as [|t0 rest IH]; intros Hnd Hin He; [destruct Hin|].
  simpl in Hnd. apply NoDup_cons in Hnd as [Hnotin Hnd]. simpl.
  rewrite repaired_email. destruct Hin as [->|Hin].
  - rewrite He, String.eqb_refl. reflexivity.
  - destruct (String.eqb_spec (t_email t0) email) as [He0|_]; [|apply IH; assumption].
    exfalso. apply Hnotin. apply list_elem_of_In. rewrite He0, <- He.
    apply List.in_map. exact Hin.
Qed.

Lemma findOne_unknown email teachers :
  ~ In email (List.map t_email teachers) ->
  findOne email teachers = None /\ List.map (repaired email) teachers = teachers.
Proof.
  unfold findOne. induction teachers as [|t0 rest IH]; intros Hnot; [split; reflexivity|].
  simpl in *. destruct (String.eqb_spec (t_email t0) email) as [He|Hne]; [tauto|].
  destruct IH as [IH1 IH2]; [tauto|]. split; [exact IH1|].
  unfold repaired at 1. rewrite missing_needs_email by exact Hne. rewrite IH2. reflexivity.
Qed.

Lemma repaired_complete_collection email teachers t :
  NoDup (List.map t_email teachers) -> In t teachers -> t_email t = email ->
  has_all_arrays t -> List.map (repaired email) teachers = teachers.
Proof.
  intros Hnd Hin He Hall. induction teachers as [|t0 rest IH]; [reflexivity|].
  simpl in Hnd. apply NoDup_cons in Hnd as [Hnotin Hnd]. simpl.
  destruct Hin as [->|Hin].
  - rewrite repaired_keeps_complete by exact Hall. f_equal.
    apply (findOne_unknown email rest). intros Hin. apply Hnotin.
    apply list_elem_of_In. rewrite He. exact Hin.
  - rewrite IH by assumption. f_equal. unfold repaired.
    rewrite missing_needs_email; [reflexivity|]. intros He0. apply Hnotin.
    apply list_elem_of_In. rewrite He0, <- He. apply List.in_map. exact Hin.
Qed.

Lemma repaired_incomplete email t :
  t_email t = email -> ~ has_all_arrays t -> repaired email t = set_empty_arrays t.
Proof.
  intros He Hnot. unfold repaired, missing_some_array. rewrite He, String.eqb_refl.
  destruct (createdSubjects t) eqn:E1, (attendanceQueue t) eqn:E2,
    (completedClasses t) eqn:E3; simpl; try reflexivity.
  exfalso. apply Hnot. unfold has_all_arrays. rewrite E1, E2, E3. repeat split; eauto.
Qed.

(** X17: on a collection with unique emails, loading the queue or the
    subjects of a teacher whose document has all three arrays returns the
    stored array and changes nothing; for a teacher whose document lacks
    any one of the three arrays the answer is the empty list and the
    document is left with all three arrays empty, whatever the array that
    was asked for held; for an email no document has, the answer is the
    empty list and no document is created. *)
Theorem reads_return_or_erase email teachers :
  email <> ""%string ->
  NoDup (List.map t_email teachers) ->
  (forall t, In t teachers -> t_email t = email -> has_all_arrays t ->
     getQueue (Some email) teachers = (Success (default [] (attendanceQueue t)), teachers)
     /\ getSubjects (Some email) teachers
        = (Success (default [] (createdSubjects t)), teachers))
  /\ (forall t, In t teachers -> t_email t = email -> ~ has_all_arrays t ->
        fst (getQueue (Some email) teachers) = Success []
        /\ fst (getSubjects (Some email) teachers) = Success []
        /\ snd (getQueue (Some email) teachers) = snd (getSubjects (Some email) teachers)
        /\ findOne email (snd (getQueue (Some email) teachers)) = Some (set_empty_arrays t))
  /\ (~ In email (List.map t_email teachers) ->
      getQueue (Some email) teachers = (Success [], teachers)
      /\ getSubjects (Some email) teachers = (Success [], teachers)).
Proof.
  intros Hne Hnd. unfold getQueue, getSubjects. rewrite (truthy_nonempty email Hne).
  pose proof (ensureTeacherFields_map email teachers Hnd) as Hmap.
  destruct (ensureTeacherFields email teachers) as [ok teachers1]. cbn [snd] in Hmap.
  subst teachers1. split; [|split].
  - intros t Hin He Hall.
    rewrite (findOne_repaired email teachers t Hnd Hin He).
    rewrite (repaired_complete_collection email teachers t Hnd Hin He Hall).
    rewrite (repaired_keeps_complete email t Hall). split; reflexivity.
  - intros t Hin He Hnot.
    rewrite (findOne_repaired email teachers t Hnd Hin He).
    rewrite (repaired_incomplete email t He Hnot). cbn [fst snd].
    split; [reflexivity|]. split; [reflexivity|]. split; [reflexivity|].
    rewrite (findOne_repaired email teachers t Hnd Hin He).
    rewrite (repaired_incomplete email t He Hnot). reflexivity.
  - intros Hnot. destruct (findOne_unknown email teachers Hnot) as [Hfind Hsame].
    rewrite Hsame, Hfind. split; reflexivity.
Qed.

Lemma reads_return_or_erase_witness :
  getQueue (Some "asha@college.edu") SampleTeachers.staff
  = (Success [SampleTeachers.dbms_item], SampleTeachers.staff)
  /\ fst (getQueue (Some "mina@college.edu") SampleTeachers.staff) = Success []
  /\ getQueue (Some "nobody@college.edu") SampleTeachers.staff
     = (Success [], SampleTeachers.staff).
Proof.
  assert (Hnd : NoDup (List.map t_email SampleTeachers.staff)).
  { apply (bool_decide_unpack _). vm_compute. exact I. }
  split; [|split].
  - destruct (reads_return_or_erase "asha@college.edu" SampleTeachers.staff)
      as (Hfull & _ & _); [discriminate|exact Hnd|].
    apply (Hfull SampleTeachers.populated).
    + left. reflexivity.
    + reflexivity.
    + unfold has_all_arrays. simpl. repeat split; eauto.
  - destruct (reads_return_or_erase "mina@college.edu" SampleTeachers.staff)
      as (_ & Hpart & _); [discriminate|exact Hnd|].
    apply (Hpart SampleTeachers.queue_only).
    + right. right. left. reflexivity.
    + reflexivity.
    + intros (H1 & _). simpl in H1. destruct H1 as [x Hx]. discriminate.
  - destruct (reads_return_or_erase "nobody@college.edu" SampleTeachers.staff)
      as (_ & _ & Hnone); [discriminate|exact Hnd|].
    apply Hnone. vm_compute. intros [H|[H|[H|[]]]]; discriminate.
Defined.

End TeacherReadRoutes.

(** ** Teacher profiles *)

Section TeacherProfiles.

Import Teacher TeacherReads TeacherProfile.

Variable email : string.

(** With unique emails an update of the first document of an email is an
    update of every document of that email. *)
Lemma updateOne_by_email u teachers :
  NoDup (List.map t_email teachers) ->
  updateOne (fun t => String.eqb (t_email t) email) u teachers
  = List.map (fun t => if String.eqb (t_email t) email then u t else t) teachers.
Proof.
  induction teachers as [|t rest IH]; intros Hnd; [reflexivity|].
  simpl in Hnd. apply NoDup_cons in Hnd as [Hnotin Hnd]. simpl.
  destruct (String.eqb_spec (t_email t) email) as [He|Hne].
  - f_equal. symmetry. erewrite List.map_ext_in; [apply List.map_id|].
    intros t' Hin. cbv beta.
    destruct (String.eqb_spec (t_email t') email) as [He'|]; [|reflexivity].
    exfalso. apply Hnotin. apply list_elem_of_In. rewrite He, <- He'.
    apply List.in_map. exact Hin.
  - f_equal. apply IH. exact Hnd.
Qed.

Lemma existsb_email teachers :
  existsb (fun t => String.eqb (t_email t) email) teachers = true
  <-> In email (List.map t_email teachers).
Proof.
  rewrite List.existsb_exists, List.in_map_iff.
  split; intros (t & H1 & H2); exists t.
  - split; [apply String.eqb_eq; exact H2|exact H1].
  - split; [exact H2|apply String.eqb_eq; exact H1].
Qed.

Lemma repaired_identity t :
  t_firebaseUid (repaired email t) = t_firebaseUid t /\ t_name (repaired email t) = t_name t.
Proof. unfold repaired. destruct (missing_some_array email t); split; reflexivity. Qed.

(** A complete document that carries the posted profile is a fixed point
    of the profile route. *)
Lemma postProfile_fixed uid name teachers t :
  uid <> ""%string -> email <> ""%string ->
  NoDup (List.map t_email teachers) ->
  uid_taken uid email teachers = false ->
  In t teachers -> t_email t = email -> t_firebaseUid t = uid ->
  t_name t = default (before_at email) (Js.truthy_str name) ->
  has_all_arrays t ->
  postProfile (Some uid) name (Some email) teachers = (Success (Some t), teachers).
Proof.
  intros Huid Hemail Hnd Htaken Hin He Hu Hn Hall. unfold postProfile.
  rewrite (truthy_nonempty uid Huid), (truthy_nonempty email Hemail), Htaken.
  set (nm := default (before_at email) (Js.truthy_str name)) in *.
  assert (Hsame : upsert_profile uid nm email teachers = teachers).
  { unfold upsert_profile.
    assert (Hex : existsb (fun t => String.eqb (t_email t) email) teachers = true).
    { apply existsb_email. rewrite <- He. apply List.in_map. exact Hin. }
    rewrite Hex, (updateOne_by_email _ _ Hnd).
    erewrite List.map_ext_in; [apply List.map_id|].
    intros t' Hin'. cbv beta.
    destruct (String.eqb_spec (t_email t') email) as [He'|]; [|reflexivity].
    assert (t' = t) as ->.
    { revert Hnd Hin Hin' He He'. clear. induction teachers as [|x rest IH]; [intros _ []|].
      simpl. intros Hnd Hin Hin' He He'. apply NoDup_cons in Hnd as [Hx Hnd].
      destruct Hin as [->|Hin], Hin' as [->|Hin']; try reflexivity.
      - exfalso. apply Hx. apply list_elem_of_In. rewrite He, <- He'.
        apply List.in_map. exact Hin'.
      - exfalso. apply Hx. apply list_elem_of_In. rewrite He', <- He.
        apply List.in_map. exact Hin.
      - apply IH; assumption. }
    destruct t as [e u n a b c]. simpl in *. subst. reflexivity. }
  rewrite Hsame.
  pose proof (ensureTeacherFields_map email teachers Hnd) as Hmap.
  destruct (ensureTeacherFields email teachers) as [ok teachers2]. cbn [snd] in Hmap.
  subst teachers2.
  rewrite (findOne_repaired email teachers t Hnd Hin He).
  rewrite (repaired_complete_collection email teachers t Hnd Hin He Hall).
  rewrite (repaired_keeps_complete email t Hall). reflexivity.
Qed.

(** Two elements of a list without duplicates under [f] that agree under
    [f] are the same element. *)
Lemma NoDup_map_same {A B} (f : A -> B) (l : list A) a b :
  NoDup (List.map f l) -> In a l -> In b l -> f a = f b -> a = b.
Proof.
  induction l as [|x rest IH]; [intros _ []|].
  simpl. intros Hnd Ha Hb Hab. apply NoDup_cons in Hnd as [Hx Hnd].
  destruct Ha as [->|Ha], Hb as [->|Hb]; try reflexivity.
  - exfalso. apply Hx. apply list_elem_of_In. rewrite Hab. apply List.in_map. exact Hb.
  - exfalso. apply Hx. apply list_elem_of_In. rewrite <- Hab. apply List.in_map. exact Ha.
  - apply IH; assumption.
Qed.

(** The documents of other emails decide whether a uid is taken. *)
Lemma uid_taken_others uid teachers teachers' :
  (forall t0, t_email t0 <> email -> (In t0 teachers' <-> In t0 teachers)) ->
  uid_taken uid email teachers' = uid_taken uid email teachers.
Proof.
  intros Hsame. unfold uid_taken.
  apply eq_true_iff_eq. rewrite !List.existsb_exists.
  split; intros (x & Hx & Hp); exists x; (split; [|exact Hp]);
    apply andb_true_iff in Hp as [_ Hp]; apply negb_true_iff in Hp;
    apply String.eqb_neq in Hp; apply (Hsame x Hp); exact Hx.
Qed.

Lemma uid_free uid teachers t0 :
  uid_taken uid email teachers = false -> In t0 teachers -> t_email t0 <> email ->
  t_firebaseUid t0 <> uid.
Proof.
  intros Htaken Hin Hne Hu. unfold uid_taken in Htaken.
  assert (Hex : existsb (fun t => String.eqb (t_firebaseUid t) uid
                                  && negb (String.eqb (t_email t) email)) teachers = true).
  { apply List.existsb_exists. exists t0. split; [exact Hin|].
    rewrite Hu, String.eqb_refl. simpl. apply negb_true_iff, String.eqb_neq. exact Hne. }
  congruence.
Qed.

(** What a profile post does when the store accepts the write. *)
Lemma postProfile_effect uid name teachers :
  uid <> ""%string -> email <> ""%string ->
  NoDup (List.map t_email teachers) ->
  uid_taken uid email teachers = false ->
  exists t teachers',
    postProfile (Some uid) name (Some email) teachers = (Success (Some t), teachers')
    /\ t_email t = email /\ t_firebaseUid t = uid /\ has_all_arrays t
    /\ findOne email teachers' = Some t
    /\ NoDup (List.map t_email teachers')
    /\ (forall t0, t_email t0 <> email -> (In t0 teachers' <-> In t0 teachers))
    /\ (forall t0, In t0 teachers -> t_email t0 = email -> has_all_arrays t0 ->
          createdSubjects t = createdSubjects t0
          /\ attendanceQueue t = attendanceQueue t0
          /\ completedClasses t = completedClasses t0)
    /\ postProfile (Some uid) name (Some email) teachers' = (Success (Some t), teachers').
Proof.
  intros Huid Hemail Hnd Htaken.
  set (nm := default (before_at email) (Js.truthy_str name)).
  set (g := fun t => if String.eqb (t_email t) email then set_profile uid nm email t else t).
  assert (Hg_email : forall t, t_email (g t) = t_email t).
  { intros t. unfold g. destruct (String.eqb_spec (t_email t) email) as [He|]; [|reflexivity].
    simpl. symmetry. exact He. }
  assert (Hg_other : forall t, t_email t <> email -> repaired email (g t) = t).
  { intros t Hne. unfold g, repaired.
    destruct (String.eqb_spec (t_email t) email); [contradiction|].
    rewrite missing_needs_email by exact Hne. reflexivity. }
  destruct (existsb (fun t => String.eqb (t_email t) email) teachers) eqn:Hex.
  - (* the email has a document *)
    apply existsb_email in Hex as Hin. apply List.in_map_iff in Hin as (t0 & He0 & Hin0).
    set (teachers1 := List.map g teachers).
    assert (Hup : upsert_profile uid nm email teachers = teachers1).
    { unfold upsert_profile. rewrite Hex. apply updateOne_by_email. exact Hnd. }
    assert (Hnd1 : NoDup (List.map t_email teachers1)).
    { unfold teachers1. rewrite List.map_map. erewrite List.map_ext; [exact Hnd|].
      exact Hg_email. }
    set (teachers2 := List.map (repaired email) teachers1).
    assert (Hnd2 : NoDup (List.map t_email teachers2)).
    { unfold teachers2. rewrite List.map_map. erewrite List.map_ext; [exact Hnd1|].
      apply repaired_email. }
    set (t := repaired email (g t0)).
    assert (Hg0 : g t0 = set_profile uid nm email t0).
    { unfold g. rewrite He0, String.eqb_refl. reflexivity. }
    assert (Hin1 : In (g t0) teachers1) by (apply List.in_map; exact Hin0).
    assert (Hin2 : In t teachers2) by (apply List.in_map; exact Hin1).
    assert (He : t_email t = email).
    { unfold t. rewrite repaired_email, Hg_email. exact He0. }
    assert (Hall : has_all_arrays t).
    { apply repaired_has_all. rewrite Hg_email. exact He0. }
    exists t, teachers2.
    assert (Hrun : postProfile (Some uid) name (Some email) teachers
                   = (Success (Some t), teachers2)).
    { unfold postProfile.
      rewrite (truthy_nonempty uid Huid), (truthy_nonempty email Hemail), Htaken.
      fold nm. rewrite Hup.
      pose proof (ensureTeacherFields_map email teachers1 Hnd1) as Hmap.
      destruct (ensureTeacherFields email teachers1) as [ok l]. cbn [snd] in Hmap. subst l.
      fold teachers2. unfold teachers2 at 1.
      rewrite (findOne_repaired email teachers1 (g t0) Hnd1 Hin1)
        by (rewrite Hg_email; exact He0).
      reflexivity. }
    split; [exact Hrun|]. split; [exact He|]. split.
    { unfold t. rewrite (proj1 (repaired_identity (g t0))), Hg0. reflexivity. }
    split; [exact Hall|]. split.
    { unfold teachers2. apply findOne_repaired; [exact Hnd1|exact Hin1|].
      rewrite Hg_email. exact He0. }
    split; [exact Hnd2|].
    assert (Hothers : forall x, t_email x <> email -> (In x teachers2 <-> In x teachers)).
    { intros x Hne. unfold teachers2, teachers1. rewrite List.map_map. split.
      - intros Hx. apply List.in_map_iff in Hx as (y & Hy & Hin).
        assert (Hy_email : t_email y <> email).
        { intros Hye. apply Hne. rewrite <- Hy, repaired_email, Hg_email. exact Hye. }
        rewrite (Hg_other y Hy_email) in Hy. subst y. exact Hin.
      - intros Hx. apply List.in_map_iff. exists x.
        split; [apply Hg_other; exact Hne|exact Hx]. }
    split; [exact Hothers|]. split.
    + intros x Hx Hxe Hxall.
      assert (x = t0) as ->.
      { revert Hnd Hin0 Hx He0 Hxe. clear. induction teachers as [|y rest IH]; [intros _ []|].
        simpl. intros Hnd Hin Hin' He He'. apply NoDup_cons in Hnd as [Hy Hnd].
        destruct Hin as [->|Hin], Hin' as [->|Hin']; try reflexivity.
        - exfalso. apply Hy. apply list_elem_of_In. rewrite He, <- He'.
          apply List.in_map. exact Hin'.
        - exfalso. apply Hy. apply list_elem_of_In. rewrite He', <- He.
          apply List.in_map. exact Hin.
        - apply IH; assumption. }
      unfold t. rewrite Hg0, repaired_keeps_complete; [repeat split; reflexivity|].
      exact Hxall.
    + apply postProfile_fixed; try assumption.
      * rewrite <- Htaken. apply uid_taken_others. exact Hothers.
      * unfold t. rewrite (proj1 (repaired_identity (g t0))), Hg0. reflexivity.
      * unfold t. rewrite (proj2 (repaired_identity (g t0))), Hg0. reflexivity.
  - (* the email has no document: one is inserted *)
    assert (Hnot : ~ In email (List.map t_email teachers)).
    { intros Hin. apply existsb_email in Hin. congruence. }
    set (t := mkTeacherDoc email uid nm (Some []) (Some []) (Some [])).
    assert (Hall : has_all_arrays t) by (unfold has_all_arrays; simpl; repeat split; eauto).
    assert (Hnd1 : NoDup (List.map t_email (teachers ++ [t]))).
    { rewrite List.map_app. simpl. apply NoDup_app. split; [exact Hnd|].
      split; [|apply NoDup_singleton].
      intros x Hx Hin. apply elem_of_cons in Hin as [->|Hin]; [|inversion Hin]. apply Hnot.
      apply list_elem_of_In. exact Hx. }
    assert (Hin1 : In t (teachers ++ [t])) by (apply List.in_or_app; right; left; reflexivity).
    exists t, (teachers ++ [t]).
    assert (Hrun : postProfile (Some uid) name (Some email) teachers
                   = (Success (Some t), teachers ++ [t])).
    { unfold postProfile.
      rewrite (truthy_nonempty uid Huid), (truthy_nonempty email Hemail), Htaken.
      fold nm. unfold upsert_profile. rewrite Hex. fold t.
      pose proof (ensureTeacherFields_map email (teachers ++ [t]) Hnd1) as Hmap.
      destruct (ensureTeacherFields email (teachers ++ [t])) as [ok l]. cbn [snd] in Hmap.
      subst l.
      rewrite (findOne_repaired email (teachers ++ [t]) t Hnd1 Hin1 eq_refl).
      rewrite (repaired_complete_collection email (teachers ++ [t]) t Hnd1 Hin1 eq_refl Hall).
      rewrite (repaired_keeps_complete email t Hall). reflexivity. }
    split; [exact Hrun|]. split; [reflexivity|]. split; [reflexivity|].
    split; [exact Hall|]. split.
    { pose proof (findOne_repaired email (teachers ++ [t]) t Hnd1 Hin1 eq_refl) as Hfind.
      rewrite (repaired_complete_collection email (teachers ++ [t]) t Hnd1 Hin1 eq_refl Hall),
        (repaired_keeps_complete email t Hall) in Hfind. exact Hfind. }
    split; [exact Hnd1|].
    assert (Hothers : forall x, t_email x <> email -> (In x (teachers ++ [t]) <-> In x teachers)).
    { intros x Hne. rewrite List.in_app_iff. simpl. split; [|tauto].
      intros [Hx|[Hx|[]]]; [exact Hx|]. exfalso. apply Hne. rewrite <- Hx. reflexivity. }
    split; [exact Hothers|]. split.
    + intros x Hx Hxe _. exfalso. apply Hnot. rewrite <- Hxe. apply List.in_map. exact Hx.
    + apply postProfile_fixed; try assumption; try reflexivity.
      rewrite <- Htaken. apply uid_taken_others. exact Hothers.
Qed.

(** X18: on a collection with unique emails, posting a profile whose uid
    no document of another email carries succeeds and answers the document
    of the email, which then carries the posted uid and all three arrays;
    the emails stay unique, and so do the uids when they were; the
    documents of other emails are as they were; a document that already
    had the three arrays keeps them; and posting the same profile again
    changes nothing. Posting a uid that the document of another email
    carries is refused by the unique index of the store: the answer has
    status 500 and nothing is changed. *)
Theorem postProfile_makes_complete_document uid name teachers :
  uid <> ""%string -> email <> ""%string ->
  NoDup (List.map t_email teachers) ->
  (uid_taken uid email teachers = false ->
   exists t teachers',
     postProfile (Some uid) name (Some email) teachers = (Success (Some t), teachers')
     /\ t_email t = email /\ t_firebaseUid t = uid /\ has_all_arrays t
     /\ findOne email teachers' = Some t
     /\ NoDup (List.map t_email teachers')
     /\ (NoDup (List.map t_firebaseUid teachers) ->
         NoDup (List.map t_firebaseUid teachers'))
     /\ (forall t0, t_email t0 <> email -> (In t0 teachers' <-> In t0 teachers))
     /\ (forall t0, In t0 teachers -> t_email t0 = email -> has_all_arrays t0 ->
           createdSubjects t = createdSubjects t0
           /\ attendanceQueue t = attendanceQueue t0
           /\ completedClasses t = completedClasses t0)
     /\ postProfile (Some uid) name (Some email) teachers' = (Success (Some t), teachers'))
  /\ (uid_taken uid email teachers = true ->
      exists error,
        postProfile (Some uid) name (Some email) teachers = (Failure 500 error, teachers)).
Proof.
  intros Huid Hemail Hnd. split.
  - intros Htaken.
    destruct (postProfile_effect uid name teachers Huid Hemail Hnd Htaken)
      as (t & teachers' & Hrun & He & Hu & Hall & Hfind & Hnd' & Hothers & Hkept & Hagain).
    exists t, teachers'. repeat (split; [assumption|]).
    split; [|repeat (split; [assumption|]); assumption].
    intros Huids. apply NoDup_fmap_2_strong; [|eapply NoDup_fmap_1; exact Hnd'].
    intros a b Ha Hb Hab. apply list_elem_of_In in Ha, Hb.
    assert (Hone : forall x, In x teachers' -> t_email x = email -> x = t).
    { intros x Hx Hxe. apply List.find_some in Hfind as [Ht _].
      apply (NoDup_map_same t_email teachers'); try assumption. congruence. }
    destruct (String.eqb_spec (t_email a) email) as [Hae|Hae];
      destruct (String.eqb_spec (t_email b) email) as [Hbe|Hbe].
    + rewrite (Hone a Ha Hae), (Hone b Hb Hbe). reflexivity.
    + exfalso. apply (uid_free uid teachers b Htaken); [apply Hothers; assumption|exact Hbe|].
      rewrite <- Hab, (Hone a Ha Hae). exact Hu.
    + exfalso. apply (uid_free uid teachers a Htaken); [apply Hothers; assumption|exact Hae|].
      rewrite Hab, (Hone b Hb Hbe). exact Hu.
    + apply Hothers in Ha, Hb; try assumption.
      apply (NoDup_map_same t_firebaseUid teachers); assumption.
  - intros Htaken. unfold postProfile.
    rewrite (truthy_nonempty uid Huid), (truthy_nonempty email Hemail), Htaken.
    eexists. reflexivity.
Qed.

End TeacherProfiles.

Lemma postProfile_makes_complete_document_witness :
  (exists t teachers',
     TeacherProfile.postProfile (Some "uid-9") None (Some "ravi@college.edu")
       SampleTeachers.staff = (Success (Some t), teachers')
     /\ t = Teacher.mkTeacherDoc "ravi@college.edu" "uid-9" "ravi" (Some []) (Some []) (Some [])
     /\ TeacherProfile.postProfile (Some "uid-9") None (Some "ravi@college.edu") teachers'
        = (Success (Some t), teachers'))
  /\ exists error,
       TeacherProfile.postProfile (Some "uid-1") None (Some "ravi@college.edu")
         SampleTeachers.staff = (Failure 500 error, SampleTeachers.staff).
Proof.
  assert (Hnd : NoDup (List.map Teacher.t_email SampleTeachers.staff)).
  { apply (bool_decide_unpack _). vm_compute. exact I. }
  split.
  - destruct (postProfile_makes_complete_document "ravi@college.edu" "uid-9" None
                SampleTeachers.staff) as [Hfree _]; [discriminate|discriminate|exact Hnd|].
    destruct (Hfree eq_refl)
      as (t & teachers' & Hrun & _ & _ & _ & _ & _ & _ & _ & _ & Hagain).
    exists t, teachers'. split; [exact Hrun|]. split; [|exact Hagain].
    vm_compute in Hrun. congruence.
  - destruct (postProfile_makes_complete_document "ravi@college.edu" "uid-1" None
                SampleTeachers.staff) as [_ Htaken]; [discriminate|discriminate|exact Hnd|].
    apply Htaken. reflexivity.
Defined.
